(** * LatterThoughts: a proactive conversational agent

    A shallow embedding of the memory store (memory.py), the thought
    engine (inner_thoughts.py), the response classifier
    (response_classifier.py), the information gatherer
    (information_gatherer.py) and the message handler, the proactive
    loops and operator commands of the bot (discord_bot.py), with the
    properties of the specification stated and settled against them.

    Conventions of the embedding.
    - A Python [str] is a [string] holding its UTF-8 bytes.
    - [datetime.now()] is an input of every operation that reads the
      clock, read once per call: an instant is an integer number of
      microseconds, the resolution of [datetime].  Durations and the
      intervals of the configuration are counted in the same unit.  An
      ISO timestamp string is kept as the instant it prints.
    - A [float] is the rational it denotes ([Q]); comparisons of
      floats are exact, and the one arithmetic operation the code
      performs on floats, the product [importance * access_count], is
      rounded to the nearest binary64 number.
    - The answers of the text and search capabilities are inputs: a
      [reply] is the content of an answer or the exception of a call
      that raised.
    - Mutable objects that the code shares by reference (thoughts) live
      in an explicit heap and are named by their location. *)

From Stdlib Require Import ZArith QArith Qround Qabs Ascii.
From stdpp Require Import gmap strings list sorting.

(** ** Dynamic values: what [json.loads] returns *)

Set Warnings "-register-all,-clear-no-such-hyp".

Inductive json :=
| JNull
| JBool (b : bool)
| JNum (q : Q)
| JStr (s : string)
| JArr (items : list json)
| JObj (fields : list (string * json)).

(** Python truthiness of a decoded value: [None], [False], zero, the
    empty string, the empty list and the empty dict are falsy. *)
Definition truthy (v : json) : bool :=
  match v with
  | JNull => false
  | JBool b => b
  | JNum q => negb (Qeq_bool q 0)
  | JStr s => negb (String.eqb s "")
  | JArr items => negb (Nat.eqb (length items) 0)
  | JObj fields => negb (Nat.eqb (length fields) 0)
  end.

(** [json.loads] keeps the last value of a repeated key; the fields of a
    [JObj] are in textual order, so the lookup prefers later bindings. *)
Fixpoint dict_lookup (fields : list (string * json)) (k : string) : option json :=
  match fields with
  | [] => None
  | (k', v) :: rest =>
      match dict_lookup rest k with
      | Some v' => Some v'
      | None => if String.eqb k' k then Some v else None
      end
  end.

(** [d.get(k, default)]: [None] stands for the [AttributeError] raised
    when [d] is not a dict. *)
Definition py_get (d : json) (k : string) (dflt : json) : option json :=
  match d with
  | JObj fields => Some (default dflt (dict_lookup fields k))
  | _ => None
  end.

(** ** Configuration (config.py is not part of the sources read here)

    The options the modelled code reads, taken as a parameter; the
    intervals are in microseconds. *)

Definition time := Z.

Record Config := {
  SHORT_TERM_MEMORY_SIZE : nat;
  LONG_TERM_MEMORY_SIZE : nat;
  THOUGHT_RESERVOIR_SIZE : nat;
  MOTIVATION_THRESHOLD : Q;
  SILENCE_TIMEOUT : Z;
  THOUGHT_GENERATION_INTERVAL : Z;
  MIN_INTERVENTION_INTERVAL : Z;
  MAX_CONSECUTIVE_INTERVENTIONS : Z;
  INFO_SHARE_MOTIVATION_THRESHOLD : Q;
  MAX_DAILY_SHARES : Z
}.

(** ** Data model (memory.py) *)

Module Message.
Record t := mk {
  role : string;
  content : string;
  timestamp : time;
  user_id : string
}.
End Message.

(** The reason strings built by [should_trigger_thought], kept as tagged
    values; the argument is the truncated silence in seconds. *)
Inductive TriggerReason :=
| silence_timeout (s : Z)
| periodic (s : Z)
| new_user_message.

(** A thought is filled from decoded capability output, so its content,
    score and reasoning are dynamic values.  [timestamp = None] is the
    empty string that [generate_thought] writes. *)
Module Thought.
Record t := mk {
  content : json;
  motivation_score : json;
  reasoning : json;
  timestamp : option time;
  triggered_by : TriggerReason;
  expressed : bool
}.
Definition set_motivation_score (v : json) (th : t) : t :=
  mk (content th) v (reasoning th) (timestamp th) (triggered_by th) (expressed th).
Definition set_reasoning (v : json) (th : t) : t :=
  mk (content th) (motivation_score th) v (timestamp th) (triggered_by th) (expressed th).
Definition set_expressed (b : bool) (th : t) : t :=
  mk (content th) (motivation_score th) (reasoning th) (timestamp th) (triggered_by th) b.
End Thought.

Module LongTermMemory.
Record t := mk {
  user_id : string;
  key : string;
  content : string;
  importance : Q;
  created_at : time;
  last_accessed : time;
  access_count : nat
}.
End LongTermMemory.

(** Thought objects are shared by reference: the heap holds them, a
    location is an index into it. *)
Definition loc := nat.
Definition heap := list Thought.t.

Definition alloc (th : Thought.t) (h : heap) : loc * heap :=
  (length h, h ++ [th]).

(** The durable per-user records, by file path. *)
Definition disk := gmap string (list LongTermMemory.t).

Module MemoryManager.
Record t := mk {
  user_id : string;
  short_term : list Message.t;
  long_term : list LongTermMemory.t;
  thought_reservoir : list loc;
  last_user_message_time : option time;
  last_ai_message_time : option time;
  consecutive_ai_messages : nat
}.
End MemoryManager.

Import MemoryManager.

Definition storage_path (uid : string) : string := "memory_store/" +:+ uid.

Definition long_term_path (uid : string) : string :=
  storage_path uid +:+ "/long_term.json".

(** [collections.deque(maxlen=n).append(x)]: append on the right, then
    drop the leftmost element when the size exceeds [maxlen]. *)
Definition deque_append {A} (maxlen : nat) (d : list A) (x : A) : list A :=
  let d' := d ++ [x] in
  if maxlen <? length d' then tail d' else d'.

Definition _save_to_disk (dk : disk) (m : MemoryManager.t) : disk :=
  <[long_term_path (user_id m) := long_term m]> dk.

Definition _load_from_disk (dk : disk) (m : MemoryManager.t) : MemoryManager.t :=
  match dk !! long_term_path (user_id m) with
  | Some data =>
      mk (user_id m) (short_term m) data (thought_reservoir m)
         (last_user_message_time m) (last_ai_message_time m)
         (consecutive_ai_messages m)
  | None => m
  end.

(** [MemoryManager.__init__] *)
Definition new_MemoryManager (dk : disk) (uid : string) : MemoryManager.t :=
  _load_from_disk dk (mk uid [] [] [] None None 0).

(** What a call returns to its caller: a value, or an exception that
    the function does not catch. *)
Inductive outcome (A : Type) :=
| Returned (value : A)
| Exception.
Arguments Returned {A} value.
Arguments Exception {A}.

(** ** Binary64 arithmetic

    Python's [float] is IEEE 754 binary64.  A finite float is the
    rational it denotes; the two infinities, which only arise from an
    overflow, are denoted by [2^1024] and its opposite, which lie
    beyond every finite float, so that the order of floats is the
    order of the rationals that denote them. *)

(** [2^e] for a positive or a negative exponent. *)
Definition pow2 (e : Z) : Q := Qpower 2 e.

(** [floor (log2 q)] for a positive [q]. *)
Definition ilog2 (q : Q) : Z :=
  if Qle_bool 1 q then Z.log2 (Qfloor q)
  else (- Z.log2_up (Qceiling (/ q)))%Z.

(** The nearest integer, a tie going to the even one. *)
Definition round_half_even (q : Q) : Z :=
  let f := Qfloor q in
  match Qcompare (q - inject_Z f) (1 # 2) with
  | Lt => f
  | Gt => (f + 1)%Z
  | Eq => if Z.even f then f else (f + 1)%Z
  end.

Definition float_infinity : Q := pow2 1024.

(** Rounding to the nearest binary64 number, ties to even: 53
    significant bits for a normal number, multiples of [2^-1074] below
    [2^-1022], an infinity from [2^1024 - 2^970] on. *)
Definition float_round (q : Q) : Q :=
  let a := Qabs q in
  let sign := (if Qle_bool 0 q then 1 else -1)%Q in
  if Qeq_bool q 0 then 0%Q
  else
    let e := ilog2 a in
    if (1024 <=? e)%Z then (sign * float_infinity)%Q
    else
      let p := Z.max (e - 52) (-1074) in
      (sign * (inject_Z (round_half_even (a / pow2 p)) * pow2 p))%Q.

(** The conversion of an [int] in a product with a float.  Python
    raises [OverflowError] for an int that rounds beyond the finite
    floats; here such an int converts to the infinity, and the
    properties that depend on the product are stated for ints that
    convert. *)
Definition float_of_int (n : Z) : Q := float_round (inject_Z n).


(** The product of two floats. *)
Definition float_mul (x y : Q) : Q := float_round (x * y).

Section Memory.
Variable config : Config.

Definition add_message (now : time) (role content : string) (m : MemoryManager.t)
  : Message.t * MemoryManager.t :=
  let message := Message.mk role content now (user_id m) in
  let short_term' := deque_append (SHORT_TERM_MEMORY_SIZE config) (short_term m) message in
  if String.eqb role "user" then
    (message,
     mk (user_id m) short_term' (long_term m) (thought_reservoir m)
        (Some now) (last_ai_message_time m) 0)
  else
    (message,
     mk (user_id m) short_term' (long_term m) (thought_reservoir m)
        (last_user_message_time m) (Some now) (consecutive_ai_messages m + 1)).

(** The loop of [add_long_term_memory] over the existing facts: the
    first fact with this key and this user is rewritten in place. *)
Fixpoint update_existing (now : time) (uid key content : string) (importance : Q)
  (l : list LongTermMemory.t) : option (LongTermMemory.t * list LongTermMemory.t) :=
  match l with
  | [] => None
  | mem :: rest =>
      if String.eqb (LongTermMemory.key mem) key
         && String.eqb (LongTermMemory.user_id mem) uid
      then
        let mem' :=
          LongTermMemory.mk (LongTermMemory.user_id mem) (LongTermMemory.key mem)
            content importance (LongTermMemory.created_at mem) now
            (LongTermMemory.access_count mem + 1) in
        Some (mem', mem' :: rest)
      else
        match update_existing now uid key content importance rest with
        | Some (mem', rest') => Some (mem', mem :: rest')
        | None => None
        end
  end.

(** The sort key [importance * access_count]: the product of a float
    and an int, which Python computes by converting the int to a float
    and multiplying in binary64. *)
Definition retention_score (mem : LongTermMemory.t) : Q :=
  float_mul (LongTermMemory.importance mem)
    (float_of_int (Z.of_nat (LongTermMemory.access_count mem))).

(** [list.sort(key=..., reverse=True)]: a stable sort, descending by
    key; elements with equal keys keep their original order. *)
Fixpoint insert_desc {A} (key : A -> Q) (x : A) (sorted : list A) : list A :=
  match sorted with
  | [] => [x]
  | y :: rest =>
      if Qle_bool (key y) (key x) then x :: y :: rest
      else y :: insert_desc key x rest
  end.

Fixpoint sort_desc {A} (key : A -> Q) (l : list A) : list A :=
  match l with
  | [] => []
  | x :: rest => insert_desc key x (sort_desc key rest)
  end.

Definition set_long_term (l : list LongTermMemory.t) (m : MemoryManager.t) : MemoryManager.t :=
  mk (user_id m) (short_term m) l (thought_reservoir m)
     (last_user_message_time m) (last_ai_message_time m) (consecutive_ai_messages m).

Definition add_long_term_memory (now : time) (key content : string) (importance : Q)
  (st : disk * MemoryManager.t) : LongTermMemory.t * (disk * MemoryManager.t) :=
  let '(dk, m) := st in
  match update_existing now (user_id m) key content importance (long_term m) with
  | Some (mem, l') =>
      let m' := set_long_term l' m in
      (mem, (_save_to_disk dk m', m'))
  | None =>
      let memory := LongTermMemory.mk (user_id m) key content importance now now 1 in
      let l1 := long_term m ++ [memory] in
      let l2 :=
        if LONG_TERM_MEMORY_SIZE config <? length l1
        then take (LONG_TERM_MEMORY_SIZE config) (sort_desc retention_score l1)
        else l1 in
      let m' := set_long_term l2 m in
      (memory, (_save_to_disk dk m', m'))
  end.

Definition add_thought (now : time) (content motivation_score reasoning : json)
  (triggered_by : TriggerReason) (st : heap * MemoryManager.t)
  : loc * (heap * MemoryManager.t) :=
  let '(h, m) := st in
  let thought := Thought.mk content motivation_score reasoning (Some now) triggered_by false in
  let '(l, h') := alloc thought h in
  (l, (h',
       mk (user_id m) (short_term m) (long_term m)
          (deque_append (THOUGHT_RESERVOIR_SIZE config) (thought_reservoir m) l)
          (last_user_message_time m) (last_ai_message_time m)
          (consecutive_ai_messages m))).

Definition mark_thought_expressed (l : loc) (h : heap) : heap :=
  alter (Thought.set_expressed true) l h.

(** [score >= min_score] on a dynamic score: numbers compare, [True]
    and [False] compare as 1 and 0, anything else raises [TypeError]
    ([None]). *)
Definition at_least (score : json) (min_score : Q) : option bool :=
  match score with
  | JNum q => Some (Qle_bool min_score q)
  | JBool b => Some (Qle_bool min_score (if b then 1 else 0))
  | _ => None
  end.

(** The filter of [get_pending_thoughts] over the reservoir: a thought
    that is expressed is skipped before its score is looked at, the
    score of any other is compared with [min_score] ([None] is the
    [TypeError] of a score that is not a number). *)
Fixpoint pending_among (min_score : Q) (h : heap) (reservoir : list loc)
  : option (list loc) :=
  match reservoir with
  | [] => Some []
  | l :: rest =>
      match h !! l with
      | None => None
      | Some th =>
          if Thought.expressed th then pending_among min_score h rest
          else
            match at_least (Thought.motivation_score th) min_score with
            | None => None
            | Some keep =>
                match pending_among min_score h rest with
                | None => None
                | Some more => Some (if keep then l :: more else more)
                end
            end
      end
  end.

Definition get_pending_thoughts (min_score : Q) (h : heap) (m : MemoryManager.t)
  : outcome (list loc) :=
  match pending_among min_score h (thought_reservoir m) with
  | Some pending => Returned pending
  | None => Exception
  end.

(** The condition of the comprehension, for a call that returns: the
    thought at the location is unexpressed and its score is at least
    [min_score]. *)
Definition qualifies (min_score : Q) (h : heap) (l : loc) : bool :=
  match h !! l with
  | Some th =>
      negb (Thought.expressed th)
      && bool_decide (at_least (Thought.motivation_score th) min_score = Some true)
  | None => false
  end.

Definition get_silence_duration (now : time) (m : MemoryManager.t) : Z :=
  match last_user_message_time m with
  | None => 0%Z
  | Some t => (now - t)%Z
  end.

Definition can_intervene (now : time) (m : MemoryManager.t) : bool :=
  if (MAX_CONSECUTIVE_INTERVENTIONS config <=? Z.of_nat (consecutive_ai_messages m))%Z then false
  else
    match last_ai_message_time m with
    | Some t => if (now - t <? MIN_INTERVENTION_INTERVAL config)%Z then false else true
    | None => true
    end.

End Memory.

(** ** Text helpers

    [str_find sub s] is [s.find(sub)] ([None] for [-1]); [str_drop] and
    [str_take] are the slices [s[n:]] and [s[:n]]. *)

Fixpoint str_find (sub s : string) : option nat :=
  if String.prefix sub s then Some 0
  else
    match s with
    | EmptyString => None
    | String _ rest => option_map S (str_find sub rest)
    end.

Fixpoint str_drop (n : nat) (s : string) : string :=
  match n, s with
  | 0, _ => s
  | S k, String _ rest => str_drop k rest
  | S _, EmptyString => EmptyString
  end.

Fixpoint str_take (n : nat) (s : string) : string :=
  match n, s with
  | 0, _ => EmptyString
  | S k, String c rest => String c (str_take k rest)
  | S _, EmptyString => EmptyString
  end.

(** [sub in s] *)
Definition str_contains (sub s : string) : bool :=
  match str_find sub s with Some _ => true | None => false end.

Definition bytes (l : list nat) : string :=
  String.string_of_list_ascii (map ascii_of_nat l).

(** The characters that [\s] and [str.strip] treat as white space, in
    UTF-8: U+0009-000D, U+001C-001F, U+0020, U+0085, U+00A0, U+1680,
    U+2000-200A, U+2028, U+2029, U+202F, U+205F, U+3000. *)
Definition whitespace : list string :=
  map (fun n => bytes [n]) [9; 10; 11; 12; 13; 28; 29; 30; 31; 32]
  ++ [bytes [194; 133]; bytes [194; 160]; bytes [225; 154; 128]]
  ++ map (fun n => bytes [226; 128; n]) [128; 129; 130; 131; 132; 133; 134; 135; 136; 137; 138]
  ++ [bytes [226; 128; 168]; bytes [226; 128; 169]; bytes [226; 128; 175];
      bytes [226; 129; 159]; bytes [227; 128; 128]].

(** Number of bytes of the white-space character that [s] starts with,
    [0] when it starts with none. *)
Definition space_width (s : string) : nat :=
  match List.find (fun w => String.prefix w s) whitespace with
  | Some w => String.length w
  | None => 0
  end.

(** [s.lstrip()]; [skip] counts the bytes left of the white-space
    character being dropped. *)
Fixpoint lstrip_from (skip : nat) (s : string) : string :=
  match s with
  | EmptyString => EmptyString
  | String _ rest =>
      match skip with
      | S k => lstrip_from k rest
      | 0 =>
          match space_width s with
          | 0 => s
          | S k => lstrip_from k rest
          end
      end
  end.

Definition lstrip (s : string) : string := lstrip_from 0 s.

Fixpoint rstrip (s : string) : string :=
  match s with
  | EmptyString => EmptyString
  | String c rest =>
      if String.eqb (lstrip s) EmptyString then EmptyString
      else String c (rstrip rest)
  end.

(** [s.strip()] *)
Definition strip (s : string) : string := rstrip (lstrip s).

Definition fence : string := "```".

(** The lazy group of the fence pattern followed by [\s*```]: the length
    of the shortest prefix of [s] after which only white space separates
    from a fence. *)
Fixpoint lazy_until_fence (s : string) : option nat :=
  if String.prefix fence (lstrip s) then Some 0
  else
    match s with
    | EmptyString => None
    | String _ rest => option_map S (lazy_until_fence rest)
    end.

(** [re.search(r'```(?:json)?\s*([\s\S]*?)\s*```', text)], returning
    group 1.  The search succeeds at the first fence of the text or
    nowhere: a later start needs a closing fence that also closes the
    first one.  After the opening fence the optional [json] and the
    greedy white space are taken (neither holds a backquote, so giving
    them back opens no further match), and the lazy group stops at the
    first place where white space and a fence follow. *)
Definition fence_search (text : string) : option string :=
  match str_find fence text with
  | None => None
  | Some i =>
      let rest := str_drop (i + 3) text in
      let rest1 := if String.prefix "json" rest then str_drop 4 rest else rest in
      let rest2 := lstrip rest1 in
      match lazy_until_fence rest2 with
      | Some e => Some (str_take e rest2)
      | None => None
      end
  end.

(** The bracket-counting loop over [text[start_idx:]]: the number of
    characters up to and including the bracket that brings the count
    back to zero, [None] when the loop ends without [break]. *)
Fixpoint scan_brackets (open_bracket close_bracket : ascii) (bracket_count : Z)
  (s : string) : option nat :=
  match s with
  | EmptyString => None
  | String char rest =>
      if Ascii.eqb char open_bracket then
        option_map S (scan_brackets open_bracket close_bracket (bracket_count + 1) rest)
      else if Ascii.eqb char close_bracket then
        if (bracket_count - 1 =? 0)%Z then Some 1
        else option_map S (scan_brackets open_bracket close_bracket (bracket_count - 1) rest)
      else option_map S (scan_brackets open_bracket close_bracket bracket_count rest)
  end.

(** The reply of a capability call: the text of the reply, or the
    message of the exception the call raised (a reply without content
    raises as soon as it is used as a string). *)
Inductive reply :=
| Text (content : string)
| Raised (message : string).

(** ** The thought engine (inner_thoughts.py) *)

Module InnerThoughtsEngine.
Section Engine.
Variable config : Config.

(** [json.loads]; [None] is [JSONDecodeError]. *)
Variable json_loads : string -> option json.

(** [InnerThoughtsEngine._extract_json]. Python's [None] is [JNull],
    whether it comes from [json.loads("null")] or from the last line. *)
Definition extract_direct (text : string) : json :=
  let start_idx :=
    Nat.min (default (String.length text) (str_find "{" text))
            (default (String.length text) (str_find "[" text)) in
  if start_idx <? String.length text then
    let open_bracket := default "{"%char (String.get start_idx text) in
    let close_bracket := if Ascii.eqb open_bracket "{" then "}"%char else "]"%char in
    let end_idx :=
      match scan_brackets open_bracket close_bracket 0 (str_drop start_idx text) with
      | Some n => start_idx + n
      | None => start_idx
      end in
    match json_loads (str_take (end_idx - start_idx) (str_drop start_idx text)) with
    | Some v => v
    | None => JNull
    end
  else JNull.

Definition _extract_json (text : string) : json :=
  match fence_search text with
  | Some group =>
      match json_loads group with
      | Some v => v
      | None => extract_direct text
      end
  | None => extract_direct text
  end.

(** [int(silence)] for a duration in microseconds. *)
Definition whole_seconds (d : Z) : Z := (d ÷ 1000000)%Z.

Definition should_trigger_thought (now : time) (m : MemoryManager.t) : option TriggerReason :=
  let silence := get_silence_duration now m in
  if (SILENCE_TIMEOUT config <? silence)%Z then Some (silence_timeout (whole_seconds silence))
  else if bool_decide (is_Some (last_user_message_time m))
          && (THOUGHT_GENERATION_INTERVAL config <? silence)%Z
  then Some (periodic (whole_seconds silence))
  else
    match last (short_term m) with
    | Some msg => if String.eqb (Message.role msg) "user" then Some new_user_message else None
    | None => None
    end.

(** [generate_thought]: the new thought object and the draft, or [None].
    The prompt is built from the pending thoughts before the [try]:
    when [get_pending_thoughts] raises, so does [generate_thought].
    Every exception of what follows is caught. *)
Definition generate_thought (thought_reply : reply) (trigger_reason : TriggerReason)
  (st : heap * MemoryManager.t) : outcome (option (loc * json)) * heap :=
  let '(h, memory) := st in
  match get_pending_thoughts 0 h memory with
  | Exception => (Exception, h)
  | Returned pending =>
      match thought_reply with
      | Raised _ => (Returned None, h)
      | Text content =>
          let result := _extract_json content in
          if negb (truthy result) then (Returned None, h)
          else
            match py_get result "thought" (JStr "") with
            | None => (Returned None, h)
            | Some thought_content =>
                match py_get result "potential_response" thought_content with
                | None => (Returned None, h)
                | Some potential_response =>
                    let '(l, h') :=
                      alloc (Thought.mk thought_content (JNum 0) (JStr "") None
                               trigger_reason false) h in
                    (Returned (Some (l, potential_response)), h')
                end
            end
      end
  end.

Definition evaluate_motivation (eval_reply : reply) : json :=
  match eval_reply with
  | Raised message =>
      JObj [("overall_score", JNum 0); ("should_speak", JBool false);
            ("reasoning", JStr message)]
  | Text content =>
      let result := _extract_json content in
      if negb (truthy result) then
        JObj [("overall_score", JNum 0); ("should_speak", JBool false);
              ("reasoning", JStr "Parse error")]
      else result
  end.

(** [generate_proactive_response] and [generate_silence_break]: the
    stripped reply, the empty string when the call raised. *)
Definition generate_proactive_response (render_reply : reply) : string :=
  match render_reply with
  | Text content => strip content
  | Raised _ => ""
  end.

Definition generate_silence_break (silence_reply : reply) : string :=
  match silence_reply with
  | Text content => strip content
  | Raised _ => ""
  end.

(** [generate_reactive_response] *)
Definition fallback_message : string := "ごめん、ちょっと調子悪いみたい...".

Definition generate_reactive_response (reactive_reply : reply) : string :=
  match reactive_reply with
  | Text content => strip content
  | Raised _ => fallback_message
  end.

(** [score >= threshold] on a dynamic score: numbers compare, [True] and
    [False] compare as 1 and 0, anything else raises [TypeError]
    ([None]). *)
Definition score_ge (score : json) (threshold : Q) : option bool :=
  match score with
  | JNum q => Some (Qle_bool threshold q)
  | JBool b => Some (Qle_bool threshold (if b then 1 else 0))
  | _ => None
  end.

(** The replies of the capability calls one cycle can make. *)
Record CycleReplies := {
  thought_reply : reply;
  eval_reply : reply;
  render_reply : reply;
  silence_reply : reply
}.

(** [process_proactive_cycle]: the utterance to deliver (or [None]) and
    the heap and store it leaves. *)
Definition process_proactive_cycle (now : time) (r : CycleReplies)
  (st : heap * MemoryManager.t) : outcome (option string) * (heap * MemoryManager.t) :=
  let '(h, memory) := st in
  if negb (can_intervene config now memory) then (Returned None, st)
  else
    match should_trigger_thought now memory with
    | None => (Returned None, st)
    | Some (silence_timeout s) => (Returned (Some (generate_silence_break (silence_reply r))), st)
    | Some trigger_reason =>
        match generate_thought (thought_reply r) trigger_reason (h, memory) with
        | (Exception, h1) => (Exception, (h1, memory))
        | (Returned None, h1) => (Returned None, (h1, memory))
        | (Returned (Some (thought, potential_response)), h1) =>
            let evaluation := evaluate_motivation (eval_reply r) in
            match py_get evaluation "overall_score" (JNum 0) with
            | None => (Exception, (h1, memory))
            | Some score =>
                let h2 := alter (Thought.set_motivation_score score) thought h1 in
                match py_get evaluation "reasoning" (JStr "") with
                | None => (Exception, (h2, memory))
                | Some reasoning =>
                    let h3 := alter (Thought.set_reasoning reasoning) thought h2 in
                    let content := default JNull (Thought.content <$> h3 !! thought) in
                    let '(_, st4) :=
                      add_thought config now content score reasoning trigger_reason
                        (h3, memory) in
                    match score_ge score (MOTIVATION_THRESHOLD config) with
                    | None => (Exception, st4)
                    | Some false => (Returned None, st4)
                    | Some true =>
                        match py_get evaluation "should_speak" (JBool false) with
                        | None => (Exception, st4)
                        | Some should_speak =>
                            if truthy should_speak then
                              let response := generate_proactive_response (render_reply r) in
                              if negb (String.eqb response "") then
                                (Returned (Some response),
                                 (alter (Thought.set_expressed true) thought st4.1, st4.2))
                              else (Returned None, st4)
                            else (Returned None, st4)
                        end
                    end
                end
            end
        end
    end.

End Engine.
End InnerThoughtsEngine.

(** ** A reference decoder for the examples

    The engine, the classifier and the gatherer are stated over any
    [json_loads].  The examples below run them with this decoder of the
    JSON grammar: objects, arrays, strings with the one-letter escapes,
    numbers with fraction and exponent, [true], [false] and [null],
    separated by the four JSON white-space characters; anything after
    the value is an error.  A number written with a fraction or an
    exponent is a float, the nearest binary64 number to the decimal; a
    number written without is an int, kept exact.  ([\u] escapes and
    the literals [NaN] and [Infinity] are not covered: it answers [None]
    on them.) *)

Module Decoder.

Fixpoint skip_ws (s : string) : string :=
  match s with
  | String c rest =>
      if (Ascii.eqb c " " || Ascii.eqb c "009" || Ascii.eqb c "010" || Ascii.eqb c "013")%char
      then skip_ws rest else s
  | EmptyString => s
  end.

Definition is_digit (c : ascii) : bool :=
  (48 <=? nat_of_ascii c) && (nat_of_ascii c <=? 57).

(** The digits [s] starts with: their value, their number, the rest. *)
Fixpoint digits (acc : Z) (count : nat) (s : string) : Z * nat * string :=
  match s with
  | String c rest =>
      if is_digit c
      then digits (10 * acc + Z.of_nat (nat_of_ascii c - 48))%Z (S count) rest
      else (acc, count, s)
  | EmptyString => (acc, count, s)
  end.

Definition expect (c : ascii) (s : string) : option string :=
  match s with
  | String c' rest => if Ascii.eqb c c' then Some rest else None
  | EmptyString => None
  end.

Definition number (s : string) : option (json * string) :=
  let '(negative, s1) :=
    match expect "-" s with Some r => (true, r) | None => (false, s) end in
  let '(int_part, n_int, s2) := digits 0 0 s1 in
  if (n_int =? 0) || ((1 <? n_int) && String.prefix "0" s1) then None
  else
    let '(mantissa, n_frac, s3) :=
      match expect "." s2 with
      | Some r =>
          let '(m, n, r') := digits int_part 0 r in
          if n =? 0 then (int_part, 0, s2) else (m, n, r')
      | None => (int_part, 0, s2)
      end in
    let '(exponent, has_exponent, s4) :=
      match s3 with
      | String c r =>
          if (Ascii.eqb c "e" || Ascii.eqb c "E")%char then
            let '(sign, r1) :=
              match r with
              | String d r' =>
                  if Ascii.eqb d "-" then ((-1)%Z, r')
                  else if Ascii.eqb d "+" then (1%Z, r')
                  else (1%Z, r)
              | EmptyString => (1%Z, r)
              end in
            let '(e, n, r2) := digits 0 0 r1 in
            if n =? 0 then (0%Z, false, s3) else ((sign * e)%Z, true, r2)
          else (0%Z, false, s3)
      | EmptyString => (0%Z, false, s3)
      end in
    let magnitude :=
      (inject_Z mantissa * Qpower (10 # 1) (exponent - Z.of_nat n_frac))%Q in
    let value := (if negative then - magnitude else magnitude)%Q in
    let is_float := negb (n_frac =? 0) || has_exponent in
    Some (JNum (Qred (if is_float then float_round value else value)), s4).

(** The characters of a string literal after its opening quote. *)
Fixpoint string_body (s : string) : option (string * string) :=
  match s with
  | EmptyString => None
  | String c rest =>
      if Ascii.eqb c "034" then Some (EmptyString, rest)
      else if Ascii.eqb c "\" then
        match rest with
        | String e rest' =>
            let unescaped :=
              if Ascii.eqb e "034" then Some "034"%char
              else if Ascii.eqb e "\" then Some "\"%char
              else if Ascii.eqb e "/" then Some "/"%char
              else if Ascii.eqb e "b" then Some "008"%char
              else if Ascii.eqb e "f" then Some "012"%char
              else if Ascii.eqb e "n" then Some "010"%char
              else if Ascii.eqb e "r" then Some "013"%char
              else if Ascii.eqb e "t" then Some "009"%char
              else None in
            match unescaped, string_body rest' with
            | Some u, Some (body, after) => Some (String u body, after)
            | _, _ => None
            end
        | EmptyString => None
        end
      else if nat_of_ascii c <? 32 then None
      else
        match string_body rest with
        | Some (body, after) => Some (String c body, after)
        | None => None
        end
  end.

Fixpoint value (fuel : nat) (s : string) : option (json * string) :=
  match fuel with
  | 0 => None
  | S fuel' =>
      match s with
      | EmptyString => None
      | String c rest =>
          if Ascii.eqb c "{" then
            match skip_ws rest with
            | String "}" after => Some (JObj [], after)
            | inner =>
                match members fuel' inner with
                | Some (fields, after) => Some (JObj fields, after)
                | None => None
                end
            end
          else if Ascii.eqb c "[" then
            match skip_ws rest with
            | String "]" after => Some (JArr [], after)
            | inner =>
                match elements fuel' inner with
                | Some (items, after) => Some (JArr items, after)
                | None => None
                end
            end
          else if Ascii.eqb c "034" then
            match string_body rest with
            | Some (body, after) => Some (JStr body, after)
            | None => None
            end
          else if String.prefix "null" s then Some (JNull, str_drop 4 s)
          else if String.prefix "true" s then Some (JBool true, str_drop 4 s)
          else if String.prefix "false" s then Some (JBool false, str_drop 5 s)
          else number s
      end
  end
with elements (fuel : nat) (s : string) : option (list json * string) :=
  match fuel with
  | 0 => None
  | S fuel' =>
      match value fuel' s with
      | None => None
      | Some (v, after) =>
          match skip_ws after with
          | String "]" after' => Some ([v], after')
          | String "," after' =>
              match elements fuel' (skip_ws after') with
              | Some (vs, after'') => Some (v :: vs, after'')
              | None => None
              end
          | _ => None
          end
      end
  end
with members (fuel : nat) (s : string) : option (list (string * json) * string) :=
  match fuel with
  | 0 => None
  | S fuel' =>
      match expect "034" s with
      | None => None
      | Some r =>
          match string_body r with
          | None => None
          | Some (k, after_key) =>
              match expect ":" (skip_ws after_key) with
              | None => None
              | Some r' =>
                  match value fuel' (skip_ws r') with
                  | None => None
                  | Some (v, after) =>
                      match skip_ws after with
                      | String "}" after' => Some ([(k, v)], after')
                      | String "," after' =>
                          match members fuel' (skip_ws after') with
                          | Some (kvs, after'') => Some ((k, v) :: kvs, after'')
                          | None => None
                          end
                      | _ => None
                      end
                  end
              end
          end
      end
  end.

Definition json_loads (s : string) : option json :=
  match value (2 * String.length s + 2) (skip_ws s) with
  | Some (v, after) =>
      match skip_ws after with
      | EmptyString => Some v
      | _ => None
      end
  | None => None
  end.

End Decoder.

(** Example texts are written with apostrophes where the reply has
    double quotes. *)
Fixpoint quoted (s : string) : string :=
  match s with
  | EmptyString => EmptyString
  | String c rest => String (if Ascii.eqb c "'" then "034"%char else c) (quoted rest)
  end.

(** ** The response classifier (response_classifier.py) *)

Module ResponseClassifier.

(** [action] and [reason] are read from the decoded reply and are
    dynamic values; [reaction] is the symbol to attach, if any. *)
Record ResponseDecision := {
  action : json;
  reaction : option string;
  reason : json
}.

Definition REACTIONS : list (string * string) :=
  [("acknowledge", "👍"); ("thanks", "😊"); ("understood", "👌");
   ("funny", "😂"); ("sad", "🥲"); ("love", "❤️"); ("cool", "🔥");
   ("thinking", "🤔"); ("surprise", "😮"); ("celebrate", "🎉");
   ("sleepy", "😴"); ("food", "🤤"); ("eyes", "👀")].

Fixpoint table_get (table : list (string * string)) (k : string) : option string :=
  match table with
  | [] => None
  | (k', v) :: rest => if String.eqb k' k then Some v else table_get rest k
  end.

(** [REACTIONS.get(reaction_type)] on a dynamic key: a string is looked
    up, a list or a dict is unhashable and raises [TypeError], any other
    value is not a key of the table. *)
Definition REACTIONS_get (reaction_type : json) : outcome (option string) :=
  match reaction_type with
  | JStr tag => Returned (table_get REACTIONS tag)
  | JArr _ | JObj _ => Exception
  | _ => Returned None
  end.

Section Classifier.
Variable json_loads : string -> option json.

(** [str(e)] for the exception raised on a value that is not a dict or
    cannot be a key. *)
Variable error_text : json -> string.

Definition extract_direct (text : string) : json :=
  match str_find "{" text with
  | None => JNull
  | Some start_idx =>
      match scan_brackets "{" "}" 0 (str_drop start_idx text) with
      | Some n =>
          match json_loads (str_take n (str_drop start_idx text)) with
          | Some v => v
          | None => JNull
          end
      | None => JNull
      end
  end.

Definition _extract_json (text : string) : json :=
  match fence_search text with
  | Some group =>
      match json_loads group with
      | Some v => v
      | None => extract_direct text
      end
  | None => extract_direct text
  end.

Definition error_decision (message : string) : ResponseDecision :=
  {| action := JStr "reply"; reaction := None; reason := JStr ("Error: " +:+ message) |}.

Definition classify (classify_reply : reply) : ResponseDecision :=
  match classify_reply with
  | Raised message => error_decision message
  | Text text =>
      let result := _extract_json text in
      if negb (truthy result) then
        {| action := JStr "reply"; reaction := None;
           reason := JStr "Parse error - defaulting to reply" |}
      else
        match py_get result "action" (JStr "reply"),
              py_get result "reaction_type" JNull,
              py_get result "reason" (JStr "") with
        | Some action, Some reaction_type, Some reason =>
            if truthy reaction_type then
              match REACTIONS_get reaction_type with
              | Returned reaction =>
                  {| action := action; reaction := reaction; reason := reason |}
              | Exception => error_decision (error_text reaction_type)
              end
            else {| action := action; reaction := None; reason := reason |}
        | _, _, _ => error_decision (error_text result)
        end
  end.

End Classifier.
End ResponseClassifier.

(** ** The summary of the long-term facts (memory.py) *)

Definition newline : string := String "010" EmptyString.

Fixpoint join (sep : string) (parts : list string) : string :=
  match parts with
  | [] => EmptyString
  | [p] => p
  | p :: rest => p +:+ sep +:+ join sep rest
  end.

Definition no_memories_summary : string :=
  "まだユーザーについての情報がありません。".

Definition get_all_memories_summary (m : MemoryManager.t) : string :=
  match long_term m with
  | [] => no_memories_summary
  | _ =>
      let summaries :=
        map (fun mem => "- " +:+ LongTermMemory.key mem +:+ ": " +:+ LongTermMemory.content mem)
            (sort_desc LongTermMemory.importance (long_term m)) in
      join newline (take 10 summaries)
  end.

(** ** The information gatherer (information_gatherer.py) *)

Module InformationGatherer.

(** One decoded result of the search capability, with the fields the
    code reads (a missing field is its default). *)
Record SearchResult := {
  result_title : string;
  result_url : string;
  result_description : string;
  result_hostname : string;
  result_age : option string
}.

Record Article := {
  title : string;
  url : string;
  description : string;
  source : string;
  published : option string;
  search_query : json;
  found_at : time;
  relevance_score : json;
  shared : bool
}.

Definition set_relevance_score (score : json) (a : Article) : Article :=
  {| title := title a; url := url a; description := description a; source := source a;
     published := published a; search_query := search_query a; found_at := found_at a;
     relevance_score := score; shared := shared a |}.

Definition set_shared (b : bool) (a : Article) : Article :=
  {| title := title a; url := url a; description := description a; source := source a;
     published := published a; search_query := search_query a; found_at := found_at a;
     relevance_score := relevance_score a; shared := b |}.

(** The gatherer's own state: per user, the URLs already found, the
    shares of the day and the instant of the last reset. *)
Record t := {
  seen_urls : gmap string (gset string);
  daily_shares : gmap string Z;
  last_share_reset : gmap string time
}.

(** The replies of the capabilities during one call of
    [find_shareable_article]: the searches are numbered in call order,
    the relevance replies by the position of the article. *)
Record Capabilities := {
  interests_reply : reply;
  search_brave : nat -> json -> list SearchResult;
  relevance_reply : nat -> reply;
  share_reply : reply
}.

(** [re.search(open + '.*?' + close, text, re.DOTALL)] for one-character
    [open] and [close]: from the first [open] to the first [close] after
    it. *)
Definition lazy_span (open_char close_char : string) (text : string) : option string :=
  match str_find open_char text with
  | None => None
  | Some i =>
      match str_find close_char (str_drop (i + 1) text) with
      | None => None
      | Some j => Some (str_take (j + 2) (str_drop i text))
      end
  end.

(** [datetime.date()] as a day number, for instants in microseconds. *)
Definition date (instant : time) : Z := (instant / 86400000000)%Z.

Section Gatherer.
Variable config : Config.
Variable json_loads : string -> option json.

(** The items of the decoded interest list; a decoded value that is not
    a list cannot come out of a span that starts with a bracket. *)
Definition extract_interests (r : reply) (memory : MemoryManager.t) : list json :=
  let memories_summary := get_all_memories_summary memory in
  if String.eqb memories_summary "" || String.eqb memories_summary no_memories_summary
  then []
  else
    match r with
    | Raised _ => []
    | Text text =>
        match lazy_span "[" "]" text with
        | None => []
        | Some span =>
            match json_loads span with
            | Some (JArr items) => items
            | _ => []
            end
        end
    end.

(** The inner loop of [search_for_user] over the results of one query. *)
Fixpoint collect_results (now : time) (interest : json) (results : list SearchResult)
  (seen : gset string) : list Article * gset string :=
  match results with
  | [] => ([], seen)
  | result :: rest =>
      let url := result_url result in
      if bool_decide (url ∈ seen) then collect_results now interest rest seen
      else
        let article :=
          {| title := result_title result; url := url;
             description := result_description result;
             source := result_hostname result; published := result_age result;
             search_query := interest; found_at := now;
             relevance_score := JNum 0; shared := false |} in
        let '(articles, seen') := collect_results now interest rest (seen ∪ {[url]}) in
        (article :: articles, seen')
  end.

(** The outer loop, over [interests[:3]]; [i] numbers the searches. *)
Fixpoint search_interests (now : time) (search : nat -> json -> list SearchResult)
  (i : nat) (interests : list json) (seen : gset string) : list Article * gset string :=
  match interests with
  | [] => ([], seen)
  | interest :: rest =>
      let '(found, seen1) := collect_results now interest (search i interest) seen in
      let '(more, seen2) := search_interests now search (S i) rest seen1 in
      (found ++ more, seen2)
  end.

(** [search_for_user(memory)], called without interests. *)
Definition search_for_user (now : time) (c : Capabilities) (memory : MemoryManager.t)
  (g : t) : list Article * t :=
  let user_id := MemoryManager.user_id memory in
  let interests := extract_interests (interests_reply c) memory in
  match interests with
  | [] => ([], g)
  | _ =>
      let seen := default ∅ (seen_urls g !! user_id) in
      let '(articles, seen') :=
        search_interests now (search_brave c) 0 (take 3 interests) seen in
      (articles,
       {| seen_urls := <[user_id := seen']> (seen_urls g);
          daily_shares := daily_shares g;
          last_share_reset := last_share_reset g |})
  end.

(** The extraction written inline in [evaluate_article_relevance]: the
    value decoded from the span that [\{.*?\}] matches, Python's [None]
    when nothing matches or the span does not decode. *)
Definition extract_inline (text : string) : json :=
  match lazy_span "{" "}" text with
  | None => JNull
  | Some span => default JNull (json_loads span)
  end.

(** [evaluate_article_relevance]: the decoded [overall_score], [0] when
    nothing is found or anything raises. *)
Definition evaluate_article_relevance (r : reply) : json :=
  match r with
  | Raised _ => JNum 0
  | Text text =>
      match lazy_span "{" "}" text with
      | None => JNum 0
      | Some span =>
          match json_loads span with
          | None => JNum 0
          | Some result => default (JNum 0) (py_get result "overall_score" (JNum 0))
          end
      end
  end.

Definition generate_share_message (r : reply) : string :=
  match r with
  | Text content => strip content
  | Raised _ => ""
  end.

Definition _can_share_today (now : time) (user_id : string) (g : t) : bool * t :=
  let g' :=
    match last_share_reset g !! user_id with
    | Some last =>
        if (date last <? date now)%Z then
          {| seen_urls := seen_urls g;
             daily_shares := <[user_id := 0%Z]> (daily_shares g);
             last_share_reset := <[user_id := now]> (last_share_reset g) |}
        else g
    | None =>
        {| seen_urls := seen_urls g;
           daily_shares := <[user_id := 0%Z]> (daily_shares g);
           last_share_reset := <[user_id := now]> (last_share_reset g) |}
    end in
  ((default 0 (daily_shares g' !! user_id) <? MAX_DAILY_SHARES config)%Z, g').

Definition _increment_daily_shares (user_id : string) (g : t) : t :=
  {| seen_urls := seen_urls g;
     daily_shares := <[user_id := (default 0 (daily_shares g !! user_id) + 1)%Z]> (daily_shares g);
     last_share_reset := last_share_reset g |}.

(** The numeric value of a dynamic score in a comparison; [None] is the
    [TypeError] of comparing something that is not a number. *)
Definition as_number (v : json) : option Q :=
  match v with
  | JNum q => Some q
  | JBool b => Some (if b then 1 else 0)%Q
  | _ => None
  end.

(** The evaluation loop of [find_shareable_article]; [i] is the position
    of the article.  [None] is an uncaught [TypeError]. *)
Fixpoint pick_best (relevance : nat -> reply) (i : nat) (articles : list Article)
  (best_article : option Article) (best_score : Q) : option (option Article) :=
  match articles with
  | [] => Some best_article
  | article :: rest =>
      let score := evaluate_article_relevance (relevance i) in
      let article := set_relevance_score score article in
      match as_number score with
      | None => None
      | Some q =>
          if negb (Qle_bool q best_score)
             && Qle_bool (INFO_SHARE_MOTIVATION_THRESHOLD config) q
          then pick_best relevance (S i) rest (Some article) q
          else pick_best relevance (S i) rest best_article best_score
      end
  end.

Definition find_shareable_article (now : time) (c : Capabilities)
  (memory : MemoryManager.t) (g : t) : outcome (option (Article * string)) * t :=
  let user_id := MemoryManager.user_id memory in
  let '(allowed, g1) := _can_share_today now user_id g in
  if negb allowed then (Returned None, g1)
  else
    let '(articles, g2) := search_for_user now c memory g1 in
    match articles with
    | [] => (Returned None, g2)
    | _ =>
        match pick_best (relevance_reply c) 0 articles None 0 with
        | None => (Exception, g2)
        | Some None => (Returned None, g2)
        | Some (Some best_article) =>
            let message := generate_share_message (share_reply c) in
            if negb (String.eqb message "") then
              (Returned (Some (set_shared true best_article, message)),
               _increment_daily_shares user_id g2)
            else (Returned None, g2)
        end
    end.

End Gatherer.
End InformationGatherer.

(** ** The bot: message handler and operator commands (discord_bot.py) *)

Module ProactiveAIBot.

(** What the handler does to the outside: log lines, reactions and
    messages sent, oldest first. *)
Inductive Event :=
| log_user_message (user_id content : string)
| log_ai_response (user_id content : string) (is_proactive : bool)
| add_reaction (symbol : string)
| send (content : string).

(** The registry of stores, the durable records and the trace. *)
Record t := {
  memories : gmap string MemoryManager.t;
  files : disk;
  events : list Event
}.

(** The replies of the capability calls one inbound message can cause. *)
Record MessageReplies := {
  classify_reply : reply;
  reactive_reply : reply;
  extraction_reply : reply
}.

Section Bot.
Variable config : Config.
Variable json_loads : string -> option json.
Variable error_text : json -> string.

Definition _get_memory (user_id : string) (bot : t) : MemoryManager.t * t :=
  match memories bot !! user_id with
  | Some memory => (memory, bot)
  | None =>
      let memory := new_MemoryManager (files bot) user_id in
      (memory,
       {| memories := <[user_id := memory]> (memories bot);
          files := files bot; events := events bot |})
  end.

(** The [!forget] command. *)
Definition forget_memories (user_id : string) (bot : t) : t :=
  {| memories := delete user_id (memories bot);
     files := files bot;
     events := events bot ++ [send "記憶をリセットしました。また一から仲良くなりましょう！"] |}.

(** [InnerThoughtsEngine.extract_memories] *)
Definition extract_memories (r : reply) : list json :=
  match r with
  | Raised _ => []
  | Text content =>
      match InnerThoughtsEngine._extract_json json_loads content with
      | JArr items => items
      | _ => []
      end
  end.

(** The arguments [_extract_and_save_memories] reads from one extracted
    entry.  An entry that is not a dict raises [AttributeError], which
    ends the loop.  The facts of the store are typed as the dataclass
    declares them ([key: str], [content: str], [importance: float]);
    Python does not check these types, and an entry with a field of
    another type is stored as it is, which the typed store cannot
    hold: the model follows the loop up to the first such entry and
    states nothing about the long-term facts from there on.  The
    properties of the handler below leave the long-term facts free
    wherever this step is reached. *)
Definition memory_entry (mem : json) : option (string * string * Q) :=
  match py_get mem "key" (JStr "その他"),
        py_get mem "content" (JStr ""),
        py_get mem "importance" (JNum 3) with
  | Some (JStr key), Some (JStr content), Some (JNum importance) =>
      Some (key, content, importance)
  | _, _, _ => None
  end.

Fixpoint save_memories (now : time) (new_memories : list json)
  (st : disk * MemoryManager.t) : disk * MemoryManager.t :=
  match new_memories with
  | [] => st
  | mem :: rest =>
      match memory_entry mem with
      | None => st
      | Some (key, content, importance) =>
          save_memories now rest
            (add_long_term_memory config now key content importance st).2
      end
  end.

Definition _extract_and_save_memories (now : time) (r : reply)
  (st : disk * MemoryManager.t) : disk * MemoryManager.t :=
  save_memories now (extract_memories r) st.

(** [x == s] for a dynamic [x] and a string [s]. *)
Definition py_eq_str (v : json) (s : string) : bool :=
  match v with
  | JStr s' => String.eqb s' s
  | _ => false
  end.

(** [on_message] from the point where the message is known to be
    addressed to the bot and new: [content] is the text without the
    mention.  The handler has no [except] clause: this is what it
    does in a run in which the calls to the chat service
    ([add_reaction], [typing], [send]) return. *)
Definition on_message (now : time) (r : MessageReplies) (user_id content : string)
  (bot : t) : t :=
  let '(memory0, bot0) := _get_memory user_id bot in
  let memory1 := (add_message config now "user" content memory0).2 in
  let events1 := events bot0 ++ [log_user_message user_id content] in
  let decision := ResponseClassifier.classify json_loads error_text (classify_reply r) in
  let '(memory2, events2) :=
    if py_eq_str (ResponseClassifier.action decision) "react"
       && bool_decide (is_Some (ResponseClassifier.reaction decision))
    then
      let symbol := default "" (ResponseClassifier.reaction decision) in
      (memory1,
       events1 ++ [add_reaction symbol;
                   log_ai_response user_id ("[reaction: " +:+ symbol +:+ "]") false])
    else if py_eq_str (ResponseClassifier.action decision) "reply" then
      let response := InnerThoughtsEngine.generate_reactive_response (reactive_reply r) in
      let is_fallback := str_contains "調子悪いみたい..." response in
      let memory' :=
        if negb is_fallback then (add_message config now "assistant" response memory1).2
        else memory1 in
      (memory', events1 ++ [log_ai_response user_id response false; send response])
    else (memory1, events1) in
  let n := length (short_term memory2) in
  let '(files3, memory3) :=
    if (5 <=? n) && (n mod 5 <=? 1)
    then _extract_and_save_memories now (extraction_reply r) (files bot0, memory2)
    else (files bot0, memory2) in
  {| memories := <[user_id := memory3]> (memories bot0);
     files := files3;
     events := events2 |}.

End Bot.
End ProactiveAIBot.

(** ** Runs of operations and example inputs *)

(** One [add_message] call: the clock, the role and the text. *)
Record MessageCall := {
  call_now : time;
  call_role : string;
  call_text : string
}.

Definition add_messages (config : Config) (calls : list MessageCall)
  (m : MemoryManager.t) : MemoryManager.t :=
  foldl (fun m c => (add_message config (call_now c) (call_role c) (call_text c) m).2) m calls.

(** The message object that a call creates in the store of [uid]. *)
Definition message_of (uid : string) (c : MessageCall) : Message.t :=
  Message.mk (call_role c) (call_text c) (call_now c) uid.

Definition seconds (n : Z) : Z := (n * 1000000)%Z.

Definition example_config : Config :=
  {| SHORT_TERM_MEMORY_SIZE := 3;
     LONG_TERM_MEMORY_SIZE := 2;
     THOUGHT_RESERVOIR_SIZE := 10;
     MOTIVATION_THRESHOLD := 7 # 2;
     SILENCE_TIMEOUT := seconds 3600;
     THOUGHT_GENERATION_INTERVAL := seconds 120;
     MIN_INTERVENTION_INTERVAL := seconds 60;
     MAX_CONSECUTIVE_INTERVENTIONS := 2;
     INFO_SHARE_MOTIVATION_THRESHOLD := 7 # 2;
     MAX_DAILY_SHARES := 3 |}.

Definition three_calls : list MessageCall :=
  [ {| call_now := seconds 1; call_role := "user"; call_text := "a" |};
    {| call_now := seconds 2; call_role := "assistant"; call_text := "b" |};
    {| call_now := seconds 3; call_role := "user"; call_text := "c" |} ].

(** A store in which the agent spoke at second 0. *)
Definition spoke_memory : MemoryManager.t :=
  add_messages example_config
    [ {| call_now := seconds 0; call_role := "assistant"; call_text := "hello" |} ]
    (new_MemoryManager ∅ "42").

(** One [add_long_term_memory] call: the clock and the arguments. *)
Record FactCall := {
  fact_now : time;
  fact_key : string;
  fact_content : string;
  fact_importance : Q
}.

Definition upsert (config : Config) (c : FactCall) (st : disk * MemoryManager.t)
  : disk * MemoryManager.t :=
  (add_long_term_memory config (fact_now c) (fact_key c) (fact_content c)
     (fact_importance c) st).2.

Definition upserts (config : Config) (calls : list FactCall) (st : disk * MemoryManager.t)
  : disk * MemoryManager.t :=
  foldl (fun st c => upsert config c st) st calls.

(** What one call does to the fact it finds. *)
Definition updated (c : FactCall) (f : LongTermMemory.t) : LongTermMemory.t :=
  LongTermMemory.mk (LongTermMemory.user_id f) (LongTermMemory.key f)
    (fact_content c) (fact_importance c) (LongTermMemory.created_at f)
    (fact_now c) (LongTermMemory.access_count f + 1).

Definition touch (c : FactCall) (f : LongTermMemory.t) : LongTermMemory.t :=
  if decide (LongTermMemory.key f = fact_key c) then updated c f else f.

(** The facts of a store have distinct keys and belong to its user; this
    holds of a new store without a record and is kept by every
    [add_long_term_memory]. *)
Definition well_keyed (m : MemoryManager.t) : Prop :=
  NoDup (LongTermMemory.key <$> long_term m)
  /\ Forall (fun f => LongTermMemory.user_id f = user_id m) (long_term m).



Definition two_facts : list FactCall :=
  [ {| fact_now := seconds 1; fact_key := "food"; fact_content := "ramen";
       fact_importance := 3 |};
    {| fact_now := seconds 2; fact_key := "job"; fact_content := "nurse";
       fact_importance := 5 |} ].

(** A store with capacity 2 that holds two facts. *)
Definition full_memory : disk * MemoryManager.t :=
  upserts example_config two_facts (∅, new_MemoryManager ∅ "42").

Definition food_again : list FactCall :=
  [ {| fact_now := seconds 3; fact_key := "food"; fact_content := "udon";
       fact_importance := 3 |};
    {| fact_now := seconds 4; fact_key := "food"; fact_content := "soba";
       fact_importance := 4 |} ].

(** A bot that holds the store [full_memory] of user 42, whose two facts
    were written through to the durable record. *)
Definition bot_with_facts : ProactiveAIBot.t :=
  {| ProactiveAIBot.memories := {[ "42" := full_memory.2 ]};
     ProactiveAIBot.files := full_memory.1;
     ProactiveAIBot.events := [] |}.

(** The value of [reaction_type] is one of the tags of [REACTIONS]. *)
Definition in_tag_set (reaction_type : json) : Prop :=
  exists tag symbol,
    reaction_type = JStr tag
    /\ ResponseClassifier.table_get ResponseClassifier.REACTIONS tag = Some symbol.

(** A classification reply with a tag outside the table, and one that
    holds no JSON. *)
Definition dance_reply : reply :=
  Text (quoted "{'action': 'react', 'reaction_type': 'dance', 'reason': 'fun'}").

Definition chatty_reply : reply := Text "I think you should answer.".

(** The replies to one inbound message when the classifier asks for a
    reply and the generation call fails. *)
Definition failed_generation : ProactiveAIBot.MessageReplies :=
  {| ProactiveAIBot.classify_reply :=
       Text (quoted "{'action': 'reply', 'reason': 'a question'}");
     ProactiveAIBot.reactive_reply := Raised "timeout";
     ProactiveAIBot.extraction_reply := Raised "timeout" |}.

(** Scenario C: the user has just written, the thought is scored 4.0
    with [should_speak], the threshold is 3.5 and the utterance is
    rendered. *)
Definition listening_memory : MemoryManager.t :=
  add_messages example_config
    [ {| call_now := seconds 1; call_role := "user"; call_text := "I love ramen" |} ]
    (new_MemoryManager ∅ "42").

Definition authorized_cycle : InnerThoughtsEngine.CycleReplies :=
  {| InnerThoughtsEngine.thought_reply :=
       Text (quoted "{'thought': 'ask about ramen', 'potential_response': 'Which shop?'}");
     InnerThoughtsEngine.eval_reply :=
       Text (quoted "{'overall_score': 4.0, 'should_speak': true, 'reasoning': 'on topic'}");
     InnerThoughtsEngine.render_reply := Text "Which ramen shop do you like? ";
     InnerThoughtsEngine.silence_reply := Raised "not called" |}.

(** The thoughts of the reservoir, read through the heap. *)
Definition reservoir_thoughts (h : heap) (m : MemoryManager.t) : list (option Thought.t) :=
  (fun l => h !! l) <$> thought_reservoir m.

(** Two relevance replies: one whose object holds another object, one
    whose object is flat. *)
Definition nested_reply : string :=
  quoted "Score: {'breakdown': {'relevance': 5}, 'overall_score': 4}".

Definition flat_reply : string :=
  quoted "Score: {'overall_score': 4, 'reasoning': 'fresh'} done".

Import InformationGatherer.

(** A search that finds one new article which is then scored below the
    share threshold. *)
Definition example_result : SearchResult :=
  {| result_title := "Ramen map"; result_url := "https://example.org/ramen";
     result_description := "Ten shops"; result_hostname := "example.org";
     result_age := Some "2 days ago" |}.

Definition unqualified_search : Capabilities :=
  {| interests_reply := Text (quoted "['ramen shops']");
     search_brave := fun _ _ => [example_result];
     relevance_reply := fun _ => Text (quoted "{'overall_score': 2, 'reasoning': 'stale'}");
     share_reply := Text "Look at this!" |}.

(** The gatherer at start-up. *)
Definition new_gatherer : InformationGatherer.t :=
  {| seen_urls := ∅; daily_shares := ∅; last_share_reset := ∅ |}.

(** The seen URLs and the shares of the day of a user ([dict.get] with
    its default). *)
Definition seen_of (g : InformationGatherer.t) (uid : string) : gset string :=
  default ∅ (seen_urls g !! uid).

Definition shares_of (g : InformationGatherer.t) (uid : string) : Z :=
  default 0%Z (daily_shares g !! uid).

(** Every candidate is scored with a number that is not positive or is
    below the share threshold. *)
Definition no_candidate_qualifies (config : Config) (json_loads : string -> option json)
  (c : Capabilities) (found : list Article) : Prop :=
  forall i article, found !! i = Some article ->
    exists q,
      as_number (evaluate_article_relevance json_loads (relevance_reply c i)) = Some q
      /\ ~ ((0 < q)%Q /\ (INFO_SHARE_MOTIVATION_THRESHOLD config <= q)%Q).

(** ** Further operations of the memory store (memory.py) *)

(** [get_conversation_history(n)]: [None] and [0] give the whole window,
    a positive [n] the slice [messages[-n:]], which for a negative [n]
    is [messages[|n|:]]. *)
Definition get_conversation_history (n : option Z) (m : MemoryManager.t)
  : list (string * string) :=
  let messages := short_term m in
  let messages :=
    match n with
    | None => messages
    | Some n =>
        if (n =? 0)%Z then messages
        else if (0 <? n)%Z then drop (length messages - Z.to_nat n) messages
        else drop (Z.to_nat (- n)) messages
    end in
  (fun msg => (Message.role msg, Message.content msg)) <$> messages.

(** The motivation score of the thought at a location, as a number. *)
Definition score_at (h : heap) (l : loc) : option Q :=
  match h !! l with
  | Some th => as_number (Thought.motivation_score th)
  | None => None
  end.

(** [max(pending, key=...)]: the first element with the greatest key. *)
Fixpoint max_by_score (h : heap) (best : loc) (best_score : Q) (rest : list loc)
  : option loc :=
  match rest with
  | [] => Some best
  | l :: rest' =>
      match score_at h l with
      | None => None
      | Some q =>
          if negb (Qle_bool q best_score) then max_by_score h l q rest'
          else max_by_score h best best_score rest'
      end
  end.

Definition get_highest_motivation_thought (h : heap) (m : MemoryManager.t)
  : outcome (option loc) :=
  match get_pending_thoughts 0 h m with
  | Exception => Exception
  | Returned [] => Returned None
  | Returned (l :: rest) =>
      match score_at h l with
      | None => Exception
      | Some q =>
          match max_by_score h l q rest with
          | Some best => Returned (Some best)
          | None => Exception
          end
      end
  end.

(** One [add_thought] call: the clock and the arguments. *)
Record ThoughtCall := {
  thought_now : time;
  thought_content : json;
  thought_score : json;
  thought_reasoning : json;
  thought_trigger : TriggerReason
}.

Definition add_thoughts (config : Config) (calls : list ThoughtCall)
  (st : heap * MemoryManager.t) : heap * MemoryManager.t :=
  foldl (fun st c =>
           (add_thought config (thought_now c) (thought_content c) (thought_score c)
              (thought_reasoning c) (thought_trigger c) st).2) st calls.

(** The thought object that a call puts in the reservoir. *)
Definition thought_of (c : ThoughtCall) : Thought.t :=
  Thought.mk (thought_content c) (thought_score c) (thought_reasoning c)
    (Some (thought_now c)) (thought_trigger c) false.

(** The part of the cycle after the trigger, for a trigger that is not
    the silence timeout. *)
Definition cycle_body (config : Config) (json_loads : string -> option json)
  (now : time) (r : InnerThoughtsEngine.CycleReplies)
  (reason : TriggerReason) (h : heap) (m : MemoryManager.t)
  : outcome (option string) * (heap * MemoryManager.t) :=
  match InnerThoughtsEngine.generate_thought json_loads
          (InnerThoughtsEngine.thought_reply r) reason (h, m) with
  | (Exception, h1) => (Exception, (h1, m))
  | (Returned None, h1) => (Returned None, (h1, m))
  | (Returned (Some (thought, potential_response)), h1) =>
      let evaluation :=
        InnerThoughtsEngine.evaluate_motivation json_loads
          (InnerThoughtsEngine.eval_reply r) in
      match py_get evaluation "overall_score" (JNum 0) with
      | None => (Exception, (h1, m))
      | Some score =>
          let h2 := alter (Thought.set_motivation_score score) thought h1 in
          match py_get evaluation "reasoning" (JStr "") with
          | None => (Exception, (h2, m))
          | Some reasoning =>
              let h3 := alter (Thought.set_reasoning reasoning) thought h2 in
              let content := default JNull (Thought.content <$> h3 !! thought) in
              let '(_, st4) :=
                add_thought config now content score reasoning reason (h3, m) in
              match InnerThoughtsEngine.score_ge score (MOTIVATION_THRESHOLD config) with
              | None => (Exception, st4)
              | Some false => (Returned None, st4)
              | Some true =>
                  match py_get evaluation "should_speak" (JBool false) with
                  | None => (Exception, st4)
                  | Some should_speak =>
                      if truthy should_speak then
                        let response :=
                          InnerThoughtsEngine.generate_proactive_response
                            (InnerThoughtsEngine.render_reply r) in
                        if negb (String.eqb response "") then
                          (Returned (Some response),
                           (alter (Thought.set_expressed true) thought st4.1, st4.2))
                        else (Returned None, st4)
                      else (Returned None, st4)
                  end
              end
          end
      end
  end.

(** Three thoughts scored 2, 4 and 3, the second of them expressed. *)
Definition marked_example : heap * MemoryManager.t :=
  let st :=
    add_thoughts example_config
      [ {| thought_now := seconds 1; thought_content := JStr "a";
           thought_score := JNum 2; thought_reasoning := JStr "";
           thought_trigger := new_user_message |};
        {| thought_now := seconds 2; thought_content := JStr "b";
           thought_score := JNum 4; thought_reasoning := JStr "";
           thought_trigger := new_user_message |};
        {| thought_now := seconds 3; thought_content := JStr "c";
           thought_score := JNum 3; thought_reasoning := JStr "";
           thought_trigger := new_user_message |} ]
      ([], new_MemoryManager ∅ "42") in
  (mark_thought_expressed 1 st.1, st.2).

(** The evaluation failed: the call raised, or its reply holds no
    usable JSON. *)
Definition evaluation_failed (json_loads : string -> option json) (r : reply) : Prop :=
  match r with
  | Raised _ => True
  | Text text => truthy (InnerThoughtsEngine._extract_json json_loads text) = false
  end.

(** The formation failed: the call raised, or its reply holds no usable
    JSON, or what it holds is not an object. *)
Definition formation_failed (json_loads : string -> option json) (r : reply) : Prop :=
  match r with
  | Raised _ => True
  | Text text =>
      truthy (InnerThoughtsEngine._extract_json json_loads text) = false
      \/ forall fields, InnerThoughtsEngine._extract_json json_loads text <> JObj fields
  end.

(** A cycle in which a thought is formed and the evaluation reply holds
    no JSON. *)
Definition failed_evaluation_cycle : InnerThoughtsEngine.CycleReplies :=
  {| InnerThoughtsEngine.thought_reply :=
       Text (quoted "{'thought': 'ask about ramen', 'potential_response': 'Which shop?'}");
     InnerThoughtsEngine.eval_reply := Text "I would rate this a 4.";
     InnerThoughtsEngine.render_reply := Text "Which ramen shop do you like?";
     InnerThoughtsEngine.silence_reply := Raised "not called" |}.

(** A cycle in which the formation reply decodes to a list. *)
Definition array_formation_cycle : InnerThoughtsEngine.CycleReplies :=
  {| InnerThoughtsEngine.thought_reply := Text "[1, 2]";
     InnerThoughtsEngine.eval_reply := Raised "not called";
     InnerThoughtsEngine.render_reply := Raised "not called";
     InnerThoughtsEngine.silence_reply := Raised "not called" |}.

(** A cycle in which only the silence break is rendered. *)
Definition silence_cycle : InnerThoughtsEngine.CycleReplies :=
  {| InnerThoughtsEngine.thought_reply := Raised "not called";
     InnerThoughtsEngine.eval_reply := Raised "not called";
     InnerThoughtsEngine.render_reply := Raised "not called";
     InnerThoughtsEngine.silence_reply := Text "  Are you still there? " |}.

(** ** The choice of the article to share *)

(** The score the evaluation gives to the candidate at position [i]. *)
Definition candidate_score (json_loads : string -> option json) (c : Capabilities)
  (i : nat) : json :=
  evaluate_article_relevance json_loads (relevance_reply c i).

(** A search that finds two new articles; both are scored above the
    share threshold, the second higher than the first. *)
Definition second_result : SearchResult :=
  {| result_title := "Noodle news"; result_url := "https://example.org/noodles";
     result_description := "New openings"; result_hostname := "example.org";
     result_age := None |}.

Definition qualified_search : Capabilities :=
  {| interests_reply := Text (quoted "['ramen shops']");
     search_brave := fun _ _ => [example_result; second_result];
     relevance_reply := fun i =>
       match i with
       | 0 => Text (quoted "{'overall_score': 4, 'reasoning': 'fits'}")
       | _ => Text (quoted "{'overall_score': 4.5, 'reasoning': 'fits well'}")
       end;
     share_reply := Text " Look at this! " |}.

(** The article that the search [qualified_search] leads to share. *)
Definition noodle_article : Article :=
  {| title := "Noodle news"; url := "https://example.org/noodles";
     description := "New openings"; source := "example.org"; published := None;
     search_query := JStr "ramen shops"; found_at := seconds 100;
     relevance_score := JNum (9 # 2); shared := true |}.

(** ** The two proactive loops of the bot (discord_bot.py) *)

(** What the loops read and write for one user: the thoughts, the store,
    the gatherer, the instants of the last searches and the trace. *)
Record Session := {
  session_heap : heap;
  session_memory : MemoryManager.t;
  session_gatherer : InformationGatherer.t;
  last_info_search : gmap string time;
  session_events : list ProactiveAIBot.Event
}.

(** The inputs of one pass of [proactive_cycle] over one user: the
    clock and the replies of the cycle, whether a channel is found, the
    clock when the message is recorded, and whether [channel.send]
    returns ([false] when it raises). *)
Record ThoughtPass := {
  thought_pass_now : time;
  thought_pass_replies : InnerThoughtsEngine.CycleReplies;
  thought_pass_channel : bool;
  thought_pass_recorded : time;
  thought_pass_sent : bool
}.

(** The inputs of one pass of [information_gathering_cycle] over one
    user: the clock of the loop, of [can_intervene] and of
    [find_shareable_article], the capabilities, whether a channel is
    found, the clock when the message is recorded, and whether
    [channel.send] returns ([false] when it raises). *)
Record SharePass := {
  share_pass_started : time;
  share_pass_gate : time;
  share_pass_now : time;
  share_pass_capabilities : Capabilities;
  share_pass_channel : bool;
  share_pass_recorded : time;
  share_pass_sent : bool
}.

(** [add_message("assistant", text)], the log line and then the send:
    the message is recorded and logged before [channel.send] is
    awaited, so that a send that raises leaves it recorded and logged;
    the trace holds a [send] only for a send that returned. *)
Definition deliver (config : Config) (recorded : time) (user_id text : string)
  (sent : bool) (memory : MemoryManager.t) (events : list ProactiveAIBot.Event)
  : MemoryManager.t * list ProactiveAIBot.Event :=
  ((add_message config recorded "assistant" text memory).2,
   events ++ ProactiveAIBot.log_ai_response user_id text true
             :: (if sent then [ProactiveAIBot.send text] else [])).

(** The body of the loop of [proactive_cycle] for the store registered
    under [user_id]; an exception of the cycle or of the send is
    caught. *)
Definition proactive_cycle (config : Config) (json_loads : string -> option json)
  (user_id : string) (p : ThoughtPass) (s : Session) : Session :=
  let '(response, (h, memory)) :=
    InnerThoughtsEngine.process_proactive_cycle config json_loads (thought_pass_now p)
      (thought_pass_replies p) (session_heap s, session_memory s) in
  let '(memory', events') :=
    match response with
    | Returned (Some response) =>
        if negb (String.eqb response "") && thought_pass_channel p
        then deliver config (thought_pass_recorded p) user_id response
               (thought_pass_sent p) memory (session_events s)
        else (memory, session_events s)
    | _ => (memory, session_events s)
    end in
  {| session_heap := h; session_memory := memory';
     session_gatherer := session_gatherer s;
     last_info_search := last_info_search s;
     session_events := events' |}.

(** The body of the loop of [information_gathering_cycle] for the store
    registered under [user_id], with a search key configured;
    [search_interval] is [config.SEARCH_INTERVAL].  An exception of the
    search or of the send is caught before the instant of the search is
    written. *)
Definition information_gathering_cycle (config : Config)
  (json_loads : string -> option json) (search_interval : Z)
  (user_id : string) (p : SharePass) (s : Session) : Session :=
  let memory := session_memory s in
  let too_early :=
    match last_info_search s !! user_id with
    | Some last_search => (share_pass_started p - last_search <? search_interval)%Z
    | None => false
    end in
  if too_early then s
  else if bool_decide (long_term memory = []) then s
  else if negb (can_intervene config (share_pass_gate p) memory) then s
  else
    let '(result, g) :=
      find_shareable_article config json_loads (share_pass_now p)
        (share_pass_capabilities p) memory (session_gatherer s) in
    let searched := <[user_id := share_pass_started p]> (last_info_search s) in
    match result with
    | Exception =>
        {| session_heap := session_heap s; session_memory := memory;
           session_gatherer := g; last_info_search := last_info_search s;
           session_events := session_events s |}
    | Returned None =>
        {| session_heap := session_heap s; session_memory := memory;
           session_gatherer := g; last_info_search := searched;
           session_events := session_events s |}
    | Returned (Some (article, message)) =>
        if share_pass_channel p then
          let '(memory', events') :=
            deliver config (share_pass_recorded p) user_id message (share_pass_sent p)
              memory (session_events s) in
          {| session_heap := session_heap s; session_memory := memory';
             session_gatherer := g;
             last_info_search :=
               if share_pass_sent p then searched else last_info_search s;
             session_events := events' |}
        else
          {| session_heap := session_heap s; session_memory := memory;
             session_gatherer := g; last_info_search := searched;
             session_events := session_events s |}
    end.

(** A pass of one of the two loops. *)
Inductive Pass :=
| thought_pass (p : ThoughtPass)
| share_pass (p : SharePass).

Definition run_pass (config : Config) (json_loads : string -> option json)
  (search_interval : Z) (user_id : string) (s : Session) (p : Pass) : Session :=
  match p with
  | thought_pass p => proactive_cycle config json_loads user_id p s
  | share_pass p => information_gathering_cycle config json_loads search_interval user_id p s
  end.

(** The passes of a stretch of time in which the user sends nothing. *)
Definition run_passes (config : Config) (json_loads : string -> option json)
  (search_interval : Z) (user_id : string) (passes : list Pass) (s : Session) : Session :=
  foldl (run_pass config json_loads search_interval user_id) s passes.

Definition is_send (e : ProactiveAIBot.Event) : bool :=
  match e with
  | ProactiveAIBot.send _ => true
  | _ => false
  end.

(** The number of messages sent in a trace. *)
Definition sent (events : list ProactiveAIBot.Event) : nat :=
  length (filter (fun e => is_send e = true) events).

Definition is_proactive_log (e : ProactiveAIBot.Event) : bool :=
  match e with
  | ProactiveAIBot.log_ai_response _ _ is_proactive => is_proactive
  | _ => false
  end.

(** The number of proactive messages logged in a trace. *)
Definition logged (events : list ProactiveAIBot.Event) : nat :=
  length (filter (fun e => is_proactive_log e = true) events).

(** The clock at which a pass asks [can_intervene]. *)
Definition gate_clock (p : Pass) : time :=
  match p with
  | thought_pass p => thought_pass_now p
  | share_pass p => share_pass_gate p
  end.

Definition recorded_clock (p : Pass) : time :=
  match p with
  | thought_pass p => thought_pass_recorded p
  | share_pass p => share_pass_recorded p
  end.

(** Whether the send of a pass returns. *)
Definition send_returns (p : Pass) : bool :=
  match p with
  | thought_pass p => thought_pass_sent p
  | share_pass p => share_pass_sent p
  end.

(** The replies to one inbound message when the classifier asks for a
    reply and the generation call answers. *)
Definition answered : ProactiveAIBot.MessageReplies :=
  {| ProactiveAIBot.classify_reply :=
       Text (quoted "{'action': 'reply', 'reason': 'a question'}");
     ProactiveAIBot.reactive_reply := Text "Fine, and you? ";
     ProactiveAIBot.extraction_reply := Raised "timeout" |}.

(** The bot after it answered user 42 at second 9, the session of that
    user, and a pass of the thought loop 11 seconds later in which
    every capability would let the agent speak. *)
Definition answered_bot : ProactiveAIBot.t :=
  ProactiveAIBot.on_message example_config Decoder.json_loads (fun _ => "")
    (seconds 9) answered "42" "how are you?" bot_with_facts.

Definition answered_session : Session :=
  {| session_heap := [];
     session_memory := (ProactiveAIBot._get_memory "42" answered_bot).1;
     session_gatherer := new_gatherer;
     last_info_search := ∅;
     session_events := ProactiveAIBot.events answered_bot |}.

Definition eager_pass : Pass :=
  thought_pass
    {| thought_pass_now := seconds 20; thought_pass_replies := authorized_cycle;
       thought_pass_channel := true; thought_pass_recorded := seconds 21;
       thought_pass_sent := true |}.

(** ** Further example inputs of the message handler *)

(** A configuration with a window of ten messages. *)
Definition roomy_config : Config :=
  {| SHORT_TERM_MEMORY_SIZE := 10;
     LONG_TERM_MEMORY_SIZE := 2;
     THOUGHT_RESERVOIR_SIZE := 10;
     MOTIVATION_THRESHOLD := 7 # 2;
     SILENCE_TIMEOUT := seconds 3600;
     THOUGHT_GENERATION_INTERVAL := seconds 120;
     MIN_INTERVENTION_INTERVAL := seconds 60;
     MAX_CONSECUTIVE_INTERVENTIONS := 2;
     INFO_SHARE_MOTIVATION_THRESHOLD := 7 # 2;
     MAX_DAILY_SHARES := 3 |}.

(** A bot in conversation with user 42: four messages in the window, no
    long-term fact and no durable record yet. *)
Definition four_calls : list MessageCall :=
  [ {| call_now := seconds 1; call_role := "user"; call_text := "hello" |};
    {| call_now := seconds 2; call_role := "assistant"; call_text := "hi!" |};
    {| call_now := seconds 3; call_role := "user"; call_text := "busy day" |};
    {| call_now := seconds 4; call_role := "assistant"; call_text := "tell me" |} ].

Definition chatting_bot : ProactiveAIBot.t :=
  {| ProactiveAIBot.memories :=
       {[ "42" := add_messages roomy_config four_calls (new_MemoryManager ∅ "42") ]};
     ProactiveAIBot.files := ∅;
     ProactiveAIBot.events := [] |}.

(** The replies to the fifth message: the classifier asks for a reply,
    the generation call fails, and the memory extraction, which runs
    every five messages, finds one fact. *)
Definition failed_generation_with_extraction : ProactiveAIBot.MessageReplies :=
  {| ProactiveAIBot.classify_reply :=
       Text (quoted "{'action': 'reply', 'reason': 'a question'}");
     ProactiveAIBot.reactive_reply := Raised "timeout";
     ProactiveAIBot.extraction_reply :=
       Text (quoted "[{'key': 'pet', 'content': 'cat', 'importance': 4}]") |}.

(** A classification whose action is none of [reply], [react], [none]. *)
Definition respond_reply : reply :=
  Text (quoted "{'action': 'respond', 'reason': 'a question'}").

Definition misclassified : ProactiveAIBot.MessageReplies :=
  {| ProactiveAIBot.classify_reply := respond_reply;
     ProactiveAIBot.reactive_reply := Text "Fine, and you?";
     ProactiveAIBot.extraction_reply := Raised "timeout" |}.

(** A classification without an action and with a tag of the table. *)
Definition thanks_reply : reply := Text (quoted "{'reaction_type': 'thanks'}").

(** * Properties *)

(** ** The short-term window *)

Lemma add_message_user_id config now role content m :
  user_id (add_message config now role content m).2 = user_id m.
Proof. unfold add_message. destruct (String.eqb role "user"); reflexivity. Qed.

Lemma add_message_short_term config now role content m :
  short_term (add_message config now role content m).2
  = deque_append (SHORT_TERM_MEMORY_SIZE config) (short_term m)
      (Message.mk role content now (user_id m)).
Proof. unfold add_message. destruct (String.eqb role "user"); reflexivity. Qed.

Lemma add_message_returns config now role content m :
  (add_message config now role content m).1 = Message.mk role content now (user_id m).
Proof. unfold add_message. destruct (String.eqb role "user"); reflexivity. Qed.

Lemma new_MemoryManager_user_id dk uid : user_id (new_MemoryManager dk uid) = uid.
Proof.
  unfold new_MemoryManager, _load_from_disk. cbn.
  destruct (dk !! long_term_path uid); reflexivity.
Qed.

Lemma new_MemoryManager_short_term dk uid : short_term (new_MemoryManager dk uid) = [].
Proof.
  unfold new_MemoryManager, _load_from_disk. cbn.
  destruct (dk !! long_term_path uid); reflexivity.
Qed.

Lemma add_messages_snoc config calls c m :
  add_messages config (calls ++ [c]) m
  = (add_message config (call_now c) (call_role c) (call_text c)
       (add_messages config calls m)).2.
Proof. unfold add_messages. rewrite foldl_app. reflexivity. Qed.

Lemma add_messages_user_id config calls m :
  user_id (add_messages config calls m) = user_id m.
Proof.
  induction calls as [|c calls IH] using rev_ind; [reflexivity|].
  rewrite add_messages_snoc, add_message_user_id. exact IH.
Qed.

(** Appending to a window that holds the last [n] of the items so far
    gives the last [n] of the items with the new one. *)
Lemma deque_append_last {A} (n : nat) (items : list A) (x : A) :
  deque_append n (drop (length items - n) items) x
  = drop (length (items ++ [x]) - n) (items ++ [x]).
Proof.
  unfold deque_append. rewrite !length_app, length_drop. cbn [length].
  destruct (Nat.ltb_spec n (length items - (length items - n) + 1)) as [Hlt|Hge].
  - assert (n <= length items) as Hn by lia.
    replace (length items + 1 - n) with (S (length items - n)) by lia.
    rewrite <- drop_app_le by lia.
    generalize (items ++ [x]) (length items - n). clear.
    intros l k. revert l. induction k as [|k IH]; intros [|y l]; cbn; try reflexivity.
    + apply IH.
  - assert (length items < n) as Hn by lia.
    replace (length items - n) with 0 by lia.
    replace (length items + 1 - n) with 0 by lia. reflexivity.
Qed.

Lemma short_term_is_last_messages config calls dk uid :
  short_term (add_messages config calls (new_MemoryManager dk uid))
  = drop (length calls - SHORT_TERM_MEMORY_SIZE config) (message_of uid <$> calls).
Proof.
  induction calls as [|c calls IH] using rev_ind.
  - cbn. apply new_MemoryManager_short_term.
  - rewrite add_messages_snoc, add_message_short_term, IH.
    rewrite add_messages_user_id, new_MemoryManager_user_id.
    rewrite fmap_app. cbn [fmap list_fmap].
    rewrite <- (length_fmap (message_of uid) calls) at 1.
    rewrite deque_append_last.
    rewrite !length_app, length_fmap. reflexivity.
Qed.

(** C8. After any sequence of [add_message] calls on a new store the
    short-term window holds at most [SHORT_TERM_MEMORY_SIZE] messages,
    namely the most recent ones in the order of the calls; and adding a
    message to a full window removes the oldest message of the window
    and puts the new one at the end. *)
Theorem short_term_window_fifo config dk uid calls :
  let m := add_messages config calls (new_MemoryManager dk uid) in
  length (short_term m) <= SHORT_TERM_MEMORY_SIZE config
  /\ short_term m
     = drop (length calls - SHORT_TERM_MEMORY_SIZE config) (message_of uid <$> calls)
  /\ forall now role content,
       length (short_term m) = SHORT_TERM_MEMORY_SIZE config ->
       0 < SHORT_TERM_MEMORY_SIZE config ->
       short_term (add_message config now role content m).2
       = tail (short_term m) ++ [(add_message config now role content m).1].
Proof.
  intros m. subst m.
  rewrite short_term_is_last_messages.
  split; [|split; [reflexivity|]].
  - rewrite length_drop, length_fmap. lia.
  - intros now role content Hfull Hpos.
    rewrite add_message_short_term, add_message_returns, short_term_is_last_messages.
    unfold deque_append. rewrite length_app. cbn [length].
    rewrite Hfull.
    destruct (Nat.ltb_spec (SHORT_TERM_MEMORY_SIZE config) (SHORT_TERM_MEMORY_SIZE config + 1));
      [|lia].
    destruct (drop _ _) as [|oldest rest]; [cbn in Hfull; lia|reflexivity].
Qed.

Lemma short_term_window_fifo_witness :
  short_term
    (add_message example_config (seconds 4) "assistant" "d"
       (add_messages example_config three_calls (new_MemoryManager ∅ "42"))).2
  = [ Message.mk "assistant" "b" (seconds 2) "42";
      Message.mk "user" "c" (seconds 3) "42";
      Message.mk "assistant" "d" (seconds 4) "42" ].
Proof.
  destruct (short_term_window_fifo example_config ∅ "42" three_calls) as (_ & _ & Hstep).
  rewrite (Hstep (seconds 4) "assistant" "d"); [reflexivity|reflexivity|cbn; lia].
Defined.

(** ** The intervention gate *)

Lemma can_intervene_true config now m :
  can_intervene config now m = true
  <-> (Z.of_nat (consecutive_ai_messages m) < MAX_CONSECUTIVE_INTERVENTIONS config)%Z
      /\ match last_ai_message_time m with
         | Some t => (MIN_INTERVENTION_INTERVAL config <= now - t)%Z
         | None => True
         end.
Proof.
  unfold can_intervene.
  destruct (Z.leb_spec (MAX_CONSECUTIVE_INTERVENTIONS config)
              (Z.of_nat (consecutive_ai_messages m))) as [Hmax|Hmax].
  - split; [discriminate|]. intros [Hlt _]. lia.
  - destruct (last_ai_message_time m) as [t|].
    + destruct (Z.ltb_spec (now - t) (MIN_INTERVENTION_INTERVAL config)).
      * split; [discriminate|]. intros [_ Hge]. lia.
      * split; [intros _; split; [exact Hmax | assumption] | reflexivity].
    + split; [intros _; split; [exact Hmax | exact I] | reflexivity].
Qed.

(** C3, as the claim states its second half: right after a user message
    the gate is open.  It is not when the agent spoke less than
    [MIN_INTERVENTION_INTERVAL] ago: the user message at second 5 resets
    the counter, and the gate still answers [False] at second 5. *)
Lemma can_intervene_after_user_message_counterexample :
  let m' := (add_message example_config (seconds 5) "user" "hi" spoke_memory).2 in
  consecutive_ai_messages m' = 0
  /\ can_intervene example_config (seconds 5) m' = false.
Proof. split; reflexivity. Qed.

(** C3, amended. The gate is closed whenever [consecutive_ai_messages]
    has reached [MAX_CONSECUTIVE_INTERVENTIONS].  A user message resets
    the counter to 0 and leaves [last_ai_message_time] as it was, and in
    the state it produces the gate is open exactly when the limit is
    positive and the agent has never spoken or spoke at least
    [MIN_INTERVENTION_INTERVAL] before the gate is asked. *)
Theorem can_intervene_gate config :
  (forall now m,
      (MAX_CONSECUTIVE_INTERVENTIONS config <= Z.of_nat (consecutive_ai_messages m))%Z ->
      can_intervene config now m = false)
  /\ forall now content m asked,
       let m' := (add_message config now "user" content m).2 in
       consecutive_ai_messages m' = 0
       /\ last_ai_message_time m' = last_ai_message_time m
       /\ (can_intervene config asked m' = true
           <-> (0 < MAX_CONSECUTIVE_INTERVENTIONS config)%Z
               /\ match last_ai_message_time m with
                  | Some t => (MIN_INTERVENTION_INTERVAL config <= asked - t)%Z
                  | None => True
                  end).
Proof.
  split.
  - intros now m Hmax.
    destruct (can_intervene config now m) eqn:Hgate; [|reflexivity].
    apply can_intervene_true in Hgate. lia.
  - intros now content m asked m'. subst m'.
    rewrite can_intervene_true. unfold add_message. cbn.
    split; [reflexivity|split; [reflexivity|]]. reflexivity.
Qed.

Lemma can_intervene_gate_witness :
  can_intervene example_config (seconds 9)
    (add_messages example_config
       [ {| call_now := seconds 1; call_role := "assistant"; call_text := "a" |};
         {| call_now := seconds 2; call_role := "assistant"; call_text := "b" |} ]
       (new_MemoryManager ∅ "42")) = false.
Proof.
  apply (proj1 (can_intervene_gate example_config)). cbn. lia.
Defined.

(** ** The sort of the long-term facts *)

Lemma insert_desc_perm {A} (key : A -> Q) x (l : list A) : insert_desc key x l ≡ₚ x :: l.
Proof.
  induction l as [|y l IH]; cbn; [reflexivity|].
  destruct (Qle_bool (key y) (key x)); [reflexivity|].
  rewrite IH. apply Permutation_swap.
Qed.

Lemma sort_desc_perm {A} (key : A -> Q) (l : list A) : sort_desc key l ≡ₚ l.
Proof.
  induction l as [|x l IH]; cbn; [reflexivity|].
  rewrite insert_desc_perm, IH. reflexivity.
Qed.

Section Sorting.
Context {A : Type} (key : A -> Q).






End Sorting.





(** ** Eviction of long-term facts *)


(** ** Updating a fact in place *)

Lemma touch_key c f : LongTermMemory.key (touch c f) = LongTermMemory.key f.
Proof. unfold touch. destruct (decide _); reflexivity. Qed.

Lemma touch_user_id c f : LongTermMemory.user_id (touch c f) = LongTermMemory.user_id f.
Proof. unfold touch. destruct (decide _); reflexivity. Qed.

Lemma touch_absent c (l : list LongTermMemory.t) :
  fact_key c ∉ LongTermMemory.key <$> l -> touch c <$> l = l.
Proof.
  induction l as [|f l IH]; [reflexivity|]. cbn. intros Hnot.
  apply not_elem_of_cons in Hnot as [Hne Hnot].
  rewrite IH by exact Hnot. unfold touch.
  destruct (decide _) as [Heq|_]; [congruence|reflexivity].
Qed.

Lemma update_existing_touch c uid (l : list LongTermMemory.t) :
  NoDup (LongTermMemory.key <$> l) ->
  Forall (fun f => LongTermMemory.user_id f = uid) l ->
  fact_key c ∈ LongTermMemory.key <$> l ->
  exists f',
    update_existing (fact_now c) uid (fact_key c) (fact_content c) (fact_importance c) l
    = Some (f', touch c <$> l).
Proof.
  induction l as [|f l IH]; intros Hnodup Huid Hin; [inversion Hin|].
  cbn in Hnodup. apply NoDup_cons in Hnodup as [Hfresh Hnodup].
  apply Forall_cons in Huid as [Hf Huid].
  cbn [update_existing].
  destruct (String.eqb_spec (LongTermMemory.key f) (fact_key c)) as [Hkey|Hkey].
  - rewrite (proj2 (String.eqb_eq _ _) Hf). cbn [andb].
    eexists. f_equal. f_equal. cbn. f_equal.
    + unfold touch. rewrite decide_True by exact Hkey. reflexivity.
    + symmetry. apply touch_absent. rewrite <- Hkey. exact Hfresh.
  - cbn [andb]. cbn in Hin. apply elem_of_cons in Hin as [Heq|Hin]; [congruence|].
    destruct (IH Hnodup Huid Hin) as [f' ->].
    eexists. f_equal. f_equal. cbn. f_equal.
    unfold touch. rewrite decide_False by exact Hkey. reflexivity.
Qed.

Lemma upsert_existing_long_term config c dk m :
  well_keyed m ->
  fact_key c ∈ LongTermMemory.key <$> long_term m ->
  long_term (upsert config c (dk, m)).2 = touch c <$> long_term m
  /\ user_id (upsert config c (dk, m)).2 = user_id m.
Proof.
  intros [Hnodup Huid] Hin.
  destruct (update_existing_touch c (user_id m) (long_term m) Hnodup Huid Hin) as [f' Hup].
  unfold upsert, add_long_term_memory. rewrite Hup. split; reflexivity.
Qed.

Lemma touch_keys c (l : list LongTermMemory.t) :
  LongTermMemory.key <$> (touch c <$> l) = LongTermMemory.key <$> l.
Proof.
  rewrite <- list_fmap_compose. apply list_fmap_ext. intros i f _. apply touch_key.
Qed.

Lemma upsert_existing_well_keyed config c dk m :
  well_keyed m ->
  fact_key c ∈ LongTermMemory.key <$> long_term m ->
  well_keyed (upsert config c (dk, m)).2.
Proof.
  intros Hwk Hin.
  destruct (upsert_existing_long_term config c dk m Hwk Hin) as [Hlt Hu].
  destruct Hwk as [Hnodup Huid].
  unfold well_keyed. rewrite Hlt, Hu, touch_keys. split; [exact Hnodup|].
  rewrite Forall_fmap. eapply Forall_impl; [exact Huid|].
  intros f Hf. cbn. rewrite touch_user_id. exact Hf.
Qed.

Lemma filter_touch c k (l : list LongTermMemory.t) :
  filter (fun f => LongTermMemory.key f = k) (touch c <$> l)
  = touch c <$> filter (fun f => LongTermMemory.key f = k) l.
Proof.
  induction l as [|f l IH]; [reflexivity|].
  rewrite fmap_cons, !filter_cons, touch_key, IH.
  destruct (decide _); reflexivity.
Qed.

Lemma foldl_updated_access_count calls f :
  LongTermMemory.access_count (foldl (fun f c => updated c f) f calls)
  = LongTermMemory.access_count f + length calls.
Proof.
  revert f. induction calls as [|c calls IH]; intros f; cbn; [lia|].
  rewrite IH. cbn. lia.
Qed.

Lemma foldl_updated_last calls f c :
  last calls = Some c ->
  LongTermMemory.content (foldl (fun f c => updated c f) f calls) = fact_content c
  /\ LongTermMemory.importance (foldl (fun f c => updated c f) f calls) = fact_importance c.
Proof.
  intros Hlast. apply last_Some in Hlast as [calls' ->].
  rewrite foldl_app. cbn. split; reflexivity.
Qed.

Lemma upserts_existing config calls : forall dk m k f,
  well_keyed m ->
  Forall (fun c => fact_key c ∈ LongTermMemory.key <$> long_term m) calls ->
  filter (fun g => LongTermMemory.key g = k) (long_term m) = [f] ->
  LongTermMemory.key <$> long_term (upserts config calls (dk, m)).2
  = LongTermMemory.key <$> long_term m
  /\ filter (fun g => LongTermMemory.key g = k) (long_term (upserts config calls (dk, m)).2)
     = [foldl (fun f c => updated c f) f (filter (fun c => fact_key c = k) calls)].
Proof.
  induction calls as [|c calls IH]; intros dk m k f Hwk Hcalls Hf.
  - split; [reflexivity | exact Hf].
  - apply Forall_cons in Hcalls as [Hc Hcalls].
    destruct (upsert_existing_long_term config c dk m Hwk Hc) as [Hlt Hu].
    pose proof (upsert_existing_well_keyed config c dk m Hwk Hc) as Hwk'.
    change (upserts config (c :: calls) (dk, m))
      with (upserts config calls (upsert config c (dk, m))).
    destruct (upsert config c (dk, m)) as [dk1 m1] eqn:Hstep. cbn [snd] in Hlt, Hu, Hwk'.
    assert (LongTermMemory.key <$> long_term m1 = LongTermMemory.key <$> long_term m) as Hkeys
      by (rewrite Hlt; apply touch_keys).
    assert (LongTermMemory.key f = k) as Hfk.
    { assert (f ∈ filter (fun g => LongTermMemory.key g = k) (long_term m)) as Hin
        by (rewrite Hf; apply list_elem_of_here).
      apply list_elem_of_filter in Hin as [Hin _]. exact Hin. }
    destruct (IH dk1 m1 k (touch c f) Hwk') as [Hkeys' Hfilter'].
    { rewrite Hkeys. exact Hcalls. }
    { rewrite Hlt, filter_touch, Hf. reflexivity. }
    split; [rewrite Hkeys'; exact Hkeys|].
    rewrite Hfilter', filter_cons. unfold touch.
    destruct (decide (fact_key c = k)) as [Hck|Hck].
    + rewrite decide_True by congruence. reflexivity.
    + rewrite decide_False by congruence. reflexivity.
Qed.

Lemma filter_key_absent (l : list LongTermMemory.t) k :
  k ∉ LongTermMemory.key <$> l -> filter (fun g => LongTermMemory.key g = k) l = [].
Proof.
  induction l as [|g l IH]; intros Hnot; [reflexivity|].
  rewrite fmap_cons in Hnot. apply not_elem_of_cons in Hnot as [Hne Hnot].
  rewrite filter_cons, decide_False by congruence. apply IH, Hnot.
Qed.

Lemma filter_key_unique (l : list LongTermMemory.t) f :
  NoDup (LongTermMemory.key <$> l) -> f ∈ l ->
  filter (fun g => LongTermMemory.key g = LongTermMemory.key f) l = [f].
Proof.
  induction l as [|g l IH]; intros Hnodup Hin; [inversion Hin|].
  rewrite fmap_cons in Hnodup. apply NoDup_cons in Hnodup as [Hfresh Hnodup].
  rewrite filter_cons.
  apply elem_of_cons in Hin as [<-|Hin].
  - rewrite decide_True by reflexivity. f_equal. apply filter_key_absent, Hfresh.
  - rewrite decide_False; [apply IH; assumption|].
    intros Heq. apply Hfresh. rewrite Heq. apply list_elem_of_fmap. eauto.
Qed.

(** C7. In a store whose facts have distinct keys, after any sequence
    of [add_long_term_memory] calls that all reuse keys of the store,
    exactly one fact has the key of a given fact [f]; the list has not
    grown; the access count of that fact is the one of [f] plus the
    number of calls with its key; and its content and importance are
    those of the last such call. *)
Theorem upsert_existing_key config calls dk m f :
  well_keyed m ->
  Forall (fun c => fact_key c ∈ LongTermMemory.key <$> long_term m) calls ->
  f ∈ long_term m ->
  let k := LongTermMemory.key f in
  let m' := (upserts config calls (dk, m)).2 in
  let repeated := filter (fun c => fact_key c = k) calls in
  exists f',
    filter (fun g => LongTermMemory.key g = k) (long_term m') = [f']
    /\ length (long_term m') = length (long_term m)
    /\ LongTermMemory.access_count f' = LongTermMemory.access_count f + length repeated
    /\ (forall c, last repeated = Some c ->
          LongTermMemory.content f' = fact_content c
          /\ LongTermMemory.importance f' = fact_importance c).
Proof.
  intros Hwk Hcalls Hin k m' repeated.
  destruct (upserts_existing config calls dk m k f Hwk Hcalls) as [Hkeys Hfilter].
  { apply filter_key_unique; [apply Hwk | exact Hin]. }
  exists (foldl (fun f c => updated c f) f repeated).
  split; [exact Hfilter|]. split.
  - rewrite <- (length_fmap LongTermMemory.key (long_term m')).
    subst m'. rewrite Hkeys. apply length_fmap.
  - split; [apply foldl_updated_access_count|].
    intros c Hlast. apply foldl_updated_last, Hlast.
Qed.

Lemma update_existing_Some_key now uid key content importance (l : list LongTermMemory.t) r :
  update_existing now uid key content importance l = Some r ->
  key ∈ LongTermMemory.key <$> l.
Proof.
  revert r. induction l as [|f l IH]; intros r Hup; [discriminate|].
  cbn [update_existing] in Hup. rewrite fmap_cons.
  destruct (String.eqb_spec (LongTermMemory.key f) key) as [Heq|Hne].
  - rewrite Heq. apply list_elem_of_here.
  - cbn [andb] in Hup. apply list_elem_of_further.
    destruct (update_existing now uid key content importance l) as [r'|]; [|discriminate].
    eapply IH. reflexivity.
Qed.

Lemma upsert_well_keyed config c dk m :
  well_keyed m -> well_keyed (upsert config c (dk, m)).2.
Proof.
  intros Hwk.
  destruct (decide (fact_key c ∈ LongTermMemory.key <$> long_term m)) as [Hin|Hnot].
  { apply upsert_existing_well_keyed; assumption. }
  destruct Hwk as [Hnodup Huid].
  unfold upsert, add_long_term_memory.
  destruct (update_existing _ _ _ _ _ _) as [[f' l']|] eqn:Hup.
  { exfalso. apply Hnot. eapply update_existing_Some_key, Hup. }
  cbn -[Nat.ltb sort_desc take length].
  set (memory := LongTermMemory.mk _ _ _ _ _ _ _).
  assert (NoDup (LongTermMemory.key <$> long_term m ++ [memory])) as Hnodup1.
  { rewrite fmap_app. apply NoDup_app. split; [exact Hnodup|]. split.
    - intros k Hk Hk'. apply list_elem_of_singleton in Hk'. subst k. exact (Hnot Hk).
    - apply NoDup_singleton. }
  assert (Forall (fun f => LongTermMemory.user_id f = user_id m) (long_term m ++ [memory]))
    as Huid1.
  { apply Forall_app. split; [exact Huid|]. repeat constructor. }
  unfold well_keyed. cbn -[Nat.ltb sort_desc take length].
  destruct (_ <? _); [|split; assumption].
  split.
  - rewrite fmap_take. eapply sublist_NoDup; [|apply sublist_take].
    rewrite (sort_desc_perm retention_score). exact Hnodup1.
  - apply Forall_take. rewrite (sort_desc_perm retention_score). exact Huid1.
Qed.

Lemma new_MemoryManager_well_keyed uid : well_keyed (new_MemoryManager ∅ uid).
Proof. split; [apply NoDup_nil_2 | apply Forall_nil_2]. Qed.

Lemma upserts_well_keyed config calls dk m :
  well_keyed m -> well_keyed (upserts config calls (dk, m)).2.
Proof.
  revert dk m. induction calls as [|c calls IH]; intros dk m Hwk; [exact Hwk|].
  change (upserts config (c :: calls) (dk, m))
    with (upserts config calls (upsert config c (dk, m))).
  pose proof (upsert_well_keyed config c dk m Hwk) as Hwk'.
  destruct (upsert config c (dk, m)) as [dk1 m1]. apply IH, Hwk'.
Qed.



Lemma upsert_existing_key_witness :
  exists f',
    filter (fun g => LongTermMemory.key g = "food")
      (long_term (upserts example_config food_again full_memory).2) = [f']
    /\ length (long_term (upserts example_config food_again full_memory).2) = 2
    /\ LongTermMemory.access_count f' = 3
    /\ LongTermMemory.content f' = "soba"
    /\ LongTermMemory.importance f' = 4%Q.
Proof.
  destruct (upsert_existing_key example_config food_again full_memory.1 full_memory.2
              (LongTermMemory.mk "42" "food" "ramen" 3 (seconds 1) (seconds 1) 1))
    as (f' & Hone & Hlen & Hcount & Hlast).
  - apply upserts_well_keyed, new_MemoryManager_well_keyed.
  - repeat constructor.
  - apply list_elem_of_here.
  - exists f'. split; [exact Hone|]. split; [exact Hlen|]. split; [exact Hcount|].
    apply (Hlast {| fact_now := seconds 4; fact_key := "food"; fact_content := "soba";
                    fact_importance := 4 |}).
    reflexivity.
Defined.

(** ** Forgetting a user *)

(** C4 (what the code does). [forget_memories] removes the store from
    the registry and leaves the durable record in place, so the store
    created on the next contact loads the facts of the record again. *)
Theorem forget_keeps_durable_record uid facts (bot : ProactiveAIBot.t) :
  ProactiveAIBot.files bot !! long_term_path uid = Some facts ->
  let bot' := ProactiveAIBot.forget_memories uid bot in
  ProactiveAIBot.memories bot' !! uid = None
  /\ long_term (ProactiveAIBot._get_memory uid bot').1 = facts.
Proof.
  intros Hfile bot'. subst bot'.
  unfold ProactiveAIBot._get_memory, ProactiveAIBot.forget_memories. cbn.
  rewrite lookup_delete_eq. split; [reflexivity|]. cbn.
  unfold new_MemoryManager, _load_from_disk. cbn. rewrite Hfile. reflexivity.
Qed.

Lemma forget_keeps_durable_record_witness :
  long_term (ProactiveAIBot._get_memory "42"
               (ProactiveAIBot.forget_memories "42" bot_with_facts)).1
  = [ LongTermMemory.mk "42" "food" "ramen" 3 (seconds 1) (seconds 1) 1;
      LongTermMemory.mk "42" "job" "nurse" 5 (seconds 2) (seconds 2) 1 ].
Proof.
  apply (forget_keeps_durable_record "42" _ bot_with_facts). reflexivity.
Defined.

(** ** The classifier *)

Section ClassifierProperties.
Variable json_loads : string -> option json.
Variable error_text : json -> string.

Let classify := ResponseClassifier.classify json_loads error_text.
Let extract := ResponseClassifier._extract_json json_loads.

Lemma classify_reaction_inv text symbol :
  ResponseClassifier.reaction (classify (Text text)) = Some symbol ->
  exists reaction_type,
    py_get (extract text) "reaction_type" JNull = Some reaction_type
    /\ in_tag_set reaction_type.
Proof.
  unfold classify, extract, ResponseClassifier.classify.
  destruct (truthy _); cbn [negb]; [|discriminate].
  destruct (py_get _ "action" _) as [action|]; [|discriminate].
  destruct (py_get _ "reaction_type" _) as [reaction_type|]; [|discriminate].
  destruct (py_get _ "reason" _) as [reason|]; [|discriminate].
  destruct (truthy reaction_type); [|discriminate].
  destruct reaction_type as [| | |tag| |]; cbn; try discriminate.
  intros Hsymbol. exists (JStr tag). split; [reflexivity|].
  exists tag, symbol. split; [reflexivity | exact Hsymbol].
Qed.

End ClassifierProperties.

(** The paths of [classify] that do fail safe.  When the classification
    call raises, or its reply holds no usable JSON (the extraction is
    empty or falsy), or what it holds is not an object, [classify]
    answers [reply] with no reaction; a decision carries a reaction
    symbol only for a [reaction_type] of the table [REACTIONS]: any
    other value leaves it without a symbol; and an object without an
    [action] is answered with [reply]. *)
Theorem classify_fails_safe json_loads error_text :
  let classify := ResponseClassifier.classify json_loads error_text in
  let extract := ResponseClassifier._extract_json json_loads in
  (forall r,
      match r with
      | Raised _ => True
      | Text text =>
          truthy (extract text) = false \/ forall fields, extract text <> JObj fields
      end ->
      ResponseClassifier.action (classify r) = JStr "reply"
      /\ ResponseClassifier.reaction (classify r) = None)
  /\ (forall text reaction_type,
        py_get (extract text) "reaction_type" JNull = Some reaction_type ->
        ~ in_tag_set reaction_type ->
        ResponseClassifier.reaction (classify (Text text)) = None)
  /\ (forall text fields,
        extract text = JObj fields ->
        dict_lookup fields "action" = None ->
        ResponseClassifier.action (classify (Text text)) = JStr "reply").
Proof.
  intros classify extract. split; [|split].
  - intros [text|message] Hbad; [|split; reflexivity].
    subst classify extract. unfold ResponseClassifier.classify.
    destruct Hbad as [Hfalsy|Hshape].
    + rewrite Hfalsy. split; reflexivity.
    + destruct (truthy _); cbn [negb]; [|split; reflexivity].
      destruct (ResponseClassifier._extract_json json_loads text) as [| | | | |fields];
        try (split; reflexivity).
      exfalso. exact (Hshape fields eq_refl).
  - intros text reaction_type Hget Hout.
    destruct (ResponseClassifier.reaction (classify (Text text))) as [symbol|] eqn:Hr;
      [|reflexivity].
    exfalso. apply Hout.
    destruct (classify_reaction_inv json_loads error_text text symbol Hr)
      as (reaction_type' & Hget' & Hin).
    unfold extract in Hget. congruence.
  - intros text fields Hobject Hmissing.
    subst classify extract. unfold ResponseClassifier.classify.
    rewrite Hobject. destruct (truthy (JObj fields)); cbn [negb]; [|reflexivity].
    cbn [py_get]. rewrite Hmissing.
    destruct (truthy _); [|reflexivity].
    destruct (ResponseClassifier.REACTIONS_get _); reflexivity.
Qed.

Lemma classify_fails_safe_witness :
  let classify := ResponseClassifier.classify Decoder.json_loads (fun _ => "") in
  (ResponseClassifier.action (classify chatty_reply) = JStr "reply"
   /\ ResponseClassifier.reaction (classify chatty_reply) = None)
  /\ ResponseClassifier.action (classify dance_reply) = JStr "react"
  /\ ResponseClassifier.reaction (classify dance_reply) = None.
Proof.
  destruct (classify_fails_safe Decoder.json_loads (fun _ => "")) as (Hsafe & Hclosed & _).
  split; [|split].
  - apply (Hsafe chatty_reply). left. reflexivity.
  - reflexivity.
  - apply (Hclosed _ (JStr "dance")); [reflexivity|].
    intros (tag & symbol & Htag & Hsymbol). injection Htag as <-. discriminate.
Defined.

(** ** The message handler *)

Lemma add_long_term_memory_frame config now key content importance dk m :
  let m' := (add_long_term_memory config now key content importance (dk, m)).2.2 in
  short_term m' = short_term m
  /\ consecutive_ai_messages m' = consecutive_ai_messages m
  /\ last_ai_message_time m' = last_ai_message_time m
  /\ last_user_message_time m' = last_user_message_time m.
Proof.
  unfold add_long_term_memory.
  destruct (update_existing _ _ _ _ _ _) as [[mem l']|]; cbn; repeat split; reflexivity.
Qed.

Lemma save_memories_frame config now new_memories : forall st,
  let m' := (ProactiveAIBot.save_memories config now new_memories st).2 in
  short_term m' = short_term st.2
  /\ consecutive_ai_messages m' = consecutive_ai_messages st.2
  /\ last_ai_message_time m' = last_ai_message_time st.2
  /\ last_user_message_time m' = last_user_message_time st.2.
Proof.
  induction new_memories as [|mem rest IH]; intros st; cbn [ProactiveAIBot.save_memories].
  - repeat split; reflexivity.
  - destruct (ProactiveAIBot.memory_entry mem) as [[[key content] importance]|];
      [|repeat split; reflexivity].
    destruct st as [dk m].
    destruct (add_long_term_memory_frame config now key content importance dk m)
      as (Hs & Hc & Hl & Hu).
    destruct (IH (add_long_term_memory config now key content importance (dk, m)).2)
      as (Hs' & Hc' & Hl' & Hu').
    cbn [snd] in *. rewrite Hs', Hc', Hl', Hu'. repeat split; assumption.
Qed.

Lemma add_long_term_memory_only_long_term config now key content importance dk m :
  let r := add_long_term_memory config now key content importance (dk, m) in
  r.2.2 = set_long_term (long_term r.2.2) m
  /\ forall path, path <> long_term_path (user_id m) -> r.2.1 !! path = dk !! path.
Proof.
  unfold add_long_term_memory.
  destruct (update_existing _ _ _ _ _ _) as [[mem l']|]; cbn [fst snd];
    (split; [reflexivity|]); intros path Hpath; unfold _save_to_disk;
    cbn [set_long_term user_id]; apply lookup_insert_ne; congruence.
Qed.

Lemma save_memories_only_long_term config now new_memories : forall st,
  let st' := ProactiveAIBot.save_memories config now new_memories st in
  st'.2 = set_long_term (long_term st'.2) st.2
  /\ forall path, path <> long_term_path (user_id st.2) -> st'.1 !! path = st.1 !! path.
Proof.
  induction new_memories as [|mem rest IH]; intros [dk m];
    cbn [ProactiveAIBot.save_memories fst snd].
  - split; [destruct m; reflexivity | intros path _; reflexivity].
  - destruct (ProactiveAIBot.memory_entry mem) as [[[key content] importance]|];
      [|split; [destruct m; reflexivity | intros path _; reflexivity]].
    destruct (add_long_term_memory_only_long_term config now key content importance dk m)
      as [Hstore Hdisk].
    destruct (IH (add_long_term_memory config now key content importance (dk, m)).2)
      as [Hstore' Hdisk'].
    destruct (add_long_term_memory config now key content importance (dk, m))
      as [returned [dk1 m1]].
    cbn [fst snd] in *. split.
    + rewrite Hstore'. rewrite Hstore at 2. reflexivity.
    + intros path Hpath. rewrite Hdisk'; [apply Hdisk, Hpath|].
      rewrite Hstore. exact Hpath.
Qed.

(** C10, amended. When the classifier asks for a reply and the
    generation call fails, the handler sends and logs the fixed
    fallback message and does not record it: the store it leaves is
    the store reached by recording the user message, except for its
    long-term facts.  The short-term window, the reservoir, the counter
    of consecutive agent messages (0) and the time of the last user
    message are those of that store, and [last_ai_message_time] is
    what it was before the message arrived; the stores of other users
    and every durable record but the user's are untouched.  The
    long-term facts and the user's record can change only through the
    memory extraction that the handler runs when the window holds at
    least five messages and their number is 0 or 1 modulo 5: when that
    step is not reached, the store is exactly the store reached by
    recording the user message and no record is written. *)
Theorem fallback_is_not_recorded config json_loads error_text now r uid content bot message :
  ResponseClassifier.action
    (ResponseClassifier.classify json_loads error_text (ProactiveAIBot.classify_reply r))
  = JStr "reply" ->
  ProactiveAIBot.reactive_reply r = Raised message ->
  let memory0 := (ProactiveAIBot._get_memory uid bot).1 in
  let memory1 := (add_message config now "user" content memory0).2 in
  let bot' := ProactiveAIBot.on_message config json_loads error_text now r uid content bot in
  let n := length (short_term memory1) in
  exists memory',
    ProactiveAIBot.memories bot' !! uid = Some memory'
    /\ memory' = set_long_term (long_term memory') memory1
    /\ short_term memory' = short_term memory1
    /\ thought_reservoir memory' = thought_reservoir memory0
    /\ consecutive_ai_messages memory' = 0
    /\ last_ai_message_time memory' = last_ai_message_time memory0
    /\ last_user_message_time memory' = Some now
    /\ ProactiveAIBot.events bot'
       = ProactiveAIBot.events bot
         ++ [ProactiveAIBot.log_user_message uid content;
             ProactiveAIBot.log_ai_response uid InnerThoughtsEngine.fallback_message false;
             ProactiveAIBot.send InnerThoughtsEngine.fallback_message]
    /\ (forall other, other <> uid ->
          ProactiveAIBot.memories bot' !! other = ProactiveAIBot.memories bot !! other)
    /\ (forall path, path <> long_term_path (user_id memory0) ->
          ProactiveAIBot.files bot' !! path = ProactiveAIBot.files bot !! path)
    /\ ((5 <=? n) && (n mod 5 <=? 1) = false ->
          memory' = memory1 /\ ProactiveAIBot.files bot' = ProactiveAIBot.files bot).
Proof.
  intros Haction Hfailed memory0 memory1 bot' n.
  subst bot'. unfold ProactiveAIBot.on_message.
  destruct (ProactiveAIBot._get_memory uid bot) as [m0 bot0] eqn:Hget.
  assert (ProactiveAIBot.events bot0 = ProactiveAIBot.events bot
          /\ ProactiveAIBot.files bot0 = ProactiveAIBot.files bot
          /\ forall m other, other <> uid ->
               <[uid := m]> (ProactiveAIBot.memories bot0) !! other
               = ProactiveAIBot.memories bot !! other)
    as (Hevents & Hfiles & Hothers).
  { unfold ProactiveAIBot._get_memory in Hget.
    destruct (ProactiveAIBot.memories bot !! uid); injection Hget as <- <-;
      cbn [ProactiveAIBot.events ProactiveAIBot.files ProactiveAIBot.memories];
      (split; [reflexivity|]); (split; [reflexivity|]);
      intros m other Hother; rewrite !lookup_insert_ne by congruence; reflexivity. }
  subst n memory0 memory1. cbn [fst].
  rewrite Haction, Hfailed. cbn [ProactiveAIBot.py_eq_str].
  replace (String.eqb "reply" "react") with false by reflexivity.
  replace (String.eqb "reply" "reply") with true by reflexivity.
  cbn [andb InnerThoughtsEngine.generate_reactive_response].
  replace (str_contains "調子悪いみたい..." InnerThoughtsEngine.fallback_message)
    with true by (vm_compute; reflexivity).
  cbn [negb].
  set (m1 := (add_message config now "user" content m0).2).
  assert (user_id m1 = user_id m0) as Huser
    by (subst m1; unfold add_message; cbn; reflexivity).
  set (reached := (5 <=? length (short_term m1)) && (length (short_term m1) mod 5 <=? 1)).
  match goal with
  | |- context [if reached then ?a else ?b] =>
      assert (exists files3 memory3,
                (if reached then a else b) = (files3, memory3)
                /\ memory3 = set_long_term (long_term memory3) m1
                /\ (forall path, path <> long_term_path (user_id m0) ->
                      files3 !! path = ProactiveAIBot.files bot !! path)
                /\ (reached = false ->
                      memory3 = m1 /\ files3 = ProactiveAIBot.files bot))
        as (files3 & memory3 & -> & Hstore & Hdisk & Hskipped)
  end.
  { rewrite Hfiles. destruct reached.
    - unfold ProactiveAIBot._extract_and_save_memories.
      pose proof (save_memories_only_long_term config now
                    (ProactiveAIBot.extract_memories json_loads
                       (ProactiveAIBot.extraction_reply r))
                    (ProactiveAIBot.files bot, m1)) as [Hstore Hdisk].
      destruct (ProactiveAIBot.save_memories _ _ _ _) as [files3 memory3].
      exists files3, memory3. cbn [fst snd] in *.
      split; [reflexivity|]. split; [exact Hstore|].
      split; [rewrite <- Huser; exact Hdisk | discriminate].
    - exists (ProactiveAIBot.files bot), m1.
      split; [reflexivity|]. split; [destruct m1; reflexivity|].
      split; [intros path _; reflexivity | intros _; split; reflexivity]. }
  assert (short_term memory3 = short_term m1
          /\ thought_reservoir memory3 = thought_reservoir m0
          /\ consecutive_ai_messages memory3 = 0
          /\ last_ai_message_time memory3 = last_ai_message_time m0
          /\ last_user_message_time memory3 = Some now)
    as (Hs & Hr & Hc & Hl & Hu).
  { rewrite Hstore. subst m1. unfold add_message. cbn. repeat split; reflexivity. }
  exists memory3.
  cbn [ProactiveAIBot.memories ProactiveAIBot.events ProactiveAIBot.files].
  split; [apply lookup_insert_eq|]. split; [exact Hstore|].
  split; [exact Hs|]. split; [exact Hr|]. split; [exact Hc|]. split; [exact Hl|].
  split; [exact Hu|].
  split; [rewrite Hevents, <- app_assoc; reflexivity|].
  split; [intros other Hother; apply Hothers, Hother|].
  split; [exact Hdisk | exact Hskipped].
Qed.

Lemma fallback_is_not_recorded_witness :
  let bot' :=
    ProactiveAIBot.on_message example_config Decoder.json_loads (fun _ => "")
      (seconds 9) failed_generation "42" "how are you?" bot_with_facts in
  exists memory',
    ProactiveAIBot.memories bot' !! "42" = Some memory'
    /\ memory'
       = (add_message example_config (seconds 9) "user" "how are you?" full_memory.2).2
    /\ ProactiveAIBot.files bot' = ProactiveAIBot.files bot_with_facts
    /\ ProactiveAIBot.events bot'
       = [ProactiveAIBot.log_user_message "42" "how are you?";
          ProactiveAIBot.log_ai_response "42" InnerThoughtsEngine.fallback_message false;
          ProactiveAIBot.send InnerThoughtsEngine.fallback_message].
Proof.
  destruct (fallback_is_not_recorded example_config Decoder.json_loads (fun _ => "")
              (seconds 9) failed_generation "42" "how are you?" bot_with_facts "timeout")
    as (memory' & Hstore & _ & _ & _ & _ & _ & _ & Hevents & _ & _ & Hskipped);
    [reflexivity | reflexivity |].
  exists memory'. split; [exact Hstore|].
  destruct Hskipped as [Hsame Hfiles]; [reflexivity|].
  split; [exact Hsame|]. split; [exact Hfiles | exact Hevents].
Defined.

(** C10, as stated, fails: in a run where the fallback is sent, the
    memory extraction of the same handler call stores a long-term fact
    and writes the durable record, so the state is not the state
    reached by recording the user message. *)
Lemma fallback_run_stores_a_fact_counterexample :
  let memory0 := (ProactiveAIBot._get_memory "42" chatting_bot).1 in
  let memory1 := (add_message roomy_config (seconds 9) "user" "I have a cat" memory0).2 in
  let bot' :=
    ProactiveAIBot.on_message roomy_config Decoder.json_loads (fun _ => "")
      (seconds 9) failed_generation_with_extraction "42" "I have a cat" chatting_bot in
  ProactiveAIBot.events bot'
  = [ProactiveAIBot.log_user_message "42" "I have a cat";
     ProactiveAIBot.log_ai_response "42" InnerThoughtsEngine.fallback_message false;
     ProactiveAIBot.send InnerThoughtsEngine.fallback_message]
  /\ exists memory',
       ProactiveAIBot.memories bot' !! "42" = Some memory'
       /\ memory' <> memory1
       /\ long_term memory1 = []
       /\ long_term memory'
          = [LongTermMemory.mk "42" "pet" "cat" 4 (seconds 9) (seconds 9) 1]
       /\ ProactiveAIBot.files chatting_bot !! long_term_path "42" = None
       /\ ProactiveAIBot.files bot' !! long_term_path "42"
          = Some [LongTermMemory.mk "42" "pet" "cat" 4 (seconds 9) (seconds 9) 1].
Proof.
  cbv zeta. split; [vm_compute; reflexivity|].
  eexists. split; [vm_compute; reflexivity|].
  split; [intros Heq; apply (f_equal long_term) in Heq; vm_compute in Heq; discriminate|].
  repeat split; vm_compute; reflexivity.
Qed.

(** ** The proactive cycle *)

Lemma deque_append_last_item {A} (maxlen : nat) (d : list A) (x : A) :
  0 < maxlen -> last (deque_append maxlen d x) = Some x.
Proof.
  intros Hpos. unfold deque_append.
  destruct (Nat.ltb_spec maxlen (length (d ++ [x]))) as [Hfull|Hfull].
  - destruct d as [|y d]; cbn [app tail length] in *; [lia | apply last_snoc].
  - apply last_snoc.
Qed.

Lemma alter_last_allocated (f : Thought.t -> Thought.t) (h : heap) (th : Thought.t) :
  alter f (length h) (h ++ [th]) = h ++ [f th].
Proof.
  rewrite alter_app_r_alt by lia. replace (length h - length h) with 0 by lia. reflexivity.
Qed.

Lemma lookup_last_allocated (h : heap) (th : Thought.t) : (h ++ [th]) !! length h = Some th.
Proof. rewrite lookup_app_r by lia. replace (length h - length h) with 0 by lia. reflexivity. Qed.

(** C1 (what the code does). In a cycle that goes through evaluation and
    returns an utterance, the score has passed the threshold and two
    thought objects have been created: the one [generate_thought] made,
    which is marked expressed, and the copy that [add_thought] put in
    the reservoir, which is not: the reservoir ends with a thought of
    the same content and score whose [expressed] is still [False]. *)
Theorem expressed_mark_misses_reservoir config json_loads now r h m response h' m' :
  InnerThoughtsEngine.process_proactive_cycle config json_loads now r (h, m)
  = (Returned (Some response), (h', m')) ->
  (forall s, InnerThoughtsEngine.should_trigger_thought config now m
             <> Some (silence_timeout s)) ->
  0 < THOUGHT_RESERVOIR_SIZE config ->
  exists formed stored,
    h' = h ++ [formed; stored]
    /\ last (thought_reservoir m') = Some (S (length h))
    /\ Thought.expressed formed = true
    /\ Thought.expressed stored = false
    /\ Thought.content stored = Thought.content formed
    /\ Thought.motivation_score stored = Thought.motivation_score formed
    /\ InnerThoughtsEngine.score_ge (Thought.motivation_score stored)
         (MOTIVATION_THRESHOLD config) = Some true
    /\ can_intervene config now m = true
    /\ response <> "".
Proof.
  intros Hcycle Hpath Hsize.
  unfold InnerThoughtsEngine.process_proactive_cycle in Hcycle.
  destruct (can_intervene config now m) eqn:Hgate; cbn [negb] in Hcycle; [|discriminate].
  destruct (InnerThoughtsEngine.should_trigger_thought config now m) as [reason|] eqn:Htrig;
    [|discriminate].
  assert (match reason with silence_timeout _ => False | _ => True end) as Hreason.
  { destruct reason; try exact I. exact (Hpath s eq_refl). }
  assert
    (match InnerThoughtsEngine.generate_thought json_loads
             (InnerThoughtsEngine.thought_reply r) reason (h, m) with
     | (Exception, h1) => (Exception, (h1, m))
     | (Returned None, h1) => (Returned None, (h1, m))
     | (Returned (Some (thought, potential_response)), h1) =>
         let evaluation :=
           InnerThoughtsEngine.evaluate_motivation json_loads
             (InnerThoughtsEngine.eval_reply r) in
         match py_get evaluation "overall_score" (JNum 0) with
         | None => (Exception, (h1, m))
         | Some score =>
             let h2 := alter (Thought.set_motivation_score score) thought h1 in
             match py_get evaluation "reasoning" (JStr "") with
             | None => (Exception, (h2, m))
             | Some reasoning =>
                 let h3 := alter (Thought.set_reasoning reasoning) thought h2 in
                 let content := default JNull (Thought.content <$> h3 !! thought) in
                 let '(_, st4) :=
                   add_thought config now content score reasoning reason (h3, m) in
                 match InnerThoughtsEngine.score_ge score (MOTIVATION_THRESHOLD config) with
                 | None => (Exception, st4)
                 | Some false => (Returned None, st4)
                 | Some true =>
                     match py_get evaluation "should_speak" (JBool false) with
                     | None => (Exception, st4)
                     | Some should_speak =>
                         if truthy should_speak then
                           let response :=
                             InnerThoughtsEngine.generate_proactive_response
                               (InnerThoughtsEngine.render_reply r) in
                           if negb (String.eqb response "") then
                             (Returned (Some response),
                              (alter (Thought.set_expressed true) thought st4.1, st4.2))
                           else (Returned None, st4)
                         else (Returned None, st4)
                     end
                 end
             end
         end
     end = (Returned (Some response), (h', m'))) as Hbody.
  { destruct reason; [contradiction | exact Hcycle | exact Hcycle]. }
  clear Hcycle.
  unfold InnerThoughtsEngine.generate_thought in Hbody.
  destruct (get_pending_thoughts 0 h m) as [pending|]; [|discriminate].
  destruct (InnerThoughtsEngine.thought_reply r) as [text|]; [|discriminate].
  destruct (truthy (InnerThoughtsEngine._extract_json json_loads text)); cbn [negb] in Hbody;
    [|discriminate].
  destruct (py_get _ "thought" _) as [thought_content|]; [|discriminate].
  destruct (py_get _ "potential_response" _) as [potential_response|]; [|discriminate].
  cbn [alloc] in Hbody. cbv zeta in Hbody.
  destruct (py_get _ "overall_score" _) as [score|]; [|discriminate].
  destruct (py_get _ "reasoning" _) as [reasoning|]; [|discriminate].
  rewrite (alter_last_allocated (Thought.set_motivation_score score)) in Hbody.
  rewrite (alter_last_allocated (Thought.set_reasoning reasoning)) in Hbody.
  rewrite lookup_last_allocated in Hbody.
  cbn in Hbody.
  destruct (InnerThoughtsEngine.score_ge score (MOTIVATION_THRESHOLD config)) as [[|]|] eqn:Hge;
    try discriminate.
  destruct (py_get _ "should_speak" _) as [should_speak|]; [|discriminate].
  destruct (truthy should_speak); [|discriminate].
  destruct (String.eqb_spec
              (InnerThoughtsEngine.generate_proactive_response
                 (InnerThoughtsEngine.render_reply r)) "") as [|Hresponse];
    cbn [negb] in Hbody; [discriminate|].
  injection Hbody as Hr Hh Hm. subst response h' m'.
  rewrite (alter_app_l (Thought.set_expressed true)) by (rewrite length_app; cbn; lia).
  rewrite (alter_last_allocated (Thought.set_expressed true)), <- app_assoc.
  eexists _, _. split; [cbn; reflexivity|].
  cbn. rewrite length_app. cbn [length].
  replace (length h + 1) with (S (length h)) by lia.
  split; [apply deque_append_last_item, Hsize|].
  repeat split; try reflexivity; assumption.
Qed.

Lemma expressed_mark_misses_reservoir_witness :
  exists h' m' stored,
    InnerThoughtsEngine.process_proactive_cycle example_config Decoder.json_loads
      (seconds 2) authorized_cycle ([], listening_memory)
    = (Returned (Some "Which ramen shop do you like?"), (h', m'))
    /\ reservoir_thoughts h' m' = [Some stored]
    /\ Thought.motivation_score stored = JNum 4
    /\ Thought.expressed stored = false.
Proof.
  edestruct (expressed_mark_misses_reservoir example_config Decoder.json_loads
               (seconds 2) authorized_cycle [] listening_memory)
    as (formed & stored & Hheap & Hlast & Hformed & Hstored & _).
  - vm_compute. reflexivity.
  - intros s. vm_compute. discriminate.
  - vm_compute. lia.
  - eexists _, _, _. split; [vm_compute; reflexivity|].
    split; [vm_compute; reflexivity|]. split; reflexivity.
Defined.

(** ** Extraction of JSON from a reply *)

Lemma prefix_char c s :
  String.prefix (String c EmptyString) s = true <-> exists rest, s = String c rest.
Proof.
  destruct s as [|c' rest]; cbn.
  - split; [discriminate | intros [? ?]; discriminate].
  - destruct (ascii_dec c c') as [->|Hne].
    + split; [eauto | intros _; destruct rest; reflexivity].
    + split; [destruct rest; discriminate | intros [? Heq]; congruence].
Qed.

Lemma str_find_char c : forall s i,
  str_find (String c EmptyString) s = Some i ->
  exists rest,
    str_drop i s = String c rest
    /\ str_drop (i + 1) s = rest
    /\ i < String.length s
    /\ String.get i s = Some c.
Proof.
  induction s as [|c' s IH]; intros i Hfind.
  - cbn in Hfind. discriminate.
  - cbn [str_find] in Hfind.
    destruct (String.prefix (String c EmptyString) (String c' s)) eqn:Hprefix.
    + injection Hfind as <-. apply prefix_char in Hprefix as [rest Heq].
      injection Heq as Hc Hr. subst c' rest. exists s. cbn. repeat split. lia.
    + destruct (str_find (String c EmptyString) s) as [i'|] eqn:Hrest; [|discriminate].
      injection Hfind as <-. destruct (IH i' eq_refl) as (rest & Hdrop & Hdrop' & Hlt & Hget).
      exists rest. cbn. repeat split; try assumption. lia.
Qed.

Lemma scan_brackets_flat : forall rest j,
  str_find "}" rest = Some j ->
  str_find "{" (str_take j rest) = None ->
  scan_brackets "{" "}" 1 rest = Some (j + 1).
Proof.
  induction rest as [|c rest IH]; intros j Hclose Hopen.
  - cbn in Hclose. discriminate.
  - cbn [str_find] in Hclose.
    destruct (String.prefix "}" (String c rest)) eqn:Hprefix.
    + injection Hclose as <-. apply prefix_char in Hprefix as [rest' Heq].
      injection Heq as Hc Hr. subst c rest'. reflexivity.
    + destruct (str_find "}" rest) as [j'|] eqn:Hrest; [|discriminate].
      injection Hclose as <-. cbn [str_take str_find] in Hopen.
      destruct (String.prefix "{" (String c (str_take j' rest))) eqn:Hbrace; [discriminate|].
      destruct (str_find "{" (str_take j' rest)) eqn:Hinner; [discriminate|].
      cbn [scan_brackets].
      destruct (Ascii.eqb_spec c "{") as [->|_].
      { rewrite (proj2 (prefix_char "{" _)) in Hbrace by eauto. discriminate. }
      destruct (Ascii.eqb_spec c "}") as [->|_].
      { rewrite (proj2 (prefix_char "}" _)) in Hprefix by eauto. discriminate. }
      rewrite (IH j' eq_refl Hinner). reflexivity.
Qed.

(** C5, as the claim states it: the extraction written inline in the
    gatherer and the engine's [_extract_json] compute the same result on
    every text.  They do not on a reply whose object holds another
    object: the inline pattern stops at the first closing brace, the
    span does not decode and the result is [None], where the engine
    counts brackets and decodes the whole object. *)
Lemma inline_extraction_counterexample :
  InformationGatherer.extract_inline Decoder.json_loads nested_reply
  <> InnerThoughtsEngine._extract_json Decoder.json_loads nested_reply.
Proof. vm_compute. discriminate. Qed.

(** C5, amended. The gatherer does not use the two-step extraction: it
    decodes the span from the first opening brace to the first closing
    brace after it, with no fenced-block step and no bracket counting.
    On a text without a fenced block, whose first opening brace comes
    before any opening square bracket and is closed before another brace
    opens, it computes the same result as the engine's [_extract_json]:
    the value decoded from that span, or [None]. *)
Theorem inline_extraction_agrees_on_flat_objects json_loads text i j :
  fence_search text = None ->
  str_find "{" text = Some i ->
  (forall k, str_find "[" text = Some k -> i < k) ->
  str_find "}" (str_drop (i + 1) text) = Some j ->
  str_find "{" (str_take j (str_drop (i + 1) text)) = None ->
  InformationGatherer.extract_inline json_loads text
  = InnerThoughtsEngine._extract_json json_loads text
  /\ InformationGatherer.extract_inline json_loads text
     = default JNull (json_loads (str_take (j + 2) (str_drop i text))).
Proof.
  intros Hfence Hopen Harray Hclose Hflat.
  destruct (str_find_char "{" text i Hopen) as (rest & Hdrop & Hdrop' & Hlt & Hget).
  assert (InformationGatherer.extract_inline json_loads text
          = default JNull (json_loads (str_take (j + 2) (str_drop i text)))) as Hinline.
  { unfold InformationGatherer.extract_inline, InformationGatherer.lazy_span.
    rewrite Hopen, Hclose. reflexivity. }
  split; [|exact Hinline].
  rewrite Hinline.
  unfold InnerThoughtsEngine._extract_json, InnerThoughtsEngine.extract_direct.
  rewrite Hfence, Hopen.
  change (default (String.length text) (Some i)) with i.
  assert (Nat.min i (default (String.length text) (str_find "[" text)) = i) as ->.
  { destruct (str_find "[" text) as [k|].
    - specialize (Harray k eq_refl). change (Nat.min i k = i). lia.
    - change (Nat.min i (String.length text) = i). lia. }
  destruct (Nat.ltb_spec i (String.length text)); [|lia].
  rewrite Hget. change (default "{"%char (Some "{"%char)) with "{"%char. replace (Ascii.eqb "{" "{") with true by reflexivity.
  rewrite Hdrop. cbn [scan_brackets]. replace (Ascii.eqb "{" "{") with true by reflexivity.
  rewrite Hdrop' in Hclose, Hflat.
  replace (0 + 1)%Z with 1%Z by reflexivity.
  rewrite (scan_brackets_flat rest j Hclose Hflat). cbn [option_map].
  replace (i + S (j + 1) - i) with (j + 2) by lia.
  destruct (json_loads _); reflexivity.
Qed.

Lemma inline_extraction_agrees_on_flat_objects_witness :
  InformationGatherer.extract_inline Decoder.json_loads flat_reply
  = InnerThoughtsEngine._extract_json Decoder.json_loads flat_reply
  /\ InformationGatherer.extract_inline Decoder.json_loads flat_reply
     = JObj [("overall_score", JNum 4); ("reasoning", JStr "fresh")].
Proof.
  destruct (inline_extraction_agrees_on_flat_objects Decoder.json_loads flat_reply 7 40)
    as [Hsame Hvalue]; try reflexivity.
  - intros k Hk. vm_compute in Hk. discriminate.
  - split; [exact Hsame|]. rewrite Hvalue. reflexivity.
Defined.
(** ** The information gatherer *)

(** C2, as the claim states it: a call in which no candidate meets the
    threshold leaves the seen-URL set unchanged.  It does not: the
    search records every new URL before any candidate is scored, so a
    call that finds one article and scores it 2 against a threshold of
    3.5 returns [None] and has added the URL to the set. *)
Lemma find_shareable_article_seen_counterexample :
  let r := find_shareable_article example_config Decoder.json_loads (seconds 100)
             unqualified_search full_memory.2 new_gatherer in
  r.1 = Returned None
  /\ seen_of new_gatherer "42" = ∅
  /\ seen_of r.2 "42" = {[ "https://example.org/ramen" ]}.
Proof.
  split; [vm_compute; reflexivity|]. split; [reflexivity|].
  vm_compute. reflexivity.
Qed.

Section GathererProperties.
Variable config : Config.
Variable json_loads : string -> option json.

Lemma collect_results_seen now interest results : forall seen,
  (collect_results now interest results seen).2
  = seen ∪ list_to_set (url <$> (collect_results now interest results seen).1).
Proof.
  induction results as [|result rest IH]; intros seen; cbn [collect_results].
  - cbn. set_solver.
  - destruct (bool_decide (result_url result ∈ seen)); [apply IH|].
    specialize (IH (seen ∪ {[result_url result]})).
    destruct (collect_results now interest rest (seen ∪ {[result_url result]}))
      as [articles seen'].
    cbn in *. rewrite IH. set_solver.
Qed.

Lemma search_interests_seen now search interests : forall i seen,
  (search_interests now search i interests seen).2
  = seen ∪ list_to_set (url <$> (search_interests now search i interests seen).1).
Proof.
  induction interests as [|interest rest IH]; intros i seen; cbn [search_interests].
  - cbn. set_solver.
  - pose proof (collect_results_seen now interest (search i interest) seen) as Hfound.
    destruct (collect_results now interest (search i interest) seen) as [found seen1].
    specialize (IH (S i) seen1).
    destruct (search_interests now search (S i) rest seen1) as [more seen2].
    cbn in *. rewrite IH, Hfound, fmap_app, list_to_set_app_L. set_solver.
Qed.

Lemma search_for_user_frame now c memory g :
  let r := search_for_user json_loads now c memory g in
  seen_of r.2 (user_id memory)
  = seen_of g (user_id memory) ∪ list_to_set (url <$> r.1)
  /\ (forall other, other <> user_id memory -> seen_of r.2 other = seen_of g other)
  /\ daily_shares r.2 = daily_shares g
  /\ last_share_reset r.2 = last_share_reset g.
Proof.
  unfold search_for_user.
  destruct (extract_interests json_loads (interests_reply c) memory) as [|interest rest].
  - cbn. repeat split; set_solver.
  - pose proof (search_interests_seen now (search_brave c) (take 3 (interest :: rest)) 0
                  (default ∅ (seen_urls g !! user_id memory))) as Hseen.
    destruct (search_interests _ _ _ _ _) as [articles seen'].
    cbn in *. unfold seen_of. cbn. rewrite lookup_insert_eq. cbn.
    split; [exact Hseen|]. split; [|split; reflexivity].
    intros other Hother. rewrite lookup_insert_ne by congruence. reflexivity.
Qed.

Lemma _can_share_today_frame now uid g :
  let g1 := (_can_share_today config now uid g).2 in
  seen_urls g1 = seen_urls g
  /\ (forall other, other <> uid -> shares_of g1 other = shares_of g other)
  /\ shares_of g1 uid
     = match last_share_reset g !! uid with
       | Some last => if (date last <? date now)%Z then 0%Z else shares_of g uid
       | None => 0%Z
       end.
Proof.
  unfold _can_share_today, shares_of. cbn.
  destruct (last_share_reset g !! uid) as [last|].
  - destruct (date last <? date now)%Z; cbn.
    + split; [reflexivity|]. split; [|rewrite lookup_insert_eq; reflexivity].
      intros other Hother. rewrite lookup_insert_ne by congruence. reflexivity.
    + repeat split; reflexivity.
  - cbn. split; [reflexivity|]. split; [|rewrite lookup_insert_eq; reflexivity].
    intros other Hother. rewrite lookup_insert_ne by congruence. reflexivity.
Qed.

Lemma pick_best_unqualified relevance : forall found i,
  (forall k article, found !! k = Some article ->
     exists q,
       as_number (evaluate_article_relevance json_loads (relevance (i + k))) = Some q
       /\ ~ ((0 < q)%Q /\ (INFO_SHARE_MOTIVATION_THRESHOLD config <= q)%Q)) ->
  pick_best config json_loads relevance i found None 0 = Some None.
Proof.
  induction found as [|article rest IH]; intros i Hnone; [reflexivity|].
  cbn [pick_best].
  destruct (Hnone 0 article eq_refl) as (q & Hq & Hlow).
  rewrite Nat.add_0_r in Hq. rewrite Hq.
  assert (negb (Qle_bool q 0) && Qle_bool (INFO_SHARE_MOTIVATION_THRESHOLD config) q = false)
    as ->.
  { destruct (Qle_bool q 0) eqn:Hzero; [reflexivity|]. cbn.
    destruct (Qle_bool (INFO_SHARE_MOTIVATION_THRESHOLD config) q) eqn:Hthr; [|reflexivity].
    exfalso. apply Hlow. split; [|apply Qle_bool_iff, Hthr].
    apply Qnot_le_lt. intros Hle. apply Qle_bool_iff in Hle. congruence. }
  apply IH. intros k article' Hk.
  replace (S i + k) with (i + S k) by lia. apply (Hnone (S k) article'). exact Hk.
Qed.

End GathererProperties.

(** C2, amended. A call of [find_shareable_article] adds to the user's
    seen-URL set exactly the URLs of the candidates its search found
    (none when the quota is used up or nothing new is found) and touches
    no other user.  When no candidate qualifies it returns [None] and
    the daily counter is the one left by the quota check, which is 0 on
    first use or after a change of date and the old value otherwise.
    The counter differs from that value only when the call returns an
    article with a non-empty message, and then by exactly one. *)
Theorem find_shareable_article_frame config json_loads now c memory g :
  let uid := user_id memory in
  let checked := _can_share_today config now uid g in
  let found :=
    if checked.1 then (search_for_user json_loads now c memory checked.2).1 else [] in
  let r := find_shareable_article config json_loads now c memory g in
  seen_of r.2 uid = seen_of g uid ∪ list_to_set (url <$> found)
  /\ (found = [] -> seen_of r.2 uid = seen_of g uid)
  /\ (forall other, other <> uid ->
        seen_of r.2 other = seen_of g other /\ shares_of r.2 other = shares_of g other)
  /\ (no_candidate_qualifies config json_loads c found ->
        r.1 = Returned None /\ shares_of r.2 uid = shares_of checked.2 uid)
  /\ (shares_of r.2 uid = shares_of checked.2 uid
      \/ exists article message,
           r.1 = Returned (Some (article, message))
           /\ message <> ""
           /\ shares_of r.2 uid = (shares_of checked.2 uid + 1)%Z)
  /\ shares_of checked.2 uid
     = match last_share_reset g !! uid with
       | Some last => if (date last <? date now)%Z then 0%Z else shares_of g uid
       | None => 0%Z
       end.
Proof.
  intros uid checked found r.
  destruct (_can_share_today_frame config now uid g) as (Hseen1 & Hother1 & Hreset).
  fold checked in Hseen1, Hother1, Hreset.
  assert (forall other, seen_of checked.2 other = seen_of g other) as Hseen1'.
  { intros other. unfold seen_of. rewrite Hseen1. reflexivity. }
  assert (seen_of r.2 uid = seen_of g uid ∪ list_to_set (url <$> found)
          /\ (forall other, other <> uid ->
                seen_of r.2 other = seen_of g other
                /\ shares_of r.2 other = shares_of g other)
          /\ (no_candidate_qualifies config json_loads c found ->
                r.1 = Returned None /\ shares_of r.2 uid = shares_of checked.2 uid)
          /\ (shares_of r.2 uid = shares_of checked.2 uid
              \/ exists article message,
                   r.1 = Returned (Some (article, message))
                   /\ message <> ""
                   /\ shares_of r.2 uid = (shares_of checked.2 uid + 1)%Z))
    as (Hseen & Hothers & Hnone & Hcount).
  { subst r found. unfold find_shareable_article. fold uid. fold checked.
    destruct checked as [allowed g1]. cbn [fst snd] in *.
    destruct allowed; cbn [negb].
    2:{ cbn [fst snd]. rewrite Hseen1'. split; [set_solver|].
        split; [intros other Hother; split; [apply Hseen1' | apply Hother1, Hother]|].
        split; [intros _; split; reflexivity | left; reflexivity]. }
    destruct (search_for_user_frame json_loads now c memory g1)
      as (Hseen2 & Hother2 & Hshares2 & _).
    fold uid in Hseen2, Hother2.
    destruct (search_for_user json_loads now c memory g1) as [articles g2].
    cbn [fst snd] in *.
    assert (forall other, shares_of g2 other = shares_of g1 other) as Hshares2'.
    { intros other. unfold shares_of. rewrite Hshares2. reflexivity. }
    assert (forall other, other <> uid ->
              seen_of g2 other = seen_of g other /\ shares_of g2 other = shares_of g other)
      as Hframe2.
    { intros other Hother. rewrite Hother2, Hseen1', Hshares2', Hother1 by exact Hother.
      split; reflexivity. }
    rewrite Hseen1' in Hseen2.
    destruct articles as [|article rest].
    { cbn [fst snd]. split; [exact Hseen2|]. split; [exact Hframe2|].
      split; [intros _; split; [reflexivity | apply Hshares2'] | left; apply Hshares2']. }
    set (articles := article :: rest) in *.
    destruct (pick_best config json_loads (relevance_reply c) 0 articles None 0)
      as [[best|]|] eqn:Hpick; cbn [fst snd].
    - destruct (String.eqb_spec (generate_share_message (share_reply c)) "") as [Hempty|Hmsg];
        cbn [negb fst snd].
      + split; [exact Hseen2|]. split; [exact Hframe2|]. split; [|left; apply Hshares2'].
        intros Hnone. rewrite pick_best_unqualified in Hpick by exact Hnone. discriminate.
      + split; [exact Hseen2|]. split.
        { intros other Hother. destruct (Hframe2 other Hother) as [Hs Hd].
          split; [exact Hs|]. unfold shares_of in *. cbn.
          rewrite lookup_insert_ne by congruence. exact Hd. }
        split.
        { intros Hnone. rewrite pick_best_unqualified in Hpick by exact Hnone. discriminate. }
        right. exists (set_shared true best), (generate_share_message (share_reply c)).
        split; [reflexivity|]. split; [exact Hmsg|].
        unfold shares_of at 1. cbn. rewrite lookup_insert_eq. cbn.
        rewrite <- Hshares2'. reflexivity.
    - split; [exact Hseen2|]. split; [exact Hframe2|].
      split; [intros _; split; [reflexivity | apply Hshares2'] | left; apply Hshares2'].
    - split; [exact Hseen2|]. split; [exact Hframe2|]. split; [|left; apply Hshares2'].
      intros Hnone. rewrite pick_best_unqualified in Hpick by exact Hnone. discriminate. }
  split; [exact Hseen|]. split.
  { intros Hempty. rewrite Hseen, Hempty. set_solver. }
  split; [exact Hothers|]. split; [exact Hnone|]. split; [exact Hcount | exact Hreset].
Qed.

Lemma find_shareable_article_frame_witness :
  let r := find_shareable_article example_config Decoder.json_loads (seconds 100)
             unqualified_search full_memory.2 new_gatherer in
  r.1 = Returned None /\ shares_of r.2 "42" = 0%Z.
Proof.
  destruct (find_shareable_article_frame example_config Decoder.json_loads (seconds 100)
              unqualified_search full_memory.2 new_gatherer)
    as (_ & _ & _ & Hnone & _).
  apply Hnone. intros i article Hfound. exists 2%Q. split; [reflexivity|].
  intros [_ Hthreshold]. vm_compute in Hthreshold. apply Hthreshold. reflexivity.
Defined.

(** ** Further properties of the memory store *)

Lemma add_long_term_memory_user_id config now key content importance dk m :
  user_id (add_long_term_memory config now key content importance (dk, m)).2.2 = user_id m.
Proof.
  unfold add_long_term_memory.
  destruct (update_existing _ _ _ _ _ _) as [[mem l']|]; reflexivity.
Qed.

Lemma add_long_term_memory_disk config now key content importance dk m :
  (add_long_term_memory config now key content importance (dk, m)).2.1
  = <[long_term_path (user_id m) :=
        long_term (add_long_term_memory config now key content importance (dk, m)).2.2]> dk.
Proof.
  unfold add_long_term_memory.
  destruct (update_existing _ _ _ _ _ _) as [[mem l']|]; reflexivity.
Qed.

(** X1. [add_long_term_memory] writes through: the durable record of
    the user holds the fact list the store is left with, a store created
    afterwards for that user loads exactly that list, and no other
    record is touched. *)
Theorem long_term_write_through config now key content importance dk m :
  let r := add_long_term_memory config now key content importance (dk, m) in
  r.2.1 !! long_term_path (user_id m) = Some (long_term r.2.2)
  /\ long_term (new_MemoryManager r.2.1 (user_id m)) = long_term r.2.2
  /\ forall path, path <> long_term_path (user_id m) -> r.2.1 !! path = dk !! path.
Proof.
  intros r. subst r. rewrite add_long_term_memory_disk.
  generalize (long_term (add_long_term_memory config now key content importance (dk, m)).2.2).
  intros facts. unfold disk in *.
  split; [apply lookup_insert_eq|]. split.
  - unfold new_MemoryManager, _load_from_disk.
    change (user_id (MemoryManager.mk (user_id m) [] [] [] None None 0)) with (user_id m).
    replace (<[long_term_path (user_id m) := facts]> dk !! long_term_path (user_id m))
      with (Some facts) by (symmetry; apply lookup_insert_eq).
    reflexivity.
  - intros path Hpath. apply lookup_insert_ne. congruence.
Qed.

Lemma update_existing_length now uid key content importance (l : list LongTermMemory.t) mem l' :
  update_existing now uid key content importance l = Some (mem, l') ->
  length l' = length l.
Proof.
  revert mem l'. induction l as [|f l IH]; intros mem l' Hup; [discriminate|].
  cbn [update_existing] in Hup.
  destruct (_ && _).
  - injection Hup as _ <-. reflexivity.
  - destruct (update_existing now uid key content importance l) as [[mem1 l1]|];
      [|discriminate].
    injection Hup as _ <-. cbn. f_equal. eapply IH. reflexivity.
Qed.

Lemma add_long_term_memory_length config now key content importance dk m :
  length (long_term m) <= LONG_TERM_MEMORY_SIZE config ->
  length (long_term (add_long_term_memory config now key content importance (dk, m)).2.2)
  <= LONG_TERM_MEMORY_SIZE config.
Proof.
  intros Hroom. unfold add_long_term_memory.
  destruct (update_existing _ _ _ _ _ _) as [[mem l']|] eqn:Hup.
  - cbn. erewrite update_existing_length by exact Hup. exact Hroom.
  - cbn -[Nat.ltb sort_desc take length].
    destruct (Nat.ltb_spec (LONG_TERM_MEMORY_SIZE config)
                (length (long_term m ++ [LongTermMemory.mk (user_id m) key content
                                           importance now now 1]))) as [Hfull|Hfits].
    + rewrite length_take. lia.
    + exact Hfits.
Qed.

Lemma new_MemoryManager_without_record dk uid :
  dk !! long_term_path uid = None ->
  new_MemoryManager dk uid = MemoryManager.mk uid [] [] [] None None 0.
Proof.
  intros Hnone. unfold new_MemoryManager, _load_from_disk. cbn [user_id].
  rewrite Hnone. reflexivity.
Qed.

(** X2. Starting from a store created for a user without a durable
    record, after any sequence of [add_long_term_memory] calls the
    facts have pairwise distinct keys, all carry the user of the store,
    and there are at most [LONG_TERM_MEMORY_SIZE] of them. *)
Theorem long_term_invariant config calls dk0 dk uid :
  dk0 !! long_term_path uid = None ->
  let m := (upserts config calls (dk, new_MemoryManager dk0 uid)).2 in
  NoDup (LongTermMemory.key <$> long_term m)
  /\ Forall (fun f => LongTermMemory.user_id f = uid) (long_term m)
  /\ length (long_term m) <= LONG_TERM_MEMORY_SIZE config.
Proof.
  intros Hnone m. subst m. rewrite (new_MemoryManager_without_record dk0 uid Hnone).
  set (m0 := MemoryManager.mk uid [] [] [] None None 0).
  assert (well_keyed m0) as Hwk by (split; [apply NoDup_nil_2 | apply Forall_nil_2]).
  assert (user_id m0 = uid) as Hu by reflexivity.
  assert (length (long_term m0) <= LONG_TERM_MEMORY_SIZE config) as Hlen by (cbn; lia).
  clearbody m0. revert dk m0 Hwk Hu Hlen.
  induction calls as [|c calls IH]; intros dk m0 Hwk Hu Hlen.
  - destruct Hwk as [Hnodup Huid]. rewrite Hu in Huid. repeat split; assumption.
  - change (upserts config (c :: calls) (dk, m0))
      with (upserts config calls (upsert config c (dk, m0))).
    pose proof (upsert_well_keyed config c dk m0 Hwk) as Hwk'.
    pose proof (add_long_term_memory_length config (fact_now c) (fact_key c) (fact_content c)
                  (fact_importance c) dk m0 Hlen) as Hlen'.
    pose proof (add_long_term_memory_user_id config (fact_now c) (fact_key c)
                  (fact_content c) (fact_importance c) dk m0) as Hu'.
    fold (upsert config c (dk, m0)) in Hlen', Hu'.
    destruct (upsert config c (dk, m0)) as [dk1 m1]. cbn [snd] in *.
    apply IH; [exact Hwk' | congruence | exact Hlen'].
Qed.

Lemma update_existing_absent now uid key content importance (l : list LongTermMemory.t) :
  key ∉ LongTermMemory.key <$> l ->
  update_existing now uid key content importance l = None.
Proof.
  intros Hnot.
  destruct (update_existing now uid key content importance l) as [r|] eqn:Hup; [|reflexivity].
  exfalso. apply Hnot. eapply update_existing_Some_key, Hup.
Qed.

(** X3. A fact with a key the store does not hold, added while the
    store has room, is appended after the existing facts with an access
    count of 1; the existing facts and their order are unchanged. *)
Theorem new_fact_is_appended config now key content importance dk m :
  key ∉ LongTermMemory.key <$> long_term m ->
  length (long_term m) < LONG_TERM_MEMORY_SIZE config ->
  long_term (add_long_term_memory config now key content importance (dk, m)).2.2
  = long_term m ++ [LongTermMemory.mk (user_id m) key content importance now now 1].
Proof.
  intros Hnew Hroom. unfold add_long_term_memory.
  rewrite update_existing_absent by exact Hnew.
  cbn -[Nat.ltb sort_desc take length].
  destruct (Nat.ltb_spec (LONG_TERM_MEMORY_SIZE config)
              (length (long_term m ++ [LongTermMemory.mk (user_id m) key content
                                         importance now now 1]))) as [Hfull|Hfits];
    [|reflexivity].
  rewrite length_app in Hfull. cbn [length] in Hfull. lia.
Qed.





Lemma new_fact_is_appended_witness :
  long_term (add_long_term_memory example_config (seconds 1) "food" "ramen" 3
               (∅, new_MemoryManager ∅ "42")).2.2
  = [ LongTermMemory.mk "42" "food" "ramen" 3 (seconds 1) (seconds 1) 1 ].
Proof.
  rewrite (new_fact_is_appended example_config (seconds 1) "food" "ramen" 3 ∅
             (new_MemoryManager ∅ "42")).
  - reflexivity.
  - apply not_elem_of_nil.
  - vm_compute. lia.
Defined.

Lemma long_term_invariant_witness :
  length (long_term (upserts example_config (two_facts ++ food_again)
                       (∅, new_MemoryManager ∅ "42")).2) <= 2.
Proof.
  apply (long_term_invariant example_config (two_facts ++ food_again) ∅ ∅ "42").
  reflexivity.
Defined.

(** ** The thought reservoir *)

Lemma add_thought_result config now content score reasoning trigger h m :
  (add_thought config now content score reasoning trigger (h, m)).2
  = (h ++ [Thought.mk content score reasoning (Some now) trigger false],
     MemoryManager.mk (user_id m) (short_term m) (long_term m)
       (deque_append (THOUGHT_RESERVOIR_SIZE config) (thought_reservoir m) (length h))
       (last_user_message_time m) (last_ai_message_time m) (consecutive_ai_messages m)).
Proof. reflexivity. Qed.

Lemma add_thoughts_snoc config calls c st :
  add_thoughts config (calls ++ [c]) st
  = (add_thought config (thought_now c) (thought_content c) (thought_score c)
       (thought_reasoning c) (thought_trigger c) (add_thoughts config calls st)).2.
Proof. unfold add_thoughts. rewrite foldl_app. reflexivity. Qed.

Lemma new_MemoryManager_thought_reservoir dk uid :
  thought_reservoir (new_MemoryManager dk uid) = [].
Proof.
  unfold new_MemoryManager, _load_from_disk. cbn.
  destruct (dk !! long_term_path uid); reflexivity.
Qed.

Lemma add_thoughts_state config calls h dk uid :
  let st := add_thoughts config calls (h, new_MemoryManager dk uid) in
  st.1 = h ++ (thought_of <$> calls)
  /\ thought_reservoir st.2
     = drop (length calls - THOUGHT_RESERVOIR_SIZE config) (seq (length h) (length calls)).
Proof.
  induction calls as [|c calls IH] using rev_ind.
  - cbn. split; [rewrite app_nil_r; reflexivity | apply new_MemoryManager_thought_reservoir].
  - cbn zeta in *. rewrite add_thoughts_snoc.
    destruct (add_thoughts config calls (h, new_MemoryManager dk uid)) as [h1 m1].
    cbn [fst snd] in IH. destruct IH as [Hheap Hres].
    rewrite add_thought_result. cbn [fst snd thought_reservoir].
    split.
    + rewrite Hheap, fmap_app, app_assoc. reflexivity.
    + rewrite Hres, Hheap, length_app, length_fmap.
      pose proof (deque_append_last (THOUGHT_RESERVOIR_SIZE config)
                    (seq (length h) (length calls)) (length h + length calls)) as Hlast.
      rewrite length_app, length_seq in Hlast. cbn [length] in Hlast.
      etransitivity; [exact Hlast|]. rewrite length_app, seq_app. reflexivity.
Qed.

(** X5. After any sequence of [add_thought] calls on a new store the
    heap has gained one thought per call, in call order and all
    unexpressed, and the reservoir holds the locations of the most
    recent [THOUGHT_RESERVOIR_SIZE] of them, oldest first: it never
    holds more, and every location in it is one of those thoughts. *)
Theorem thought_reservoir_fifo config calls h dk uid :
  let st := add_thoughts config calls (h, new_MemoryManager dk uid) in
  st.1 = h ++ (thought_of <$> calls)
  /\ thought_reservoir st.2
     = drop (length calls - THOUGHT_RESERVOIR_SIZE config) (seq (length h) (length calls))
  /\ length (thought_reservoir st.2) <= THOUGHT_RESERVOIR_SIZE config
  /\ forall l, l ∈ thought_reservoir st.2 ->
       exists c, c ∈ calls /\ st.1 !! l = Some (thought_of c).
Proof.
  intros st. destruct (add_thoughts_state config calls h dk uid) as [Hheap Hres].
  fold st in Hheap, Hres.
  split; [exact Hheap|]. split; [exact Hres|]. split.
  - rewrite Hres, length_drop, length_seq. lia.
  - intros l Hl. rewrite Hres in Hl.
    apply list_elem_of_lookup in Hl as [i Hi].
    rewrite lookup_drop in Hi. apply lookup_seq in Hi as [-> Hlt].
    destruct (lookup_lt_is_Some_2 calls (length calls - THOUGHT_RESERVOIR_SIZE config + i))
      as [c Hc]; [exact Hlt|].
    exists c. split; [eapply list_elem_of_lookup_2, Hc|].
    rewrite Hheap. etransitivity; [apply lookup_app_r; lia|].
    replace (length h + (length calls - THOUGHT_RESERVOIR_SIZE config + i) - length h)
      with (length calls - THOUGHT_RESERVOIR_SIZE config + i) by lia.
    rewrite list_lookup_fmap, Hc. reflexivity.
Qed.

Lemma pending_among_elem min_score h : forall reservoir pending l,
  pending_among min_score h reservoir = Some pending ->
  l ∈ pending <->
  l ∈ reservoir
  /\ exists th,
       h !! l = Some th
       /\ Thought.expressed th = false
       /\ at_least (Thought.motivation_score th) min_score = Some true.
Proof.
  induction reservoir as [|l0 rest IH]; intros pending l Hp; cbn [pending_among] in Hp.
  - injection Hp as <-. split; [intros Hin; inversion Hin | intros [Hin _]; inversion Hin].
  - destruct (h !! l0) as [th0|] eqn:Hl0; [|discriminate].
    destruct (Thought.expressed th0) eqn:He0.
    + rewrite (IH pending l Hp). split.
      * intros [Hin Hth]. split; [apply list_elem_of_further, Hin | exact Hth].
      * intros [Hin (th & Hth & He & Hs)]. split; [|eauto].
        apply elem_of_cons in Hin as [->|Hin]; [congruence | exact Hin].
    + destruct (at_least (Thought.motivation_score th0) min_score)
        as [keep|] eqn:Hs0; [|discriminate].
      destruct (pending_among min_score h rest) as [more|] eqn:Hrest; [|discriminate].
      injection Hp as <-. specialize (IH more l eq_refl).
      destruct keep.
      * rewrite elem_of_cons, IH. split.
        -- intros [->|[Hin Hth]].
           ++ split; [apply list_elem_of_here | eauto].
           ++ split; [apply list_elem_of_further, Hin | exact Hth].
        -- intros [Hin Hth]. apply elem_of_cons in Hin as [->|Hin]; [left; reflexivity|].
           right. split; assumption.
      * rewrite IH. split.
        -- intros [Hin Hth]. split; [apply list_elem_of_further, Hin | exact Hth].
        -- intros [Hin (th & Hth & He & Hs)]. split; [|eauto].
           apply elem_of_cons in Hin as [->|Hin]; [congruence | exact Hin].
Qed.

Lemma lookup_mark_thought_expressed (l : loc) (h : heap) :
  mark_thought_expressed l h !! l = Thought.set_expressed true <$> h !! l.
Proof. apply list_lookup_alter_eq. Qed.

Lemma pending_among_filter min_score h : forall reservoir pending,
  pending_among min_score h reservoir = Some pending ->
  pending = filter (fun l => qualifies min_score h l = true) reservoir.
Proof.
  induction reservoir as [|l0 rest IH]; intros pending Hp; cbn [pending_among] in Hp.
  - injection Hp as <-. reflexivity.
  - destruct (h !! l0) as [th0|] eqn:Hl0; [|discriminate].
    destruct (Thought.expressed th0) eqn:He0.
    + rewrite filter_cons_False; [apply IH, Hp|].
      unfold qualifies. rewrite Hl0, He0. discriminate.
    + destruct (at_least (Thought.motivation_score th0) min_score) as [keep|] eqn:Hs0;
        [|discriminate].
      destruct (pending_among min_score h rest) as [more|] eqn:Hrest; [|discriminate].
      injection Hp as <-. rewrite (IH more eq_refl).
      destruct keep.
      * rewrite filter_cons_True; [reflexivity|].
        unfold qualifies. rewrite Hl0, He0, Hs0. reflexivity.
      * rewrite filter_cons_False; [reflexivity|].
        unfold qualifies. rewrite Hl0, He0, Hs0. discriminate.
Qed.

(** X6. [get_pending_thoughts] returns the reservoir filtered, in
    reservoir order and with its repetitions: exactly the locations
    whose thought is unexpressed and scored at least [min_score]; in
    particular a thought marked with [mark_thought_expressed] is not
    among them, whatever its score. *)
Theorem pending_thoughts_are_unexpressed min_score h m pending :
  get_pending_thoughts min_score h m = Returned pending ->
  pending = filter (fun l => qualifies min_score h l = true) (thought_reservoir m)
  /\ (forall l,
        l ∈ pending <->
        l ∈ thought_reservoir m
        /\ exists th,
             h !! l = Some th
             /\ Thought.expressed th = false
             /\ at_least (Thought.motivation_score th) min_score = Some true)
  /\ forall l h0, h = mark_thought_expressed l h0 -> l ∉ pending.
Proof.
  unfold get_pending_thoughts.
  destruct (pending_among min_score h (thought_reservoir m)) as [p|] eqn:Hp; [|discriminate].
  intros Hret. injection Hret as <-.
  split; [apply pending_among_filter, Hp|].
  split; [intros l; apply pending_among_elem, Hp|].
  intros l h0 -> Hin.
  apply (pending_among_elem _ _ _ _ l Hp) in Hin as (_ & th & Hth & He & _).
  rewrite lookup_mark_thought_expressed in Hth.
  destruct (h0 !! l) as [th0|]; [|discriminate].
  injection Hth as <-. discriminate.
Qed.

Lemma max_by_score_spec h : forall rest best best_score result,
  score_at h best = Some best_score ->
  max_by_score h best best_score rest = Some result ->
  result ∈ best :: rest
  /\ exists top,
       score_at h result = Some top
       /\ (best_score <= top)%Q
       /\ forall l, l ∈ rest -> exists q, score_at h l = Some q /\ (q <= top)%Q.
Proof.
  induction rest as [|l rest IH]; intros best best_score result Hbest Hmax;
    cbn [max_by_score] in Hmax.
  - injection Hmax as <-. split; [apply list_elem_of_here|].
    exists best_score. split; [exact Hbest|]. split; [apply Qle_refl|].
    intros l Hl. inversion Hl.
  - destruct (score_at h l) as [q|] eqn:Hq; [|discriminate].
    destruct (Qle_bool q best_score) eqn:Hle; cbn [negb] in Hmax.
    + destruct (IH best best_score result Hbest Hmax) as (Hin & top & Htop & Hge & Hall).
      split.
      { apply elem_of_cons in Hin as [->|Hin];
          [apply list_elem_of_here | do 2 apply list_elem_of_further; exact Hin]. }
      exists top. split; [exact Htop|]. split; [exact Hge|].
      intros l' Hl'. apply elem_of_cons in Hl' as [->|Hl']; [|apply Hall, Hl'].
      exists q. split; [exact Hq|].
      eapply Qle_trans; [apply Qle_bool_iff, Hle | exact Hge].
    + assert (best_score < q)%Q as Hlt.
      { apply Qnot_le_lt. intros Hc. apply Qle_bool_iff in Hc. congruence. }
      destruct (IH l q result Hq Hmax) as (Hin & top & Htop & Hge & Hall).
      split; [apply list_elem_of_further, Hin|].
      exists top. split; [exact Htop|]. split.
      { eapply Qle_trans; [apply Qlt_le_weak, Hlt | exact Hge]. }
      intros l' Hl'. apply elem_of_cons in Hl' as [->|Hl']; [|apply Hall, Hl'].
      exists q. split; [exact Hq | exact Hge].
Qed.

(** X7. [get_highest_motivation_thought] answers [None] exactly when no
    thought is pending, and otherwise a pending thought whose score is
    at least the score of every pending thought. *)
Theorem highest_motivation_thought_is_maximal h m answer :
  get_highest_motivation_thought h m = Returned answer ->
  exists pending,
    get_pending_thoughts 0 h m = Returned pending
    /\ match answer with
       | None => pending = []
       | Some best =>
           best ∈ pending
           /\ exists top,
                score_at h best = Some top
                /\ forall l, l ∈ pending ->
                     exists q, score_at h l = Some q /\ (q <= top)%Q
       end.
Proof.
  unfold get_highest_motivation_thought.
  destruct (get_pending_thoughts 0 h m) as [pending|]; [|discriminate].
  destruct pending as [|l rest].
  - intros Hret. injection Hret as <-. exists []. split; reflexivity.
  - destruct (score_at h l) as [q|] eqn:Hq; [|discriminate].
    destruct (max_by_score h l q rest) as [best|] eqn:Hmax; [|discriminate].
    intros Hret. injection Hret as <-.
    exists (l :: rest). split; [reflexivity|].
    destruct (max_by_score_spec h rest l q best Hq Hmax) as (Hin & top & Htop & Hge & Hall).
    split; [exact Hin|]. exists top. split; [exact Htop|].
    intros l' Hl'. apply elem_of_cons in Hl' as [->|Hl']; [|apply Hall, Hl'].
    exists q. split; [exact Hq | exact Hge].
Qed.

(** ** The conversation history *)

(** X8. After any sequence of [add_message] calls on a new store,
    [get_conversation_history(n)] for a positive [n] is the role and
    text of the last [min(n, SHORT_TERM_MEMORY_SIZE)] calls, in call
    order; with no [n], or with [n = 0], it is the whole window. *)
Theorem conversation_history_is_recent config calls dk uid :
  let m := add_messages config calls (new_MemoryManager dk uid) in
  let pair_of := fun c => (call_role c, call_text c) in
  (forall n, (0 < n)%Z ->
     get_conversation_history (Some n) m
     = pair_of <$> drop (length calls - Nat.min (Z.to_nat n) (SHORT_TERM_MEMORY_SIZE config))
                     calls)
  /\ get_conversation_history None m
     = pair_of <$> drop (length calls - SHORT_TERM_MEMORY_SIZE config) calls
  /\ get_conversation_history (Some 0%Z) m = get_conversation_history None m.
Proof.
  intros m pair_of. subst m. unfold get_conversation_history.
  rewrite short_term_is_last_messages.
  split; [|split; [|reflexivity]].
  - intros n Hn.
    destruct (Z.eqb_spec n 0) as [|_]; [lia|].
    destruct (Z.ltb_spec 0 n) as [_|]; [|lia].
    rewrite drop_drop, length_drop, length_fmap, <- !fmap_drop, <- list_fmap_compose.
    f_equal. f_equal. lia.
  - rewrite <- fmap_drop, <- list_fmap_compose. reflexivity.
Qed.


Lemma pending_thoughts_are_unexpressed_witness :
  get_pending_thoughts 0 marked_example.1 marked_example.2 = Returned [0; 2]
  /\ 1 ∉ [0; 2].
Proof.
  split; [reflexivity|].
  destruct (pending_thoughts_are_unexpressed 0 marked_example.1 marked_example.2 [0; 2])
    as (_ & _ & Hmarked); [reflexivity|].
  eapply (Hmarked 1). reflexivity.
Defined.

Lemma highest_motivation_thought_is_maximal_witness :
  exists pending,
    get_pending_thoughts 0 marked_example.1 marked_example.2 = Returned pending
    /\ 2 ∈ pending
    /\ exists top,
         score_at marked_example.1 2 = Some top
         /\ forall l, l ∈ pending ->
              exists q, score_at marked_example.1 l = Some q /\ (q <= top)%Q.
Proof.
  apply (highest_motivation_thought_is_maximal marked_example.1 marked_example.2 (Some 2)).
  reflexivity.
Defined.

Lemma conversation_history_is_recent_witness :
  get_conversation_history (Some 2%Z)
    (add_messages example_config three_calls (new_MemoryManager ∅ "42"))
  = [("assistant", "b"); ("user", "c")].
Proof.
  destruct (conversation_history_is_recent example_config three_calls ∅ "42") as [Hlast _].
  rewrite (Hlast 2%Z); [reflexivity | lia].
Defined.

(** ** Further properties of the proactive cycle *)

Lemma add_thought_full config now content score reasoning trigger h m :
  add_thought config now content score reasoning trigger (h, m)
  = (length h,
     (h ++ [Thought.mk content score reasoning (Some now) trigger false],
      MemoryManager.mk (user_id m) (short_term m) (long_term m)
        (deque_append (THOUGHT_RESERVOIR_SIZE config) (thought_reservoir m) (length h))
        (last_user_message_time m) (last_ai_message_time m) (consecutive_ai_messages m))).
Proof. reflexivity. Qed.

Section CycleProperties.
Variable config : Config.
Variable json_loads : string -> option json.

Lemma generate_thought_cases reply reason (h : heap) (m : MemoryManager.t) :
  (get_pending_thoughts 0 h m = Exception
   /\ InnerThoughtsEngine.generate_thought json_loads reply reason (h, m) = (Exception, h))
  \/ InnerThoughtsEngine.generate_thought json_loads reply reason (h, m)
     = (Returned None, h)
  \/ exists content draft,
       InnerThoughtsEngine.generate_thought json_loads reply reason (h, m)
       = (Returned (Some (length h, draft)),
          h ++ [Thought.mk content (JNum 0) (JStr "") None reason false]).
Proof.
  unfold InnerThoughtsEngine.generate_thought.
  destruct (get_pending_thoughts 0 h m) as [pending|]; [|left; split; reflexivity].
  right.
  destruct reply as [text|]; [|left; reflexivity].
  destruct (truthy _); cbn [negb]; [|left; reflexivity].
  destruct (py_get _ "thought" _) as [content|]; [|left; reflexivity].
  destruct (py_get _ "potential_response" _) as [draft|]; [|left; reflexivity].
  right. exists content, draft. reflexivity.
Qed.

Lemma cycle_unfold now r h m :
  InnerThoughtsEngine.process_proactive_cycle config json_loads now r (h, m)
  = if negb (can_intervene config now m) then (Returned None, (h, m))
    else
      match InnerThoughtsEngine.should_trigger_thought config now m with
      | None => (Returned None, (h, m))
      | Some (silence_timeout s) =>
          (Returned (Some (InnerThoughtsEngine.generate_silence_break
                             (InnerThoughtsEngine.silence_reply r))), (h, m))
      | Some reason => cycle_body config json_loads now r reason h m
      end.
Proof.
  unfold InnerThoughtsEngine.process_proactive_cycle, cycle_body.
  destruct (negb _); [reflexivity|].
  destruct (InnerThoughtsEngine.should_trigger_thought config now m) as [[s|s|]|];
    reflexivity.
Qed.

(** What the body leaves: nothing, the formed thought alone (when the
    evaluation is not an object), or the formed thought and its copy in
    the reservoir. *)
Lemma cycle_body_state now r reason h m :
  let res := cycle_body config json_loads now r reason h m in
  res.2 = (h, m)
  \/ (exists formed, res.2 = (h ++ [formed], m))
  \/ exists formed stored,
       res.2
       = (h ++ [formed; stored],
          MemoryManager.mk (user_id m) (short_term m) (long_term m)
            (deque_append (THOUGHT_RESERVOIR_SIZE config) (thought_reservoir m)
               (S (length h)))
            (last_user_message_time m) (last_ai_message_time m)
            (consecutive_ai_messages m))
       /\ Thought.expressed stored = false
       /\ Thought.content stored = Thought.content formed
       /\ Thought.motivation_score stored = Thought.motivation_score formed.
Proof.
  unfold cycle_body.
  destruct (generate_thought_cases (InnerThoughtsEngine.thought_reply r) reason h m)
    as [[_ ->]|[->|(content & draft & ->)]]; [left; reflexivity | left; reflexivity|].
  cbv zeta.
  destruct (py_get _ "overall_score" _) as [score|]; [|right; left; eauto].
  rewrite (alter_last_allocated (Thought.set_motivation_score score)).
  destruct (py_get _ "reasoning" _) as [reasoning|]; [|right; left; eauto].
  rewrite (alter_last_allocated (Thought.set_reasoning reasoning)).
  rewrite lookup_last_allocated. rewrite add_thought_full.
  rewrite length_app. cbn [length fst snd fmap option_fmap option_map default from_option id
                           Thought.content Thought.set_motivation_score
                           Thought.set_reasoning].
  replace (length h + 1) with (S (length h)) by lia.
  right. right.
  destruct (InnerThoughtsEngine.score_ge score (MOTIVATION_THRESHOLD config)) as [[|]|];
    cbn [fst snd].
  - destruct (py_get _ "should_speak" _) as [should_speak|]; cbn [fst snd].
    + destruct (truthy should_speak); cbn [fst snd].
      * destruct (negb _); cbn [fst snd].
        -- rewrite (alter_app_l (Thought.set_expressed true))
             by (rewrite length_app; cbn; lia).
           rewrite (alter_last_allocated (Thought.set_expressed true)), <- app_assoc.
           eexists _, _. split; [reflexivity|]. repeat split; reflexivity.
        -- rewrite <- app_assoc. eexists _, _. split; [reflexivity|].
           repeat split; reflexivity.
      * rewrite <- app_assoc. eexists _, _. split; [reflexivity|].
        repeat split; reflexivity.
    + rewrite <- app_assoc. eexists _, _. split; [reflexivity|].
      repeat split; reflexivity.
  - rewrite <- app_assoc. eexists _, _. split; [reflexivity|]. repeat split; reflexivity.
  - rewrite <- app_assoc. eexists _, _. split; [reflexivity|]. repeat split; reflexivity.
Qed.

Lemma cycle_state now r h m :
  let res :=
    InnerThoughtsEngine.process_proactive_cycle config json_loads now r (h, m) in
  res.2 = (h, m)
  \/ (exists formed, res.2 = (h ++ [formed], m))
  \/ exists formed stored,
       res.2
       = (h ++ [formed; stored],
          MemoryManager.mk (user_id m) (short_term m) (long_term m)
            (deque_append (THOUGHT_RESERVOIR_SIZE config) (thought_reservoir m)
               (S (length h)))
            (last_user_message_time m) (last_ai_message_time m)
            (consecutive_ai_messages m))
       /\ Thought.expressed stored = false
       /\ Thought.content stored = Thought.content formed
       /\ Thought.motivation_score stored = Thought.motivation_score formed.
Proof.
  cbv zeta. rewrite cycle_unfold.
  destruct (negb _); [left; reflexivity|].
  destruct (InnerThoughtsEngine.should_trigger_thought config now m) as [[s|s|]|];
    try (left; reflexivity); apply cycle_body_state.
Qed.

End CycleProperties.

(** X9. Whatever the replies, a proactive cycle leaves the user, the
    short-term window, the long-term facts, the two message times and
    the counter of consecutive agent messages of the store as they
    were; it changes no thought that was on the heap, creates at most
    two, and adds at most one location to the reservoir, that of a
    thought it created unexpressed. *)
Theorem proactive_cycle_frame config json_loads now r h m :
  let res := InnerThoughtsEngine.process_proactive_cycle config json_loads now r (h, m) in
  let h' := res.2.1 in
  let m' := res.2.2 in
  user_id m' = user_id m
  /\ short_term m' = short_term m
  /\ long_term m' = long_term m
  /\ last_user_message_time m' = last_user_message_time m
  /\ last_ai_message_time m' = last_ai_message_time m
  /\ consecutive_ai_messages m' = consecutive_ai_messages m
  /\ (exists created, h' = h ++ created /\ length created <= 2)
  /\ (thought_reservoir m' = thought_reservoir m
      \/ thought_reservoir m'
         = deque_append (THOUGHT_RESERVOIR_SIZE config) (thought_reservoir m) (S (length h))
         /\ exists stored, h' !! S (length h) = Some stored
                           /\ Thought.expressed stored = false).
Proof.
  intros res h' m'. subst h' m'.
  destruct (cycle_state config json_loads now r h m)
    as [Hsame|[(formed & Hone)|(formed & stored & Htwo & Hstored & _)]];
    fold res in Hsame || fold res in Hone || fold res in Htwo.
  - rewrite Hsame. cbn [fst snd]. repeat split; try reflexivity.
    + exists []. split; [rewrite app_nil_r; reflexivity | cbn; lia].
    + left. reflexivity.
  - rewrite Hone. cbn [fst snd]. repeat split; try reflexivity.
    + exists [formed]. split; [reflexivity | cbn; lia].
    + left. reflexivity.
  - rewrite Htwo. cbn [fst snd]. repeat split; try reflexivity.
    + exists [formed; stored]. split; [reflexivity | cbn; lia].
    + right. split; [reflexivity|]. exists stored. split; [|exact Hstored].
      change (h ++ [formed; stored]) with (h ++ ([formed] ++ [stored])).
      rewrite app_assoc.
      replace (S (length h)) with (length (h ++ [formed]))
        by (rewrite length_app; cbn; lia).
      apply lookup_last_allocated.
Qed.

Lemma add_messages_consecutive config calls m :
  Forall (fun c => call_role c <> "user") calls ->
  consecutive_ai_messages (add_messages config calls m)
  = consecutive_ai_messages m + length calls.
Proof.
  induction calls as [|c calls IH] using rev_ind; intros Hroles; [cbn; lia|].
  apply Forall_app in Hroles as [Hcalls Hc]. apply Forall_cons in Hc as [Hc _].
  rewrite add_messages_snoc, length_app. cbn [length].
  unfold add_message.
  destruct (String.eqb_spec (call_role c) "user") as [Huser|_];
    [exfalso; exact (Hc Huser)|].
  cbn. rewrite IH by exact Hcalls. lia.
Qed.

(** X10. Once the agent has recorded messages up to
    [MAX_CONSECUTIVE_INTERVENTIONS] with no user message in between, a
    proactive cycle returns [None] and leaves heap and store untouched,
    whatever the capabilities would have replied. *)
Theorem proactive_cycle_stops_after_limit config json_loads now r h m calls :
  Forall (fun c => call_role c <> "user") calls ->
  (MAX_CONSECUTIVE_INTERVENTIONS config
   <= Z.of_nat (consecutive_ai_messages m + length calls))%Z ->
  let m' := add_messages config calls m in
  InnerThoughtsEngine.process_proactive_cycle config json_loads now r (h, m')
  = (Returned None, (h, m')).
Proof.
  intros Hroles Hlimit m'.
  unfold InnerThoughtsEngine.process_proactive_cycle.
  assert (can_intervene config now m' = false) as ->; [|reflexivity].
  unfold can_intervene. subst m'. rewrite add_messages_consecutive by exact Hroles.
  destruct (Z.leb_spec (MAX_CONSECUTIVE_INTERVENTIONS config)
              (Z.of_nat (consecutive_ai_messages m + length calls))); [reflexivity | lia].
Qed.

Lemma proactive_cycle_stops_after_limit_witness :
  let m' :=
    add_messages example_config
      [ {| call_now := seconds 2; call_role := "assistant"; call_text := "a" |};
        {| call_now := seconds 200; call_role := "assistant"; call_text := "b" |} ]
      listening_memory in
  InnerThoughtsEngine.process_proactive_cycle example_config Decoder.json_loads
    (seconds 900) authorized_cycle ([], m')
  = (Returned None, ([], m')).
Proof.
  apply (proactive_cycle_stops_after_limit example_config Decoder.json_loads (seconds 900)
           authorized_cycle [] listening_memory).
  - repeat constructor; discriminate.
  - vm_compute. discriminate.
Defined.

(** X11. For a store in which no user message was ever recorded and
    whose window does not end with a user message (a new store, for
    one), no trigger fires at any time when [SILENCE_TIMEOUT] is not
    negative: the cycle returns [None] and changes nothing. *)
Theorem proactive_cycle_is_inert_without_user config json_loads now r h m :
  (0 <= SILENCE_TIMEOUT config)%Z ->
  last_user_message_time m = None ->
  (forall msg, last (short_term m) = Some msg -> Message.role msg <> "user") ->
  InnerThoughtsEngine.should_trigger_thought config now m = None
  /\ InnerThoughtsEngine.process_proactive_cycle config json_loads now r (h, m)
     = (Returned None, (h, m)).
Proof.
  intros Htimeout Hnever Hlast.
  assert (InnerThoughtsEngine.should_trigger_thought config now m = None) as Htrigger.
  { unfold InnerThoughtsEngine.should_trigger_thought, get_silence_duration.
    rewrite Hnever.
    destruct (Z.ltb_spec (SILENCE_TIMEOUT config) 0); [lia|].
    rewrite bool_decide_eq_false_2 by (intros [? ?]; discriminate). cbn [andb].
    destruct (last (short_term m)) as [msg|]; [|reflexivity].
    destruct (String.eqb_spec (Message.role msg) "user") as [Huser|_]; [|reflexivity].
    exfalso. exact (Hlast msg eq_refl Huser). }
  split; [exact Htrigger|].
  unfold InnerThoughtsEngine.process_proactive_cycle. rewrite Htrigger.
  destruct (negb _); reflexivity.
Qed.

Lemma proactive_cycle_is_inert_without_user_witness :
  InnerThoughtsEngine.process_proactive_cycle example_config Decoder.json_loads
    (seconds 99999) authorized_cycle ([], new_MemoryManager ∅ "42")
  = (Returned None, ([], new_MemoryManager ∅ "42")).
Proof.
  apply (proactive_cycle_is_inert_without_user example_config Decoder.json_loads
           (seconds 99999) authorized_cycle [] (new_MemoryManager ∅ "42")).
  - vm_compute. discriminate.
  - reflexivity.
  - intros msg Hmsg. discriminate.
Defined.



(** X12. When the evaluation call raises or its reply holds no usable
    JSON, and the threshold is positive, a cycle that formed a thought
    (the pending thoughts could be listed for the prompt and the
    formation reply holds an object) returns [None]; the thought is
    still put in the reservoir, with score 0 and unexpressed. *)
Theorem failed_evaluation_is_recorded_with_score_zero config json_loads now r h m reason :
  can_intervene config now m = true ->
  InnerThoughtsEngine.should_trigger_thought config now m = Some reason ->
  (forall s, reason <> silence_timeout s) ->
  get_pending_thoughts 0 h m <> Exception ->
  ~ formation_failed json_loads (InnerThoughtsEngine.thought_reply r) ->
  evaluation_failed json_loads (InnerThoughtsEngine.eval_reply r) ->
  (0 < MOTIVATION_THRESHOLD config)%Q ->
  let res := InnerThoughtsEngine.process_proactive_cycle config json_loads now r (h, m) in
  res.1 = Returned None
  /\ exists formed stored,
       res.2.1 = h ++ [formed; stored]
       /\ thought_reservoir res.2.2
          = deque_append (THOUGHT_RESERVOIR_SIZE config) (thought_reservoir m)
              (S (length h))
       /\ Thought.motivation_score stored = JNum 0
       /\ Thought.expressed stored = false
       /\ Thought.expressed formed = false
       /\ Thought.triggered_by stored = reason.
Proof.
  intros Hgate Htrigger Hreason Hpending Hformed Hfailed Hthreshold res.
  assert (InnerThoughtsEngine.score_ge (JNum 0) (MOTIVATION_THRESHOLD config) = Some false)
    as Hscore.
  { cbn. f_equal. destruct (Qle_bool (MOTIVATION_THRESHOLD config) 0) eqn:Hle; [|reflexivity].
    apply Qle_bool_iff in Hle. exfalso. exact (Qlt_not_le _ _ Hthreshold Hle). }
  assert (exists message,
            InnerThoughtsEngine.evaluate_motivation json_loads
              (InnerThoughtsEngine.eval_reply r)
            = JObj [("overall_score", JNum 0); ("should_speak", JBool false);
                    ("reasoning", JStr message)]) as [message Heval].
  { unfold InnerThoughtsEngine.evaluate_motivation.
    destruct (InnerThoughtsEngine.eval_reply r) as [text|message]; [|eauto].
    cbn in Hfailed. rewrite Hfailed. cbn [negb]. eauto. }
  assert (exists content draft,
            InnerThoughtsEngine.generate_thought json_loads
              (InnerThoughtsEngine.thought_reply r) reason (h, m)
            = (Returned (Some (length h, draft)),
               h ++ [Thought.mk content (JNum 0) (JStr "") None reason false]))
    as (content & draft & Hthought).
  { unfold InnerThoughtsEngine.generate_thought.
    destruct (get_pending_thoughts 0 h m) as [pending|]; [|contradiction].
    destruct (InnerThoughtsEngine.thought_reply r) as [text|]; [|exfalso; apply Hformed; exact I].
    cbn in Hformed.
    destruct (truthy (InnerThoughtsEngine._extract_json json_loads text)) eqn:Htruthy;
      [|exfalso; apply Hformed; left; reflexivity].
    destruct (InnerThoughtsEngine._extract_json json_loads text) as [| | | | |fields] eqn:Hx;
      try (exfalso; apply Hformed; right; intros fields; discriminate).
    cbn [negb py_get]. eexists _, _. reflexivity. }
  subst res. unfold InnerThoughtsEngine.process_proactive_cycle.
  rewrite Hgate, Htrigger. cbn [negb].
  destruct reason as [s| |]; [exfalso; exact (Hreason s eq_refl)| |];
    rewrite Hthought, Heval; cbn [py_get dict_lookup String.eqb Ascii.eqb Bool.eqb default
                                    from_option id];
    cbv zeta;
    rewrite (alter_last_allocated (Thought.set_motivation_score (JNum 0)));
    rewrite (alter_last_allocated (Thought.set_reasoning (JStr message)));
    rewrite lookup_last_allocated, add_thought_full, Hscore;
    rewrite length_app; cbn [length fst snd];
    replace (length h + 1) with (S (length h)) by lia;
    (split; [reflexivity|]);
    rewrite <- app_assoc; eexists _, _; (split; [reflexivity|]);
    repeat split; reflexivity.
Qed.


Lemma failed_evaluation_is_recorded_with_score_zero_witness :
  let res :=
    InnerThoughtsEngine.process_proactive_cycle example_config Decoder.json_loads
      (seconds 2) failed_evaluation_cycle ([], listening_memory) in
  res.1 = Returned None
  /\ exists formed stored,
       res.2.1 = [] ++ [formed; stored]
       /\ thought_reservoir res.2.2 = deque_append 10 [] 1
       /\ Thought.motivation_score stored = JNum 0
       /\ Thought.expressed stored = false
       /\ Thought.expressed formed = false
       /\ Thought.triggered_by stored = new_user_message.
Proof.
  apply (failed_evaluation_is_recorded_with_score_zero example_config Decoder.json_loads
           (seconds 2) failed_evaluation_cycle [] listening_memory new_user_message).
  - reflexivity.
  - reflexivity.
  - intros s. discriminate.
  - discriminate.
  - intros [Hfalsy|Hshape]; [vm_compute in Hfalsy; discriminate|].
    eapply Hshape. vm_compute. reflexivity.
  - reflexivity.
  - reflexivity.
Defined.

(** X13. When the formation call raises, or its reply holds no usable
    JSON object, the cycle records nothing: heap and store are left as
    they were.  It returns [None], unless the silence timeout fired, or
    listing the pending thoughts for the prompt raised (an unexpressed
    thought of the reservoir has a score that is not a number): then
    the cycle raises, before the formation call is made. *)
Theorem failed_formation_records_nothing config json_loads now r h m :
  formation_failed json_loads (InnerThoughtsEngine.thought_reply r) ->
  let res := InnerThoughtsEngine.process_proactive_cycle config json_loads now r (h, m) in
  res.2 = (h, m)
  /\ (res.1 = Returned None
      \/ (exists s,
            InnerThoughtsEngine.should_trigger_thought config now m
            = Some (silence_timeout s))
      \/ (res.1 = Exception /\ get_pending_thoughts 0 h m = Exception))
  /\ (get_pending_thoughts 0 h m <> Exception -> res.1 <> Exception).
Proof.
  intros Hfailed res. subst res.
  assert (forall reason,
            InnerThoughtsEngine.generate_thought json_loads
              (InnerThoughtsEngine.thought_reply r) reason (h, m)
            = match get_pending_thoughts 0 h m with
              | Exception => (Exception, h)
              | Returned _ => (Returned None, h)
              end) as Hnone.
  { intros reason. unfold InnerThoughtsEngine.generate_thought.
    destruct (get_pending_thoughts 0 h m) as [pending|]; [|reflexivity].
    destruct (InnerThoughtsEngine.thought_reply r) as [text|]; [|reflexivity].
    cbn in Hfailed. destruct Hfailed as [Hfalsy|Hshape].
    - rewrite Hfalsy. reflexivity.
    - destruct (truthy _); cbn [negb]; [|reflexivity].
      destruct (InnerThoughtsEngine._extract_json json_loads text) as [| | | | |fields];
        try reflexivity.
      exfalso. exact (Hshape fields eq_refl). }
  rewrite cycle_unfold.
  destruct (negb _);
    [split; [reflexivity|]; split; [left; reflexivity | discriminate]|].
  destruct (InnerThoughtsEngine.should_trigger_thought config now m) as [[s|s|]|].
  - split; [reflexivity|]. split; [right; left; eauto | discriminate].
  - unfold cycle_body. rewrite Hnone.
    destruct (get_pending_thoughts 0 h m) as [pending|];
      (split; [reflexivity|]); (split; [|try discriminate; intros Hc; contradiction]).
    + left. reflexivity.
    + right. right. split; reflexivity.
  - unfold cycle_body. rewrite Hnone.
    destruct (get_pending_thoughts 0 h m) as [pending|];
      (split; [reflexivity|]); (split; [|try discriminate; intros Hc; contradiction]).
    + left. reflexivity.
    + right. right. split; reflexivity.
  - split; [reflexivity|]. split; [left; reflexivity | discriminate].
Qed.

Lemma failed_formation_records_nothing_witness :
  let res :=
    InnerThoughtsEngine.process_proactive_cycle example_config Decoder.json_loads
      (seconds 2) array_formation_cycle ([], listening_memory) in
  res.2 = ([], listening_memory) /\ res.1 = Returned None.
Proof.
  destruct (failed_formation_records_nothing example_config Decoder.json_loads (seconds 2)
              array_formation_cycle [] listening_memory) as (Hstate & Hout & _).
  - right. intros fields. vm_compute. discriminate.
  - split; [exact Hstate|].
    destruct Hout as [Hnone|[[s Hs]|[_ Hraise]]];
      [exact Hnone | vm_compute in Hs; discriminate | vm_compute in Hraise; discriminate].
Defined.

(** X14. When the gate is open and the user has been silent for more
    than [SILENCE_TIMEOUT], the cycle takes the silence-break path
    whatever else would trigger: it forms and records no thought and
    returns the stripped silence-break reply, which is the empty string
    (not [None]) when that call raised. *)
Theorem silence_timeout_takes_precedence config json_loads now r h m t :
  can_intervene config now m = true ->
  last_user_message_time m = Some t ->
  (SILENCE_TIMEOUT config < now - t)%Z ->
  InnerThoughtsEngine.process_proactive_cycle config json_loads now r (h, m)
  = (Returned (Some (match InnerThoughtsEngine.silence_reply r with
                     | Text content => strip content
                     | Raised _ => ""
                     end)), (h, m)).
Proof.
  intros Hgate Huser Hsilent.
  unfold InnerThoughtsEngine.process_proactive_cycle.
  rewrite Hgate. cbn [negb].
  unfold InnerThoughtsEngine.should_trigger_thought, get_silence_duration. rewrite Huser.
  destruct (Z.ltb_spec (SILENCE_TIMEOUT config) (now - t)); [reflexivity | lia].
Qed.


Lemma silence_timeout_takes_precedence_witness :
  InnerThoughtsEngine.process_proactive_cycle example_config Decoder.json_loads
    (seconds 4000) silence_cycle ([], listening_memory)
  = (Returned (Some "Are you still there?"), ([], listening_memory)).
Proof.
  etransitivity.
  - apply (silence_timeout_takes_precedence example_config Decoder.json_loads
             (seconds 4000) silence_cycle [] listening_memory (seconds 1)).
    + reflexivity.
    + reflexivity.
    + vm_compute. reflexivity.
  - reflexivity.
Defined.

(** ** The two bracket-counting extractions *)

(** X15. The classifier's [_extract_json] and the engine's compute the
    same result on every text in which no opening square bracket comes
    before the first opening brace (the empty string does not decode). *)
Theorem classifier_extraction_agrees_with_engine json_loads text :
  json_loads "" = None ->
  (forall k, str_find "[" text = Some k ->
     exists i, str_find "{" text = Some i /\ i < k) ->
  ResponseClassifier._extract_json json_loads text
  = InnerThoughtsEngine._extract_json json_loads text.
Proof.
  intros Hempty Hobject.
  unfold ResponseClassifier._extract_json, InnerThoughtsEngine._extract_json.
  assert (ResponseClassifier.extract_direct json_loads text
          = InnerThoughtsEngine.extract_direct json_loads text) as Hdirect.
  { unfold ResponseClassifier.extract_direct, InnerThoughtsEngine.extract_direct.
    destruct (str_find "{" text) as [i|] eqn:Hopen.
    - destruct (str_find_char "{" text i Hopen) as (rest & Hdrop & _ & Hlt & Hget).
      change (default (String.length text) (Some i)) with i.
      assert (Nat.min i (default (String.length text) (str_find "[" text)) = i) as ->.
      { destruct (str_find "[" text) as [k|] eqn:Harray.
        - destruct (Hobject k eq_refl) as (i' & Hi' & Hik).
          injection Hi' as <-. change (Nat.min i k = i). lia.
        - change (Nat.min i (String.length text) = i). lia. }
      destruct (Nat.ltb_spec i (String.length text)); [|lia].
      rewrite Hget. change (default "{"%char (Some "{"%char)) with "{"%char.
      replace (Ascii.eqb "{" "{") with true by reflexivity.
      destruct (scan_brackets "{" "}" 0 (str_drop i text)) as [n|].
      + replace (i + n - i) with n by lia. reflexivity.
      + replace (i - i) with 0 by lia. cbn [str_take].
        destruct (str_drop i text); cbn [str_take]; rewrite Hempty; reflexivity.
    - destruct (str_find "[" text) as [k|] eqn:Harray.
      + destruct (Hobject k eq_refl) as (i & Hi & _). discriminate.
      + change (Nat.min (default (String.length text) None)
                        (default (String.length text) None))
          with (Nat.min (String.length text) (String.length text)).
        rewrite Nat.min_id, Nat.ltb_irrefl. reflexivity. }
  rewrite Hdirect. reflexivity.
Qed.

Lemma classifier_extraction_agrees_with_engine_witness :
  ResponseClassifier._extract_json Decoder.json_loads nested_reply
  = InnerThoughtsEngine._extract_json Decoder.json_loads nested_reply.
Proof.
  apply (classifier_extraction_agrees_with_engine Decoder.json_loads nested_reply).
  - reflexivity.
  - intros k Hk. vm_compute in Hk. discriminate.
Defined.

(** ** Further properties of the information gatherer *)

Lemma increments_shares uid k g :
  shares_of (Nat.iter k (_increment_daily_shares uid) g) uid
  = (shares_of g uid + Z.of_nat k)%Z
  /\ last_share_reset (Nat.iter k (_increment_daily_shares uid) g) = last_share_reset g
  /\ seen_urls (Nat.iter k (_increment_daily_shares uid) g) = seen_urls g.
Proof.
  induction k as [|k IH].
  - change (Nat.iter 0 (_increment_daily_shares uid) g) with g.
    split; [lia | split; reflexivity].
  - change (Nat.iter (S k) (_increment_daily_shares uid) g)
      with (_increment_daily_shares uid (Nat.iter k (_increment_daily_shares uid) g)).
    destruct IH as (Hshares & Hreset & Hseen).
    unfold shares_of in *. unfold _increment_daily_shares at 1 3 5. cbn.
    rewrite lookup_insert_eq. cbn. rewrite Hshares.
    split; [lia | split; assumption].
Qed.

(** X16. The daily quota. After a first quota check at [now1] and [k]
    counted shares, a check on the same calendar date sees the counter
    at [k] and allows a share exactly when [k < MAX_DAILY_SHARES]; a
    check on a later date sets the counter back to 0 before it
    answers. *)
Theorem daily_quota_resets_on_a_new_date config now1 now2 uid k g :
  last_share_reset g !! uid = None ->
  let g1 := (_can_share_today config now1 uid g).2 in
  let g2 := Nat.iter k (_increment_daily_shares uid) g1 in
  let r := _can_share_today config now2 uid g2 in
  shares_of g2 uid = Z.of_nat k
  /\ ((date now2 <= date now1)%Z ->
        r.2 = g2 /\ r.1 = (Z.of_nat k <? MAX_DAILY_SHARES config)%Z)
  /\ ((date now1 < date now2)%Z ->
        shares_of r.2 uid = 0%Z
        /\ last_share_reset r.2 !! uid = Some now2
        /\ r.1 = (0 <? MAX_DAILY_SHARES config)%Z).
Proof.
  intros Hfirst g1 g2 r.
  assert (shares_of g1 uid = 0%Z /\ last_share_reset g1 !! uid = Some now1) as [H0 Hlast1].
  { subst g1. unfold _can_share_today, shares_of. rewrite Hfirst. cbn.
    rewrite !lookup_insert_eq. split; reflexivity. }
  destruct (increments_shares uid k g1) as (Hshares & Hreset & _).
  fold g2 in Hshares, Hreset. rewrite H0 in Hshares. cbn in Hshares.
  split; [exact Hshares|].
  assert (last_share_reset g2 !! uid = Some now1) as Hlast2 by (rewrite Hreset; exact Hlast1).
  subst r. unfold _can_share_today. rewrite Hlast2. split.
  - intros Hsame. destruct (Z.ltb_spec (date now1) (date now2)); [lia|].
    cbn [fst snd]. split; [reflexivity|].
    fold (shares_of g2 uid). rewrite Hshares. reflexivity.
  - intros Hlater. destruct (Z.ltb_spec (date now1) (date now2)); [|lia].
    cbn [fst snd]. unfold shares_of. cbn. rewrite !lookup_insert_eq.
    repeat split; reflexivity.
Qed.

Lemma collect_results_fresh now interest results : forall seen,
  let r := collect_results now interest results seen in
  NoDup (url <$> r.1)
  /\ (forall a, a ∈ r.1 -> (url a ∉ seen) /\ search_query a = interest)
  /\ seen ⊆ r.2
  /\ (forall result, result ∈ results -> result_url result ∈ r.2)
  /\ (forall a, a ∈ r.1 -> url a ∈ r.2).
Proof.
  induction results as [|result rest IH]; intros seen; cbn [collect_results].
  - cbn. split; [apply NoDup_nil_2|]. split; [intros a Ha; inversion Ha|].
    split; [reflexivity|]. split; [intros result Hr; inversion Hr|].
    intros a Ha. inversion Ha.
  - destruct (decide (result_url result ∈ seen)) as [Hseen|Hnew].
    + rewrite bool_decide_eq_true_2 by exact Hseen.
      destruct (IH seen) as (Hnodup & Hfresh & Hsub & Hall & Hin).
      split; [exact Hnodup|]. split; [exact Hfresh|]. split; [exact Hsub|].
      split; [|exact Hin].
      intros result' Hr. apply elem_of_cons in Hr as [->|Hr]; [set_solver | apply Hall, Hr].
    + rewrite bool_decide_eq_false_2 by exact Hnew.
      specialize (IH (seen ∪ {[result_url result]})).
      destruct (collect_results now interest rest (seen ∪ {[result_url result]}))
        as [articles seen'] eqn:Hrest.
      cbn [fst snd] in *. destruct IH as (Hnodup & Hfresh & Hsub & Hall & Hin).
      split.
      { rewrite fmap_cons. cbn [url]. apply NoDup_cons. split; [|exact Hnodup].
        intros Hmem. apply list_elem_of_fmap in Hmem as (a & Hurl & Ha).
        destruct (Hfresh a Ha) as [Hnot _]. apply Hnot. rewrite <- Hurl. set_solver. }
      split.
      { intros a Ha. apply elem_of_cons in Ha as [->|Ha].
        - cbn. split; [exact Hnew | reflexivity].
        - destruct (Hfresh a Ha) as [Hnot Hq]. split; [set_solver | exact Hq]. }
      split; [set_solver|].
      split.
      { intros result' Hr.
        apply elem_of_cons in Hr as [->|Hr]; [set_solver | apply Hall, Hr]. }
      intros a Ha. apply elem_of_cons in Ha as [->|Ha]; [cbn; set_solver | apply Hin, Ha].
Qed.

Lemma search_interests_fresh now search interests : forall i seen,
  let r := search_interests now search i interests seen in
  NoDup (url <$> r.1)
  /\ (forall a, a ∈ r.1 -> url a ∉ seen)
  /\ seen ⊆ r.2
  /\ (forall k interest result,
        interests !! k = Some interest -> result ∈ search (i + k) interest ->
        result_url result ∈ r.2)
  /\ (forall a, a ∈ r.1 -> url a ∈ r.2).
Proof.
  induction interests as [|interest rest IH]; intros i seen; cbn [search_interests].
  - cbn. split; [apply NoDup_nil_2|]. split; [intros a Ha; inversion Ha|].
    split; [reflexivity|]. split; [intros k x result Hk; discriminate|].
    intros a Ha. inversion Ha.
  - destruct (collect_results_fresh now interest (search i interest) seen)
      as (Hnodup1 & Hfresh1 & Hsub1 & Hall1 & Hin1).
    destruct (collect_results now interest (search i interest) seen) as [found seen1].
    specialize (IH (S i) seen1).
    destruct (search_interests now search (S i) rest seen1) as [more seen2].
    cbn [fst snd] in *. destruct IH as (Hnodup2 & Hfresh2 & Hsub2 & Hall2 & Hin2).
    split.
    { rewrite fmap_app. apply NoDup_app. split; [exact Hnodup1|]. split; [|exact Hnodup2].
      intros u Hu1 Hu2. apply list_elem_of_fmap in Hu2 as (a & -> & Ha).
      apply (Hfresh2 a Ha).
      apply list_elem_of_fmap in Hu1 as (a1 & -> & Ha1). apply Hin1, Ha1. }
    split.
    { intros a Ha. apply elem_of_app in Ha as [Ha|Ha]; [apply (Hfresh1 a Ha)|].
      intros Hmem. apply (Hfresh2 a Ha). set_solver. }
    split; [set_solver|].
    split.
    { intros k x result Hk Hr. destruct k as [|k]; cbn in Hk.
      - injection Hk as <-. rewrite Nat.add_0_r in Hr. specialize (Hall1 result Hr).
        set_solver.
      - apply (Hall2 k x result Hk). replace (S i + k) with (i + S k) by lia. exact Hr. }
    intros a Ha. apply elem_of_app in Ha as [Ha|Ha]; [|apply Hin2, Ha].
    specialize (Hin1 a Ha). set_solver.
Qed.

Lemma collect_results_all_seen now interest results seen :
  (forall result, result ∈ results -> result_url result ∈ seen) ->
  collect_results now interest results seen = ([], seen).
Proof.
  induction results as [|result rest IH]; intros Hall; [reflexivity|].
  cbn [collect_results].
  rewrite bool_decide_eq_true_2 by (apply Hall, list_elem_of_here).
  apply IH. intros result' Hr. apply Hall, list_elem_of_further, Hr.
Qed.

Lemma search_interests_all_seen now search interests : forall i seen,
  (forall k interest result,
     interests !! k = Some interest -> result ∈ search (i + k) interest ->
     result_url result ∈ seen) ->
  search_interests now search i interests seen = ([], seen).
Proof.
  induction interests as [|interest rest IH]; intros i seen Hall; [reflexivity|].
  cbn [search_interests].
  rewrite collect_results_all_seen.
  2:{ intros result Hr. apply (Hall 0 interest result); [reflexivity|].
      rewrite Nat.add_0_r. exact Hr. }
  rewrite IH; [reflexivity|].
  intros k x result Hk Hr. apply (Hall (S k) x result Hk).
  replace (i + S k) with (S i + k) by lia. exact Hr.
Qed.

(** X17. The articles returned by [search_for_user] have pairwise
    distinct URLs, none of which the user had seen, and all are now in
    the user's seen set; a second pass in which the capabilities give
    the same answers returns no article and leaves the state as the
    first pass left it. *)
Theorem search_deduplicates json_loads now now' c memory g :
  let uid := MemoryManager.user_id memory in
  let first := search_for_user json_loads now c memory g in
  let second := search_for_user json_loads now' c memory first.2 in
  NoDup (url <$> first.1)
  /\ (forall a, a ∈ first.1 -> (url a ∉ seen_of g uid) /\ url a ∈ seen_of first.2 uid)
  /\ seen_of g uid ⊆ seen_of first.2 uid
  /\ second.1 = []
  /\ seen_of second.2 uid = seen_of first.2 uid.
Proof.
  intros uid first second. subst first second uid. unfold search_for_user.
  cbv zeta.
  destruct (extract_interests json_loads (interests_reply c) memory)
    as [|interest rest] eqn:Hinterests.
  { cbn [fst snd].
    split; [apply NoDup_nil_2|]. split; [intros a Ha; inversion Ha|].
    split; [reflexivity|]. split; reflexivity. }
  destruct (search_interests_fresh now (search_brave c) (take 3 (interest :: rest)) 0
              (default ∅ (seen_urls g !! MemoryManager.user_id memory)))
    as (Hnodup & Hfresh & Hsub & Hall & Hin).
  destruct (search_interests now (search_brave c) 0 _ _) as [articles seen1].
  cbn [fst snd] in *.
  unfold seen_of. cbn [seen_urls]. rewrite lookup_insert_eq. cbn [default from_option id].
  rewrite search_interests_all_seen by exact Hall.
  cbn [fst snd seen_urls]. rewrite lookup_insert_eq. cbn [default from_option id].
  split; [exact Hnodup|]. split.
  { intros a Ha. split; [apply Hfresh, Ha | apply Hin, Ha]. }
  split; [exact Hsub|]. split; reflexivity.
Qed.

Lemma daily_quota_resets_on_a_new_date_witness :
  last_share_reset new_gatherer !! "42" = None
  /\ shares_of
       (Nat.iter 3 (_increment_daily_shares "42")
          (_can_share_today example_config (seconds 100) "42" new_gatherer).2) "42"
     = 3%Z.
Proof.
  split; [reflexivity|].
  destruct (daily_quota_resets_on_a_new_date example_config (seconds 100) (seconds 90000)
              "42" 3 new_gatherer) as (Hshares & _); [reflexivity | exact Hshares].
Defined.

(** ** The choice of the article to share *)

Lemma Qgt_bool_iff (a b : Q) : negb (Qle_bool a b) = true <-> (b < a)%Q.
Proof.
  destruct (Qle_bool a b) eqn:Hle; cbn.
  - apply Qle_bool_iff in Hle. split; [discriminate|].
    intros Hlt. exfalso. apply (Qlt_not_le _ _ Hlt), Hle.
  - split; [|reflexivity]. intros _. apply Qnot_le_lt. intros Hle'.
    apply Qle_bool_iff in Hle'. congruence.
Qed.

Lemma Qgt_bool_false (a b : Q) : negb (Qle_bool a b) = false <-> (a <= b)%Q.
Proof.
  destruct (Qle_bool a b) eqn:Hle; cbn.
  - apply Qle_bool_iff in Hle. split; [intros _; exact Hle | reflexivity].
  - split; [discriminate|]. intros Hle'. apply Qle_bool_iff in Hle'. congruence.
Qed.

(** The loop of [find_shareable_article]: either no candidate replaces
    the running best, and each is scored at most [best_score] or below
    the threshold; or the result is the first candidate with the
    greatest score. *)
Lemma pick_best_spec config json_loads relevance : forall articles i best best_score result,
  pick_best config json_loads relevance i articles best best_score = Some result ->
  (result = best
   /\ forall k a, articles !! k = Some a ->
        exists q,
          as_number (evaluate_article_relevance json_loads (relevance (i + k))) = Some q
          /\ ((q <= best_score)%Q \/ (q < INFO_SHARE_MOTIVATION_THRESHOLD config)%Q))
  \/ exists j a q,
       articles !! j = Some a
       /\ as_number (evaluate_article_relevance json_loads (relevance (i + j))) = Some q
       /\ result
          = Some (set_relevance_score
                    (evaluate_article_relevance json_loads (relevance (i + j))) a)
       /\ (best_score < q)%Q
       /\ (INFO_SHARE_MOTIVATION_THRESHOLD config <= q)%Q
       /\ forall k a', articles !! k = Some a' ->
            exists q',
              as_number (evaluate_article_relevance json_loads (relevance (i + k)))
              = Some q'
              /\ (q' <= q)%Q /\ (k < j -> (q' < q)%Q).
Proof.
  induction articles as [|article rest IH]; intros i best best_score result Hpick.
  { cbn in Hpick. injection Hpick as <-. left. split; [reflexivity|].
    intros k a Hk. discriminate. }
  cbn [pick_best] in Hpick.
  destruct (as_number (evaluate_article_relevance json_loads (relevance i)))
    as [q0|] eqn:Hq0; [|discriminate].
  destruct (negb (Qle_bool q0 best_score)) eqn:Hgt.
  - destruct (Qle_bool (INFO_SHARE_MOTIVATION_THRESHOLD config) q0) eqn:Hthr;
      cbn [andb] in Hpick.
    + apply Qgt_bool_iff in Hgt. apply Qle_bool_iff in Hthr.
      destruct (IH _ _ _ _ Hpick) as [[-> Hrest]|(j & a & q & Hj & Hq & -> & Hlt & Hge & Hall)].
      * right. exists 0, article, q0. rewrite Nat.add_0_r.
        split; [reflexivity|]. split; [exact Hq0|]. split; [reflexivity|].
        split; [exact Hgt|]. split; [exact Hthr|].
        intros [|k] a' Hk.
        -- rewrite Nat.add_0_r. exists q0. split; [exact Hq0|].
           split; [apply Qle_refl | lia].
        -- destruct (Hrest k a' Hk) as (q' & Hq' & Hle).
           replace (i + S k) with (S i + k) by lia.
           exists q'. split; [exact Hq'|]. split; [|lia].
           destruct Hle as [Hle|Hlow]; [exact Hle|].
           apply Qlt_le_weak, (Qlt_le_trans _ _ _ Hlow Hthr).
      * right. exists (S j), a, q. replace (i + S j) with (S i + j) by lia.
        split; [exact Hj|]. split; [exact Hq|]. split; [reflexivity|].
        split; [apply (Qlt_trans _ _ _ Hgt Hlt)|]. split; [exact Hge|].
        intros [|k] a' Hk.
        -- rewrite Nat.add_0_r. exists q0. split; [exact Hq0|].
           split; [apply Qlt_le_weak, Hlt | intros _; exact Hlt].
        -- destruct (Hall k a' Hk) as (q' & Hq' & Hle & Hbefore).
           replace (i + S k) with (S i + k) by lia.
           exists q'. split; [exact Hq'|]. split; [exact Hle|].
           intros Hk'. apply Hbefore. lia.
    + cbn [andb] in Hpick.
      assert ((q0 < INFO_SHARE_MOTIVATION_THRESHOLD config)%Q) as Hlow.
      { apply Qnot_le_lt. intros Hle. apply Qle_bool_iff in Hle. congruence. }
      destruct (IH _ _ _ _ Hpick) as [[-> Hrest]|(j & a & q & Hj & Hq & -> & Hlt & Hge & Hall)].
      * left. split; [reflexivity|]. intros [|k] a' Hk.
        -- rewrite Nat.add_0_r. exists q0. split; [exact Hq0 | right; exact Hlow].
        -- replace (i + S k) with (S i + k) by lia. apply (Hrest k a' Hk).
      * right. exists (S j), a, q. replace (i + S j) with (S i + j) by lia.
        split; [exact Hj|]. split; [exact Hq|]. split; [reflexivity|].
        split; [exact Hlt|]. split; [exact Hge|].
        intros [|k] a' Hk.
        -- rewrite Nat.add_0_r. exists q0. split; [exact Hq0|].
           pose proof (Qlt_le_trans _ _ _ Hlow Hge) as Hlt0.
           split; [apply Qlt_le_weak, Hlt0 | intros _; exact Hlt0].
        -- destruct (Hall k a' Hk) as (q' & Hq' & Hle & Hbefore).
           replace (i + S k) with (S i + k) by lia.
           exists q'. split; [exact Hq'|]. split; [exact Hle|].
           intros Hk'. apply Hbefore. lia.
  - cbn [andb] in Hpick. apply Qgt_bool_false in Hgt.
    destruct (IH _ _ _ _ Hpick) as [[-> Hrest]|(j & a & q & Hj & Hq & -> & Hlt & Hge & Hall)].
    + left. split; [reflexivity|]. intros [|k] a' Hk.
      * rewrite Nat.add_0_r. exists q0. split; [exact Hq0 | left; exact Hgt].
      * replace (i + S k) with (S i + k) by lia. apply (Hrest k a' Hk).
    + right. exists (S j), a, q. replace (i + S j) with (S i + j) by lia.
      split; [exact Hj|]. split; [exact Hq|]. split; [reflexivity|].
      split; [exact Hlt|]. split; [exact Hge|].
      intros [|k] a' Hk.
      * rewrite Nat.add_0_r. exists q0. split; [exact Hq0|].
        pose proof (Qle_lt_trans _ _ _ Hgt Hlt) as Hlt0.
        split; [apply Qlt_le_weak, Hlt0 | intros _; exact Hlt0].
      * destruct (Hall k a' Hk) as (q' & Hq' & Hle & Hbefore).
        replace (i + S k) with (S i + k) by lia.
        exists q'. split; [exact Hq'|]. split; [exact Hle|].
        intros Hk'. apply Hbefore. lia.
Qed.

(** X18. An article that [find_shareable_article] returns was allowed
    by the quota check, is one of the candidates of this search, marked
    as shared and carrying its score, and is the first candidate with
    the greatest score: the score is a positive number, reaches the
    share threshold, no candidate is scored higher and every earlier
    candidate is scored lower.  The message is the stripped reply of
    the rendering call and is not empty. *)
Theorem shared_article_is_first_best config json_loads now c memory g article message :
  (find_shareable_article config json_loads now c memory g).1
  = Returned (Some (article, message)) ->
  let checked := _can_share_today config now (user_id memory) g in
  let found := (search_for_user json_loads now c memory checked.2).1 in
  checked.1 = true
  /\ message = generate_share_message (share_reply c)
  /\ message <> ""
  /\ shared article = true
  /\ exists j candidate q,
       found !! j = Some candidate
       /\ article = set_shared true (set_relevance_score (candidate_score json_loads c j) candidate)
       /\ as_number (candidate_score json_loads c j) = Some q
       /\ (0 < q)%Q
       /\ (INFO_SHARE_MOTIVATION_THRESHOLD config <= q)%Q
       /\ forall k other, found !! k = Some other ->
            exists q',
              as_number (candidate_score json_loads c k) = Some q'
              /\ (q' <= q)%Q /\ (k < j -> (q' < q)%Q).
Proof.
  intros Hresult checked found. subst found. revert Hresult.
  unfold find_shareable_article. fold checked.
  destruct checked as [allowed g1]. cbn [fst snd].
  destruct allowed; cbn [negb]; [|discriminate].
  destruct (search_for_user json_loads now c memory g1) as [articles g2]. cbn [fst snd].
  destruct articles as [|first rest]; [discriminate|].
  destruct (pick_best config json_loads (relevance_reply c) 0 (first :: rest) None 0)
    as [[best|]|] eqn:Hpick; try discriminate.
  destruct (String.eqb_spec (generate_share_message (share_reply c)) "") as [Hempty|Hmsg];
    cbn [negb fst]; [discriminate|].
  intros Hresult. injection Hresult as <- <-.
  split; [reflexivity|]. split; [reflexivity|]. split; [exact Hmsg|].
  split; [reflexivity|].
  destruct (pick_best_spec _ _ _ _ _ _ _ _ Hpick)
    as [[Hnone _]|(j & a & q & Hj & Hq & Hbest & Hpos & Hthr & Hall)]; [discriminate|].
  injection Hbest as ->. exists j, a, q. unfold candidate_score.
  repeat split; assumption.
Qed.

Lemma shared_article_is_first_best_witness :
  (find_shareable_article example_config Decoder.json_loads (seconds 100)
     qualified_search full_memory.2 new_gatherer).1
  = Returned (Some (noodle_article, "Look at this!"))
  /\ shared noodle_article = true.
Proof.
  assert ((find_shareable_article example_config Decoder.json_loads (seconds 100)
             qualified_search full_memory.2 new_gatherer).1
          = Returned (Some (noodle_article, "Look at this!"))) as Hresult
    by (vm_compute; reflexivity).
  split; [exact Hresult|].
  destruct (shared_article_is_first_best example_config Decoder.json_loads (seconds 100)
              qualified_search full_memory.2 new_gatherer noodle_article
              "Look at this!" Hresult) as (_ & _ & _ & Hshared & _).
  exact Hshared.
Defined.

(** ** The two proactive loops of the bot *)

Lemma can_intervene_below_limit config now m :
  can_intervene config now m = true ->
  (Z.of_nat (consecutive_ai_messages m) < MAX_CONSECUTIVE_INTERVENTIONS config)%Z.
Proof.
  unfold can_intervene.
  destruct (Z.leb_spec (MAX_CONSECUTIVE_INTERVENTIONS config)
              (Z.of_nat (consecutive_ai_messages m))); [discriminate | intros _; lia].
Qed.

Lemma process_proactive_cycle_speaks config json_loads now r h m text st :
  InnerThoughtsEngine.process_proactive_cycle config json_loads now r (h, m)
  = (Returned (Some text), st) ->
  can_intervene config now m = true.
Proof.
  unfold InnerThoughtsEngine.process_proactive_cycle.
  destruct (can_intervene config now m); [reflexivity | discriminate].
Qed.

Lemma process_proactive_cycle_store config json_loads now r h m :
  let m' := (InnerThoughtsEngine.process_proactive_cycle config json_loads now r (h, m)).2.2 in
  user_id m' = user_id m
  /\ short_term m' = short_term m
  /\ long_term m' = long_term m
  /\ last_user_message_time m' = last_user_message_time m
  /\ last_ai_message_time m' = last_ai_message_time m
  /\ consecutive_ai_messages m' = consecutive_ai_messages m.
Proof.
  cbv zeta.
  destruct (cycle_state config json_loads now r h m)
    as [->|[(formed & ->)|(formed & stored & -> & _)]]; repeat split; reflexivity.
Qed.

Lemma find_shareable_article_message config json_loads now c memory g article message :
  (find_shareable_article config json_loads now c memory g).1
  = Returned (Some (article, message)) ->
  message <> "".
Proof.
  unfold find_shareable_article.
  destruct (_can_share_today config now (user_id memory) g) as [allowed g1].
  destruct allowed; cbn [negb fst]; [|discriminate].
  destruct (search_for_user json_loads now c memory g1) as [articles g2].
  destruct articles as [|first rest]; [discriminate|].
  destruct (pick_best _ _ _ _ _ _ _) as [[best|]|]; try discriminate.
  destruct (String.eqb_spec (generate_share_message (share_reply c)) "") as [Hempty|Hmsg];
    cbn [negb fst]; [discriminate|].
  intros Hresult. injection Hresult as _ <-. exact Hmsg.
Qed.

(** What one pass does to the store and the trace. *)
Lemma run_pass_step config json_loads search_interval uid p s :
  let s' := run_pass config json_loads search_interval uid s p in
  let m := session_memory s in
  let m' := session_memory s' in
  user_id m' = user_id m
  /\ long_term m' = long_term m
  /\ last_user_message_time m' = last_user_message_time m
  /\ ((session_events s' = session_events s
       /\ short_term m' = short_term m
       /\ consecutive_ai_messages m' = consecutive_ai_messages m
       /\ last_ai_message_time m' = last_ai_message_time m)
      \/ exists text,
           text <> ""
           /\ can_intervene config (gate_clock p) m = true
           /\ session_events s'
              = session_events s
                ++ ProactiveAIBot.log_ai_response uid text true
                   :: (if send_returns p then [ProactiveAIBot.send text] else [])
           /\ short_term m'
              = deque_append (SHORT_TERM_MEMORY_SIZE config) (short_term m)
                  (Message.mk "assistant" text (recorded_clock p) (user_id m))
           /\ consecutive_ai_messages m' = S (consecutive_ai_messages m)
           /\ last_ai_message_time m' = Some (recorded_clock p)).
Proof.
  intros s' m m'. subst s' m m'.
  destruct p as [p|p]; cbn [run_pass gate_clock recorded_clock send_returns].
  - unfold proactive_cycle.
    pose proof (process_proactive_cycle_store config json_loads (thought_pass_now p)
                  (thought_pass_replies p) (session_heap s) (session_memory s)) as Hstore.
    destruct (InnerThoughtsEngine.process_proactive_cycle config json_loads
                (thought_pass_now p) (thought_pass_replies p)
                (session_heap s, session_memory s)) as [response [h memory]] eqn:Hcycle.
    cbv zeta in Hstore. cbn [fst snd] in Hstore.
    destruct Hstore as (Hu & Hs & Hl & Hlu & Hla & Hc).
    destruct response as [[text|]|]; cbn [session_memory session_events];
      try (split; [exact Hu|]; split; [exact Hl|]; split; [exact Hlu|]; left;
           repeat split; assumption).
    destruct (String.eqb_spec text "") as [Hempty|Htext]; cbn [negb andb];
      [split; [exact Hu|]; split; [exact Hl|]; split; [exact Hlu|]; left;
       repeat split; assumption|].
    destruct (thought_pass_channel p); cbn [session_memory session_events];
      [|split; [exact Hu|]; split; [exact Hl|]; split; [exact Hlu|]; left;
        repeat split; assumption].
    unfold deliver, add_message. cbn [String.eqb Ascii.eqb Bool.eqb fst snd
      user_id short_term long_term last_user_message_time last_ai_message_time
      consecutive_ai_messages].
    split; [exact Hu|]. split; [exact Hl|]. split; [exact Hlu|]. right.
    exists text. split; [exact Htext|].
    split; [apply (process_proactive_cycle_speaks _ _ _ _ _ _ _ _ Hcycle)|].
    split; [reflexivity|]. rewrite Hs, Hu, Hc.
    split; [reflexivity|].
    split; [cbn [session_memory consecutive_ai_messages]; lia | reflexivity].
  - unfold information_gathering_cycle. cbv zeta.
    destruct (match last_info_search s !! uid with
              | Some last_search => (share_pass_started p - last_search <? search_interval)%Z
              | None => false
              end); [repeat split; left; repeat split; reflexivity|].
    destruct (bool_decide (long_term (session_memory s) = []));
      [repeat split; left; repeat split; reflexivity|].
    destruct (can_intervene config (share_pass_gate p) (session_memory s)) eqn:Hgate;
      cbn [negb]; [|repeat split; left; repeat split; reflexivity].
    pose proof (find_shareable_article_message config json_loads (share_pass_now p)
                  (share_pass_capabilities p) (session_memory s) (session_gatherer s))
      as Hmessage.
    destruct (find_shareable_article config json_loads (share_pass_now p)
                (share_pass_capabilities p) (session_memory s) (session_gatherer s))
      as [result g].
    cbn [fst] in Hmessage.
    destruct result as [[[article message]|]|]; cbn [session_memory session_events];
      try (repeat split; left; repeat split; reflexivity).
    destruct (share_pass_channel p); cbn [session_memory session_events];
      [|repeat split; left; repeat split; reflexivity].
    unfold deliver, add_message. cbn [String.eqb Ascii.eqb Bool.eqb fst snd
      user_id short_term long_term last_user_message_time last_ai_message_time
      consecutive_ai_messages].
    split; [reflexivity|]. split; [reflexivity|]. split; [reflexivity|]. right.
    exists message. split; [apply (Hmessage article message eq_refl)|].
    split; [reflexivity|]. split; [reflexivity|].
    split; [reflexivity|].
    split; [cbn [session_memory consecutive_ai_messages]; lia | reflexivity].
Qed.

Lemma sent_app events events' : sent (events ++ events') = sent events + sent events'.
Proof. unfold sent. rewrite filter_app, length_app. reflexivity. Qed.

Lemma logged_app events events' :
  logged (events ++ events') = logged events + logged events'.
Proof. unfold logged. rewrite filter_app, length_app. reflexivity. Qed.

(** X19. A pass of either proactive loop records an agent message only
    when [can_intervene] held for the store as the pass found it; the
    text is not empty, recording it adds one to the counter of
    consecutive agent messages and sets the time of the last one, and
    it is logged as proactive.  The message is sent after it has been
    recorded and logged, so that a send that raises leaves it recorded
    and logged but not sent.  A pass that records nothing sends
    nothing and leaves the trace, the short-term window, the counter
    and that time as they were.  No pass changes the long-term facts or
    the time of the last user message. *)
Theorem proactive_pass_speaks_through_the_gate config json_loads search_interval uid p s :
  let s' := run_pass config json_loads search_interval uid s p in
  let m := session_memory s in
  let m' := session_memory s' in
  long_term m' = long_term m
  /\ last_user_message_time m' = last_user_message_time m
  /\ ((session_events s' = session_events s
       /\ short_term m' = short_term m
       /\ consecutive_ai_messages m' = consecutive_ai_messages m
       /\ last_ai_message_time m' = last_ai_message_time m)
      \/ exists text,
           text <> ""
           /\ can_intervene config (gate_clock p) m = true
           /\ session_events s'
              = session_events s
                ++ ProactiveAIBot.log_ai_response uid text true
                   :: (if send_returns p then [ProactiveAIBot.send text] else [])
           /\ short_term m'
              = deque_append (SHORT_TERM_MEMORY_SIZE config) (short_term m)
                  (Message.mk "assistant" text (recorded_clock p) (user_id m))
           /\ consecutive_ai_messages m' = S (consecutive_ai_messages m)
           /\ last_ai_message_time m' = Some (recorded_clock p)).
Proof.
  intros s' m m'.
  destruct (run_pass_step config json_loads search_interval uid p s) as (_ & Hl & Hlu & Hsend).
  split; [exact Hl|]. split; [exact Hlu | exact Hsend].
Qed.

(** X20. However many passes of the two loops run while the user sends
    nothing, whatever the capabilities answer and whichever sends
    raise, the proactive messages logged are counted by the counter of
    consecutive agent messages, the messages sent are at most the
    messages logged, and both are at most
    [MAX_CONSECUTIVE_INTERVENTIONS] less the value the counter had:
    none is sent when the counter had reached the limit. *)
Theorem proactive_messages_are_bounded config json_loads search_interval uid passes :
  forall s,
  let s' := run_passes config json_loads search_interval uid passes s in
  let before := consecutive_ai_messages (session_memory s) in
  logged (session_events s') + before
  = logged (session_events s) + consecutive_ai_messages (session_memory s')
  /\ sent (session_events s) <= sent (session_events s')
  /\ sent (session_events s') + logged (session_events s)
     <= sent (session_events s) + logged (session_events s')
  /\ (Z.of_nat (logged (session_events s'))
      <= Z.of_nat (logged (session_events s))
         + Z.max 0 (MAX_CONSECUTIVE_INTERVENTIONS config - Z.of_nat before))%Z
  /\ (Z.of_nat (sent (session_events s'))
      <= Z.of_nat (sent (session_events s))
         + Z.max 0 (MAX_CONSECUTIVE_INTERVENTIONS config - Z.of_nat before))%Z.
Proof.
  induction passes as [|p passes IH]; intros s; cbv zeta.
  { cbn. split; [reflexivity|]. repeat split; lia. }
  unfold run_passes. cbn [foldl].
  specialize (IH (run_pass config json_loads search_interval uid s p)).
  cbv zeta in IH. unfold run_passes in IH.
  destruct IH as (Hcount & Hmono & Hfewer & Hlogged & Hbound).
  destruct (run_pass_step config json_loads search_interval uid p s)
    as (_ & _ & _ & [(Hevents & _ & Hc & _)|(text & _ & Hgate & Hevents & _ & Hc & _)]).
  - rewrite Hevents, Hc in *. repeat split; assumption.
  - apply can_intervene_below_limit in Hgate.
    rewrite Hevents, Hc, sent_app, logged_app in *.
    assert (logged (ProactiveAIBot.log_ai_response uid text true
                    :: (if send_returns p then [ProactiveAIBot.send text] else [])) = 1)
      as Hone by (destruct (send_returns p); reflexivity).
    assert (sent (ProactiveAIBot.log_ai_response uid text true
                  :: (if send_returns p then [ProactiveAIBot.send text] else [])) <= 1)
      as Hmost by (destruct (send_returns p); vm_compute; lia).
    rewrite Hone in *.
    repeat split; lia.
Qed.

(** ** The message handler *)

Lemma classify_reaction_symbol json_loads error_text r symbol :
  ResponseClassifier.reaction (ResponseClassifier.classify json_loads error_text r)
  = Some symbol ->
  exists tag, ResponseClassifier.table_get ResponseClassifier.REACTIONS tag = Some symbol.
Proof.
  unfold ResponseClassifier.classify.
  destruct r as [text|message]; [|discriminate].
  destruct (truthy _); cbn [negb]; [|discriminate].
  destruct (py_get _ "action" _) as [action|]; [|discriminate].
  destruct (py_get _ "reaction_type" _) as [reaction_type|]; [|discriminate].
  destruct (py_get _ "reason" _) as [reason|]; [|discriminate].
  destruct (truthy reaction_type); [|discriminate].
  destruct reaction_type as [| | |tag| |]; cbn; try discriminate.
  intros Hsymbol. exists tag. exact Hsymbol.
Qed.

Lemma save_memories_disk config now new_memories : forall st,
  let st' := ProactiveAIBot.save_memories config now new_memories st in
  user_id st'.2 = user_id st.2
  /\ forall path, path <> long_term_path (user_id st.2) -> st'.1 !! path = st.1 !! path.
Proof.
  induction new_memories as [|mem rest IH]; intros st; cbn [ProactiveAIBot.save_memories].
  - split; [reflexivity | intros path _; reflexivity].
  - destruct (ProactiveAIBot.memory_entry mem) as [[[key content] importance]|];
      [|split; [reflexivity | intros path _; reflexivity]].
    destruct st as [dk m].
    destruct (IH (add_long_term_memory config now key content importance (dk, m)).2)
      as [Huser Hdisk].
    rewrite add_long_term_memory_user_id in Huser, Hdisk. cbn [fst snd] in *.
    split; [exact Huser|].
    intros path Hpath. rewrite (Hdisk path Hpath), add_long_term_memory_disk.
    apply lookup_insert_ne. congruence.
Qed.

(** The store and the trace that the handler leaves, whatever the
    replies are. *)
Lemma on_message_shape config json_loads error_text now r uid content bot :
  let memory0 := (ProactiveAIBot._get_memory uid bot).1 in
  let memory1 := (add_message config now "user" content memory0).2 in
  let decision :=
    ResponseClassifier.classify json_loads error_text (ProactiveAIBot.classify_reply r) in
  let response :=
    InnerThoughtsEngine.generate_reactive_response (ProactiveAIBot.reactive_reply r) in
  let bot' := ProactiveAIBot.on_message config json_loads error_text now r uid content bot in
  exists memory2 memory3 tail,
    ProactiveAIBot.memories bot' = <[uid := memory3]> (ProactiveAIBot.memories bot)
    /\ ProactiveAIBot.events bot'
       = ProactiveAIBot.events bot ++ ProactiveAIBot.log_user_message uid content :: tail
    /\ (forall path, path <> long_term_path (user_id memory0) ->
          ProactiveAIBot.files bot' !! path = ProactiveAIBot.files bot !! path)
    /\ user_id memory3 = user_id memory0
    /\ short_term memory3 = short_term memory2
    /\ consecutive_ai_messages memory3 = consecutive_ai_messages memory2
    /\ last_ai_message_time memory3 = last_ai_message_time memory2
    /\ last_user_message_time memory3 = Some now
    /\ ((ProactiveAIBot.py_eq_str (ResponseClassifier.action decision) "react" = true
         /\ (exists symbol,
               ResponseClassifier.reaction decision = Some symbol
               /\ tail = [ProactiveAIBot.add_reaction symbol;
                          ProactiveAIBot.log_ai_response uid
                            ("[reaction: " +:+ symbol +:+ "]") false])
         /\ memory2 = memory1)
        \/ ((ProactiveAIBot.py_eq_str (ResponseClassifier.action decision) "react" = false
             \/ ResponseClassifier.reaction decision = None)
            /\ ProactiveAIBot.py_eq_str (ResponseClassifier.action decision) "reply" = true
            /\ tail = [ProactiveAIBot.log_ai_response uid response false;
                       ProactiveAIBot.send response]
            /\ memory2
               = if str_contains "調子悪いみたい..." response then memory1
                 else (add_message config now "assistant" response memory1).2)
        \/ (ProactiveAIBot.py_eq_str (ResponseClassifier.action decision) "reply" = false
            /\ tail = [] /\ memory2 = memory1)).
Proof.
  intros memory0 memory1 decision response bot'.
  subst bot'. unfold ProactiveAIBot.on_message.
  destruct (ProactiveAIBot._get_memory uid bot) as [m0 bot0] eqn:Hget.
  assert (ProactiveAIBot.events bot0 = ProactiveAIBot.events bot
          /\ ProactiveAIBot.files bot0 = ProactiveAIBot.files bot
          /\ forall m, <[uid := m]> (ProactiveAIBot.memories bot0)
                       = <[uid := m]> (ProactiveAIBot.memories bot))
    as (Hevents & Hfiles & Hmemories).
  { unfold ProactiveAIBot._get_memory in Hget.
    destruct (ProactiveAIBot.memories bot !! uid); injection Hget as <- <-;
      cbn [ProactiveAIBot.events ProactiveAIBot.files ProactiveAIBot.memories];
      repeat split; try reflexivity.
    intros m. apply insert_insert_eq. }
  subst memory0 memory1. cbn [fst]. fold decision. fold response.
  set (m1 := (add_message config now "user" content m0).2).
  assert (user_id m1 = user_id m0 /\ last_user_message_time m1 = Some now) as [Hu1 Hlu1].
  { subst m1. unfold add_message. cbn. split; reflexivity. }
  match goal with
  | |- context [let '(memory2, events2) := ?e in _] =>
      assert (exists memory2 tail,
                e = (memory2,
                     ProactiveAIBot.events bot
                     ++ ProactiveAIBot.log_user_message uid content :: tail)
                /\ user_id memory2 = user_id m0
                /\ last_user_message_time memory2 = Some now
                /\ ((ProactiveAIBot.py_eq_str (ResponseClassifier.action decision) "react"
                     = true
                     /\ (exists symbol,
                           ResponseClassifier.reaction decision = Some symbol
                           /\ tail = [ProactiveAIBot.add_reaction symbol;
                                      ProactiveAIBot.log_ai_response uid
                                        ("[reaction: " +:+ symbol +:+ "]") false])
                     /\ memory2 = m1)
                    \/ ((ProactiveAIBot.py_eq_str (ResponseClassifier.action decision)
                           "react" = false
                         \/ ResponseClassifier.reaction decision = None)
                        /\ ProactiveAIBot.py_eq_str (ResponseClassifier.action decision)
                             "reply" = true
                        /\ tail = [ProactiveAIBot.log_ai_response uid response false;
                                   ProactiveAIBot.send response]
                        /\ memory2
                           = if str_contains "調子悪いみたい..." response then m1
                             else (add_message config now "assistant" response m1).2)
                    \/ (ProactiveAIBot.py_eq_str (ResponseClassifier.action decision)
                          "reply" = false
                        /\ tail = [] /\ memory2 = m1)))
        as (memory2 & tail & -> & Hu2 & Hlu2 & Hcases)
  end.
  { rewrite Hevents.
    destruct (ProactiveAIBot.py_eq_str (ResponseClassifier.action decision) "react")
      eqn:Hreact.
    - destruct (ResponseClassifier.reaction decision) as [symbol|] eqn:Hsymbol.
      + rewrite bool_decide_eq_true_2 by (exists symbol; reflexivity). cbn [andb].
        eexists m1, _. split; [rewrite <- app_assoc; reflexivity|].
        split; [exact Hu1|]. split; [exact Hlu1|]. left.
        split; [reflexivity|]. split; [|reflexivity].
        exists symbol. split; reflexivity.
      + rewrite bool_decide_eq_false_2 by (intros [x Hx]; discriminate). cbn [andb].
        destruct (ProactiveAIBot.py_eq_str (ResponseClassifier.action decision) "reply")
          eqn:Hreply.
        * eexists _, _. split; [rewrite <- app_assoc; reflexivity|].
          split; [destruct (str_contains _ _); cbn [negb]; [exact Hu1|];
                  rewrite add_message_user_id; exact Hu1|].
          split; [destruct (str_contains _ _); cbn [negb]; [exact Hlu1|];
                  unfold add_message; cbn; exact Hlu1|].
          right. left. split; [right; reflexivity|]. split; [reflexivity|].
          split; [reflexivity|]. destruct (str_contains _ _); reflexivity.
        * eexists m1, []. split; [reflexivity|]. split; [exact Hu1|].
          split; [exact Hlu1|]. right. right. repeat split; reflexivity.
    - cbn [andb].
      destruct (ProactiveAIBot.py_eq_str (ResponseClassifier.action decision) "reply")
        eqn:Hreply.
      + eexists _, _. split; [rewrite <- app_assoc; reflexivity|].
        split; [destruct (str_contains _ _); cbn [negb]; [exact Hu1|];
                rewrite add_message_user_id; exact Hu1|].
        split; [destruct (str_contains _ _); cbn [negb]; [exact Hlu1|];
                unfold add_message; cbn; exact Hlu1|].
        right. left. split; [left; reflexivity|]. split; [reflexivity|].
        split; [reflexivity|]. destruct (str_contains _ _); reflexivity.
      + eexists m1, []. split; [reflexivity|]. split; [exact Hu1|].
        split; [exact Hlu1|]. right. right. repeat split; reflexivity. }
  match goal with
  | |- context [let '(files3, memory3) := ?e in _] =>
      assert (exists files3 memory3,
                e = (files3, memory3)
                /\ (forall path, path <> long_term_path (user_id m0) ->
                      files3 !! path = ProactiveAIBot.files bot !! path)
                /\ user_id memory3 = user_id m0
                /\ short_term memory3 = short_term memory2
                /\ consecutive_ai_messages memory3 = consecutive_ai_messages memory2
                /\ last_ai_message_time memory3 = last_ai_message_time memory2
                /\ last_user_message_time memory3 = Some now)
        as (files3 & memory3 & -> & Hdisk & Hu3 & Hs & Hc & Hl & Hlu3)
  end.
  { rewrite Hfiles. destruct (_ && _).
    - unfold ProactiveAIBot._extract_and_save_memories.
      pose proof (save_memories_frame config now
                    (ProactiveAIBot.extract_memories json_loads
                       (ProactiveAIBot.extraction_reply r))
                    (ProactiveAIBot.files bot, memory2)) as (Hs & Hc & Hl & Hu).
      pose proof (save_memories_disk config now
                    (ProactiveAIBot.extract_memories json_loads
                       (ProactiveAIBot.extraction_reply r))
                    (ProactiveAIBot.files bot, memory2)) as (Huser & Hdisk).
      destruct (ProactiveAIBot.save_memories _ _ _ _) as [files3 memory3].
      exists files3, memory3. cbn [fst snd] in *.
      split; [reflexivity|]. split; [rewrite <- Hu2; exact Hdisk|].
      split; [congruence|]. split; [exact Hs|]. split; [exact Hc|]. split; [exact Hl|].
      congruence.
    - exists (ProactiveAIBot.files bot), memory2.
      split; [reflexivity|]. split; [intros path _; reflexivity|].
      repeat split; assumption. }
  exists memory2, memory3, tail.
  cbn [ProactiveAIBot.memories ProactiveAIBot.events ProactiveAIBot.files].
  split; [apply Hmemories|]. split; [reflexivity|]. split; [exact Hdisk|].
  split; [exact Hu3|]. split; [exact Hs|]. split; [exact Hc|]. split; [exact Hl|].
  split; [exact Hlu3 | exact Hcases].
Qed.

(** X21. The handler of a message of one user leaves the stores of all
    other users and every durable record but that user's as they were;
    it registers a store for the user, whose owner is unchanged and
    whose time of the last user message is the time of the call; and it
    only appends to the trace, first the log line of the message. *)
Theorem on_message_touches_one_user config json_loads error_text now r uid content bot :
  let memory0 := (ProactiveAIBot._get_memory uid bot).1 in
  let bot' := ProactiveAIBot.on_message config json_loads error_text now r uid content bot in
  (forall other, other <> uid ->
     ProactiveAIBot.memories bot' !! other = ProactiveAIBot.memories bot !! other)
  /\ (forall path, path <> long_term_path (user_id memory0) ->
        ProactiveAIBot.files bot' !! path = ProactiveAIBot.files bot !! path)
  /\ (exists memory',
        ProactiveAIBot.memories bot' !! uid = Some memory'
        /\ user_id memory' = user_id memory0
        /\ last_user_message_time memory' = Some now)
  /\ exists tail,
       ProactiveAIBot.events bot'
       = ProactiveAIBot.events bot ++ ProactiveAIBot.log_user_message uid content :: tail.
Proof.
  intros memory0 bot'.
  destruct (on_message_shape config json_loads error_text now r uid content bot)
    as (memory2 & memory3 & tail & Hmemories & Hevents & Hfiles & Hu & _ & _ & _ & Hlu & _).
  fold bot' in Hmemories, Hevents, Hfiles. fold memory0 in Hfiles, Hu.
  split.
  { intros other Hother. rewrite Hmemories. apply lookup_insert_ne. congruence. }
  split; [exact Hfiles|]. split.
  { exists memory3. rewrite Hmemories. split; [apply lookup_insert_eq|].
    split; assumption. }
  exists tail. exact Hevents.
Qed.

(** X22. After the handler has answered a message with a generated
    reply, the store counts one consecutive agent message, and a pass
    of either proactive loop that asks [can_intervene] less than
    [MIN_INTERVENTION_INTERVAL] after the answer sends nothing. *)
Theorem reply_holds_back_proactive_messages config json_loads error_text search_interval
  now r uid content bot text s p :
  ResponseClassifier.action
    (ResponseClassifier.classify json_loads error_text (ProactiveAIBot.classify_reply r))
  = JStr "reply" ->
  ProactiveAIBot.reactive_reply r = Text text ->
  str_contains "調子悪いみたい..." (strip text) = false ->
  let bot' := ProactiveAIBot.on_message config json_loads error_text now r uid content bot in
  ProactiveAIBot.memories bot' !! uid = Some (session_memory s) ->
  (gate_clock p - now < MIN_INTERVENTION_INTERVAL config)%Z ->
  consecutive_ai_messages (session_memory s) = 1
  /\ last_ai_message_time (session_memory s) = Some now
  /\ session_events (run_pass config json_loads search_interval uid s p)
     = session_events s.
Proof.
  intros Haction Hreply Hgenuine bot' Hstore Hsoon.
  destruct (on_message_shape config json_loads error_text now r uid content bot)
    as (memory2 & memory3 & tail & Hmemories & _ & _ & _ & _ & Hc & Hl & _ & Hcases).
  fold bot' in Hmemories. rewrite Hmemories, lookup_insert_eq in Hstore.
  injection Hstore as Hstore. subst memory3.
  rewrite Haction, Hreply in Hcases.
  cbn [ProactiveAIBot.py_eq_str InnerThoughtsEngine.generate_reactive_response] in Hcases.
  replace (String.eqb "reply" "react") with false in Hcases by reflexivity.
  replace (String.eqb "reply" "reply") with true in Hcases by reflexivity.
  rewrite Hgenuine in Hcases.
  destruct Hcases as [(Hreact & _)|[(_ & _ & _ & Hm2)|(Hnone & _)]]; try discriminate.
  subst memory2. unfold add_message in Hc, Hl.
  cbn [String.eqb Ascii.eqb Bool.eqb snd consecutive_ai_messages last_ai_message_time]
    in Hc, Hl.
  split; [exact Hc|]. split; [exact Hl|].
  destruct (run_pass_step config json_loads search_interval uid p s)
    as (_ & _ & _ & [(Hevents & _)|(sent_text & _ & Hgate & _)]); [exact Hevents|].
  exfalso. unfold can_intervene in Hgate. rewrite Hl in Hgate.
  destruct (_ <=? _)%Z; [discriminate|].
  destruct (Z.ltb_spec (gate_clock p - now) (MIN_INTERVENTION_INTERVAL config));
    [discriminate | lia].
Qed.

Lemma reply_holds_back_proactive_messages_witness :
  ProactiveAIBot.memories answered_bot !! "42" = Some (session_memory answered_session)
  /\ session_events (run_pass example_config Decoder.json_loads (seconds 1800) "42"
                       answered_session eager_pass)
     = session_events answered_session.
Proof.
  assert (ProactiveAIBot.memories answered_bot !! "42"
          = Some (session_memory answered_session)) as Hstore
    by (vm_compute; reflexivity).
  split; [exact Hstore|].
  destruct (reply_holds_back_proactive_messages example_config Decoder.json_loads
              (fun _ => "") (seconds 1800) (seconds 9) answered "42" "how are you?"
              bot_with_facts "Fine, and you? " answered_session eager_pass)
    as (_ & _ & Hquiet).
  - vm_compute. reflexivity.
  - reflexivity.
  - vm_compute. reflexivity.
  - exact Hstore.
  - vm_compute. reflexivity.
  - exact Hquiet.
Defined.

(** X23. Whatever the capabilities answer, the handler does one of three
    things after it has logged the message: nothing; or it attaches one
    reaction, which is a symbol of the table [REACTIONS], logs it and
    sends no message; or it logs and sends one reply.  Only a reply that
    is not the fallback is recorded as an agent message: in every other
    case the short-term window is the one reached by recording the user
    message, the counter of consecutive agent messages is 0 and the
    time of the last agent message is unchanged. *)
Theorem on_message_reacts_or_replies config json_loads error_text now r uid content bot :
  let memory0 := (ProactiveAIBot._get_memory uid bot).1 in
  let memory1 := (add_message config now "user" content memory0).2 in
  let bot' := ProactiveAIBot.on_message config json_loads error_text now r uid content bot in
  exists memory' tail,
    ProactiveAIBot.memories bot' !! uid = Some memory'
    /\ ProactiveAIBot.events bot'
       = ProactiveAIBot.events bot ++ ProactiveAIBot.log_user_message uid content :: tail
    /\ let unrecorded :=
         short_term memory' = short_term memory1
         /\ consecutive_ai_messages memory' = 0
         /\ last_ai_message_time memory' = last_ai_message_time memory0 in
       (tail = [] /\ unrecorded)
       \/ (exists tag symbol,
             ResponseClassifier.table_get ResponseClassifier.REACTIONS tag = Some symbol
             /\ tail = [ProactiveAIBot.add_reaction symbol;
                        ProactiveAIBot.log_ai_response uid
                          ("[reaction: " +:+ symbol +:+ "]") false]
             /\ unrecorded)
       \/ exists response,
            tail = [ProactiveAIBot.log_ai_response uid response false;
                    ProactiveAIBot.send response]
            /\ ((str_contains "調子悪いみたい..." response = true /\ unrecorded)
                \/ (str_contains "調子悪いみたい..." response = false
                    /\ short_term memory'
                       = deque_append (SHORT_TERM_MEMORY_SIZE config) (short_term memory1)
                           (Message.mk "assistant" response now (user_id memory0))
                    /\ consecutive_ai_messages memory' = 1
                    /\ last_ai_message_time memory' = Some now)).
Proof.
  intros memory0 memory1 bot'.
  destruct (on_message_shape config json_loads error_text now r uid content bot)
    as (memory2 & memory3 & tail & Hmemories & Hevents & _ & _ & Hs & Hc & Hl & _ & Hcases).
  fold bot' in Hmemories, Hevents. fold memory0 memory1 in Hcases.
  exists memory3, tail. rewrite Hmemories.
  split; [apply lookup_insert_eq|]. split; [exact Hevents|]. cbv zeta.
  rewrite Hs, Hc, Hl.
  assert (short_term memory1 = short_term memory1
          /\ consecutive_ai_messages memory1 = 0
          /\ last_ai_message_time memory1 = last_ai_message_time memory0) as Huser.
  { subst memory1. unfold add_message. cbn. repeat split; reflexivity. }
  destruct Hcases as [(_ & (symbol & Hsymbol & ->) & ->)
                     |[(_ & _ & -> & ->)|(_ & -> & ->)]].
  - right. left.
    destruct (classify_reaction_symbol _ _ _ _ Hsymbol) as [tag Htag].
    exists tag, symbol. split; [exact Htag|]. split; [reflexivity | exact Huser].
  - right. right. eexists. split; [reflexivity|].
    destruct (str_contains _ _) eqn:Hfallback.
    + left. split; [reflexivity | exact Huser].
    + right. split; [reflexivity|]. destruct Huser as (_ & Hzero & _).
      unfold add_message at 1 2 3.
      cbn [String.eqb Ascii.eqb Bool.eqb snd short_term consecutive_ai_messages
           last_ai_message_time].
      rewrite Hzero.
      replace (user_id memory1) with (user_id memory0)
        by (subst memory1; unfold add_message; cbn; reflexivity).
      repeat split; reflexivity.
  - left. split; [reflexivity | exact Huser].
Qed.

(** ** The shape of a classification *)

(** C9 (what the code does). [classify] fails safe on a call that
    raises and on a reply without a usable object, but it does not
    check the shape of an object: the value of [action], whatever it
    is, is passed through, and a [reaction_type] of the table attaches
    its symbol whatever the action is, also when the action is absent
    and defaults to [reply].  The handler then answers only the actions
    [reply] and [react]: for any other value it logs the message and
    does nothing, so that the message is dropped without an answer. *)
Theorem unrecognised_action_is_passed_through config json_loads error_text now r uid
  content bot text fields :
  ProactiveAIBot.classify_reply r = Text text ->
  ResponseClassifier._extract_json json_loads text = JObj fields ->
  fields <> [] ->
  let action := default (JStr "reply") (dict_lookup fields "action") in
  let reaction_type := default JNull (dict_lookup fields "reaction_type") in
  (truthy reaction_type = true ->
   ResponseClassifier.REACTIONS_get reaction_type <> Exception) ->
  let decision := ResponseClassifier.classify json_loads error_text (Text text) in
  let bot' := ProactiveAIBot.on_message config json_loads error_text now r uid content bot in
  ResponseClassifier.action decision = action
  /\ ResponseClassifier.reaction decision
     = match reaction_type with
       | JStr tag => ResponseClassifier.table_get ResponseClassifier.REACTIONS tag
       | _ => None
       end
  /\ (ProactiveAIBot.py_eq_str action "reply" = false ->
      ProactiveAIBot.py_eq_str action "react" = false ->
      ProactiveAIBot.events bot'
      = ProactiveAIBot.events bot ++ [ProactiveAIBot.log_user_message uid content]
      /\ exists memory',
           ProactiveAIBot.memories bot' !! uid = Some memory'
           /\ consecutive_ai_messages memory' = 0
           /\ short_term memory'
              = short_term
                  (add_message config now "user" content
                     (ProactiveAIBot._get_memory uid bot).1).2).
Proof.
  intros Hreply Hobject Hfields action reaction_type Hhashable decision bot'.
  assert (ResponseClassifier.action decision = action
          /\ ResponseClassifier.reaction decision
             = match reaction_type with
               | JStr tag => ResponseClassifier.table_get ResponseClassifier.REACTIONS tag
               | _ => None
               end) as [Haction Hreaction].
  { subst decision. unfold ResponseClassifier.classify. rewrite Hobject.
    replace (truthy (JObj fields)) with true
      by (destruct fields; [contradiction | reflexivity]).
    cbn [negb py_get]. fold action. fold reaction_type.
    clearbody action reaction_type.
    destruct (truthy reaction_type) eqn:Htruthy.
    - specialize (Hhashable eq_refl).
      destruct reaction_type as [| | |tag|items|members];
        try (split; reflexivity); exfalso; apply Hhashable; reflexivity.
    - destruct reaction_type as [| | |tag|items|members]; try (split; reflexivity).
      cbn [truthy] in Htruthy.
      destruct (String.eqb_spec tag "") as [Hempty|]; [|discriminate].
      rewrite Hempty. split; reflexivity. }
  split; [exact Haction|]. split; [exact Hreaction|].
  intros Hnot_reply Hnot_react.
  destruct (on_message_shape config json_loads error_text now r uid content bot)
    as (memory2 & memory3 & tail & Hmemories & Hevents & _ & _ & Hs & Hc & _ & _ & Hcases).
  fold bot' in Hmemories, Hevents. rewrite Hreply in Hcases. fold decision in Hcases.
  rewrite Haction in Hcases.
  destruct Hcases as [(Hreact & _)|[(_ & Hanswer & _)|(_ & -> & ->)]]; try congruence.
  split; [exact Hevents|].
  exists memory3. rewrite Hmemories. split; [apply lookup_insert_eq|].
  split; [rewrite Hc; unfold add_message; reflexivity | exact Hs].
Qed.

Lemma unrecognised_action_is_passed_through_witness :
  let decision := ResponseClassifier.classify Decoder.json_loads (fun _ => "") respond_reply in
  let bot' :=
    ProactiveAIBot.on_message example_config Decoder.json_loads (fun _ => "")
      (seconds 9) misclassified "42" "how are you?" bot_with_facts in
  ResponseClassifier.action decision = JStr "respond"
  /\ ProactiveAIBot.events bot' = [ProactiveAIBot.log_user_message "42" "how are you?"].
Proof.
  destruct (unrecognised_action_is_passed_through example_config Decoder.json_loads
              (fun _ => "") (seconds 9) misclassified "42" "how are you?" bot_with_facts
              (quoted "{'action': 'respond', 'reason': 'a question'}")
              [("action", JStr "respond"); ("reason", JStr "a question")])
    as (Haction & _ & Hdropped).
  - reflexivity.
  - vm_compute. reflexivity.
  - discriminate.
  - intros Htruthy. vm_compute in Htruthy. discriminate.
  - split; [exact Haction|].
    destruct Hdropped as [Hevents _]; [reflexivity | reflexivity | exact Hevents].
Defined.

(** An object without an action and with the tag [thanks]: the decision
    is [reply], with the symbol of the tag attached. *)
Lemma classify_attaches_a_symbol_to_a_reply :
  let decision := ResponseClassifier.classify Decoder.json_loads (fun _ => "") thanks_reply in
  ResponseClassifier.action decision = JStr "reply"
  /\ ResponseClassifier.reaction decision = Some "😊".
Proof. vm_compute. split; reflexivity. Qed.
